(* ===== verification/_CoqProject ===== *)
-Q . S2P
Prelude.v
Console.v
Json.v
UserManager.v
LedgerSpec.v
PendingStore.v
Credentials.v
Validation.v
FieldValidation.v
Admin.v
Api.v
App.v
Keychain.v
Network.v
Delivery.v
Email.v
ActChecker.v
Pipeline.v
Monitor.v
Server.v
