(* ===== verification/Prelude.v ===== *)
(** * A verification development for the Hive account faucet

    The program (menobass/accountfaucet) watches the Hive block stream for
    [custom_json] operations with id [hive_account_faucet], validates the
    request they carry, checks the requester against a token quota, creates
    the requested account with an account-creation token, stores the
    generated credentials in a recovery file, delivers them by email and/or
    an encrypted memo transfer, and finally charges the requester one token
    and drops the recovery record.  Static web pages build and sign the
    request in the browser.

    ** Parts of the program and how they interact

    - [src/unnamed/part_001] lines 1-246 ([UserManager], the quota ledger
      [data/authorized_users.json]), read and written by the monitor and by
      the administrative CLI [src/backend/admin.js].
    - [src/backend/services/blockchain-monitor.js], class [BlockchainMonitor]:
      the recovery store ([loadPending], [addPending], [removePending]), the
      block cursor ([loadLastBlock], [saveLastBlock], [start],
      [streamBlocks], [stop]), the request path ([processBlock],
      [processCustomJson], [validateRequest], [processAccountRequest]),
      account creation ([generateMasterPassword], [generateAccountKeys],
      [checkUsernameAvailability], [createHiveAccount]) and memo delivery
      ([checkHBDBalance], [canSendMemo], [sendAccountMemo]).
    - [src/unnamed/part_001] lines 247-338 ([EmailService]), the mail
      channel, which the monitor's constructor builds; lines 339-425, a
      stand-alone checker of the faucet account's Account Creation Tokens;
      [src/unnamed/part_000], a stand-alone email test; lines 426-522,
      the Express server: the routes [/health],
      [/status], [/monitor/start], [/monitor/stop], the 404 and error
      handlers, the boot call of [start] and [stop] on SIGINT/SIGTERM.
    - The browser side: [src/scripts/validation.js] ([FormValidator]),
      [src/scripts/api.js] ([ApiClient], [MockApiClient]),
      [src/scripts/app.js] (the request page, which signs the request with
      the Keychain extension) and [src/scripts/keychain.js]
      ([KeychainManager] and [HiveAccountApp], a second page whose request
      format the monitor never accepts).

    Data flow: block -> [processCustomJson] -> [validateRequest] ->
    [checkAuthorization] -> [createHiveAccount] -> [addPending] -> email /
    memo -> [useToken] -> [removePending].  The pages reach the chain only
    through the Keychain extension; [ApiClient] calls [/api/...] routes of
    a backend that the repository does not contain.

    ** Files of the development (in dependency order)

    - [Prelude] (this file): the result type and its notation (scope
      [faucet_scope]), the model of a JSON file on disk ([store]: missing,
      corrupt or present, writable or not), JavaScript string helpers
      ([str_includes], [js_space], [js_blank]) and their lemmas (the
      tactic [str_found]), sums over [gmap], list lemmas on [filter] and
      [delete], the hint database [faucet] and the tactics shared by the
      components.
    - [Console]: console output and caught exceptions of the Node code, the
      monad [Logged] (the lines written and a value or the message thrown,
      [try_catch] for a [catch] block) with its laws.
    - [Json]: JSON values and JavaScript member access, truthiness, strict
      equality and [String()]; [validateRequest] and the request literals
      of both pages.
    - [UserManager]: the quota ledger as a [store] of a record with a
      [gmap] of users; every state-changing method is a definition, [um_step]
      and [um_run] apply any sequence of them; the invariant [um_wf].
    - [LedgerSpec]: an abstract ledger (accounts without their derived
      [tokens_remaining] and [metadata]) with five abstract operations, the
      abstraction function [abs], and the refinement of [UserManager].
    - [PendingStore]: the recovery store of generated credentials.
    - [Credentials]: [generateMasterPassword] over the 32 random bytes and the
      seed strings of [generateAccountKeys]; [PrivateKey.fromSeed] is the
      class [KeyDerivation].
    - [Validation]: [FormValidator] with [trim], [toLowerCase] and the two
      regexes as executable definitions.
    - [FieldValidation]: the table of validators, [validateUrl] (over the
      browser's URL parser, a predicate) and the blur and focus listeners
      of [setupRealtimeValidation] over a field's error element.
    - [Admin]: the administrative CLI ([main] of [admin.js], after the
      constructor of [UserManager]) over the ledger operations of
      [UserManager], with JavaScript's [parseInt] on the strings the CLI
      reads.
    - [Api]: every method of [ApiClient] and [MockApiClient]:
      [makeRequest] over the outcome of [fetch] (a response with its [ok]
      flag, status and body, or a rejection with its error name, the
      timeout's [AbortError] included), [submitAccountRequest] split at its
      [await] so that calls interleave ([api_step]), [pollRequestStatus]
      with fuel, [checkAccountAvailability], [checkHealth] and the mock
      endpoints.
    - [App]: the request page of [app.js] as a state record and a step
      function over the page's events and every callback it leaves
      pending (Keychain answers, the debounce timer of the name field,
      the node's answers to availability checks, the status-clear and
      form-reset timers), which run in any order.
    - [Keychain]: the page of [keychain.js]: [KeychainManager] and
      [HiveAccountApp] (Modules of those names) over one page state
      ([Page]), with the extension's callbacks, the debounce timer of the
      name field and the node's answers to availability checks as events
      ([page_step], [page_run]) that come in any order, the real-time
      validation of the name field included; [broadcasts] is a ghost record of what the
      extension broadcast.
    - [Network]: the interfaces (type classes) of the external services the
      monitor calls (the Hive node, the mail transport, memo encryption), the
      laws the pipeline relies on, and executable instances that discharge
      them.
    - [Delivery]: the email and memo channels and the overall-success rule.
    - [Email]: [EmailService] with its console output (constructor,
      [initializeTransporter], [sendAccountCredentials], [testConnection])
      over the environment, the [Config] the monitor's constructor builds,
      and the email test script.
    - [Pipeline]: [processAccountRequest], [processCustomJson] and
      [processBlock] over a world made of the two stores, the ledger and
      the mailbox; concrete runs of the spec's scenarios.
    - [Monitor]: the monitor object, [start], [stop], one iteration of the
      [streamBlocks] loop ([pump_iter], whose body after the fetch is
      [block_done]), a process restart, the step relation [pump_step] and
      its reachable states; [saveLastBlock] writes through a temporary
      file and a rename ([write_atomic]), and a restart may find the cursor
      file or not.
    - [Server]: the Express routes as one function [handle]; the loops of
      [streamBlocks] as suspended threads ([loop_pc]: awaiting the head
      block, [getBlock] or the timer) in a server state [Srv] whose events
      ([srv_step]) are the two monitor routes, the resumption of any loop
      and a process restart.
    - [ActChecker]: the Account Creation Token checker script as a
      [Logged] program over the node's answer: its lines and exit status.

    ** Modelling conventions

    - JavaScript numbers holding token counts and block heights are [Z]
      (they stay far below 2^53, so no rounding is modelled); HBD balances
      are in thousandths ([Z]), which is what [parseFloat] of a 3-decimal
      asset string denotes.
    - JavaScript strings are Rocq strings of code units 0-255; [trim],
      [\s] and [toLowerCase] are modelled on that range.
    - A file read that fails or whose JSON does not parse is the [FCorrupt]
      state of a [store].  [fs.writeFileSync] truncates the file when it
      opens it: a write that throws at the open leaves the file as it was,
      one that throws while writing (a full disk) leaves a truncated,
      unparsable file ([write_mode], [failed_write]).  Both are caught and
      logged by the code, so they are values here, not exceptions.  A throw that the code does not
      catch in a page handler ends in the page's [unhandledrejection]
      listener, which [App] applies; a throw inside an extension callback
      leaves its promise unsettled, which [Keychain] models by a callback
      that changes nothing.  Where console output is the effect that
      matters (the mail service, the stand-alone scripts), it is the list
      of lines of a [Logged] program ([Console]).
    - Calls to external services return a [result]; the services are
      type-class parameters (or function arguments: the node's answers to
      the block pump, the replies to the pages' requests, the outcome of
      [fetch]), so every theorem holds for every behaviour of the network
      that satisfies the stated laws.  Asynchronous callbacks and resumed
      [await]s are events answered in any order.
    - Randomness ([crypto.randomBytes]) and clock values are explicit
      arguments.  Timers only delay the next step and are not modelled.
    - Elsewhere logging ([console.log]) is not modelled; it has no effect
      on state.  The process environment is a [gmap] ([Email.Env]).

    ** Fuel and bounds

    The monitor's loop [while (this.isRunning)] never ends by itself: it is
    modelled one iteration at a time ([pump_iter], [resume]) and over a
    finite list of node answers or events ([stream_run], [srv_run],
    structural on the list), and C27 states what any such prefix of the
    run does.  [pollRequestStatus] recurses until its attempt counter
    reaches [maxAttempts]; [poll] carries fuel and C30 proves the fuel
    [max 1 maxAttempts] given by [pollRequestStatus] is never exhausted.
    [checkKeychain] of [keychain.js] re-arms its timer until
    [retryAttempts] reaches [maxRetries]; its fuel [check_fuel] is
    [max 1 (maxRetries - retryAttempts)] and C35 proves it enough.  The
    password loop runs exactly 50 times over 32 bytes (C22, C23).

    ** What is proved (claims C1-C37)

    - Request pipeline: no token is charged unless delivery succeeded, and
      then exactly one (C8, C9); a failed creation or authorization changes
      nothing (C7); a stranded request keeps its credentials in the
      recovery store (C1), unless the disk is full, in which case the
      write truncates the recovery file and the credentials of every
      stranded account are lost (C11); a replayed request for an existing
      account does nothing (C24); an unknown delivery method creates an
      account without charging (C25).
    - Quota ledger: the accounting invariant is preserved by every
      operation (C2); [tokens_used] never decreases while the disk accepts
      writes (C3); [useToken] on success moves exactly one token from
      remaining to used (C4), and on failure leaves the file as it was or,
      on a full disk, truncated and unreadable (C5); [setTokens] can make
      the remaining count negative (C6); the ledger refines its abstract
      specification over any sequence of operations (C12).
    - Delivery: a memo is sent only if its ciphertext contains neither the
      name nor the password (C10); the mail service, when it is not
      configured, writes the four private keys of every new account to
      the log (C17).
    - Recovery store: what [addPending] leaves in the file for each write
      outcome, the overwrite of a corrupt file included (C21).
    - Composition of the parts: every request of the [keychain.js] page is
      rejected by the monitor (C13), while every one the [app.js] page
      makes reaches [processAccountRequest] with the form's name and
      method (C14); every call of [ApiClient] gets the server's 404 (C15).
    - Server and block pump: [/monitor/stop] then [/monitor/start] while a
      loop is suspended leaves two loops that process the same block
      (C16).  In every state of the pump reachable by iterations, stops,
      starts and restarts, the persisted cursor never runs ahead of the
      height in memory and lags it by less than the save interval while
      writable; when every restart finds the cursor file, no block after
      the start height is skipped (C26); the loop advances one block per
      fetched block (C27); a restart that finds no cursor file skips every
      block between the last one processed and the head (C28).
    - Validator and request formats: exact characterisation of
      [validateRequest] (C20); the username validator accepts exactly the
      hyphen-joined [[a-z0-9]] names of 3-16 characters that are not
      reserved (C29); real-time validation keeps a field's error, class
      and [aria-invalid] consistent with its validator (C19).
    - Credentials: shape and period of the password (C22, C23).
    - API client: [pollRequestStatus] terminates (C30).
    - The [app.js] page: never two account requests in flight (C31),
      every valid name shown as available (C32), the name sent as typed
      (C33), and availability answers that arrive out of order leave the
      message of a name the field no longer holds (C34).
    - The [keychain.js] page: the search for the extension always settles
      (C35); a callback that throws leaves the page processing for ever
      (C36); the field's blur erases the "already taken" message of the
      availability check (C18).
    - Scripts: the ACT checker always exits with status 0 (C37).

    Further lemmas, not numbered, cover the rest of the behaviour: the
    append of [addPending], [removePending] (every record of the name
    removed, the others kept) and the add/remove round trip, the residues of
    the password and the injectivity of the key seeds, the ["both"]
    method, the mail service's results against the delivery model, the
    CLI's invariant and its [stats] figures, [add-user] with a
    zero count, [parseInt] reading back the decimal strings of positive
    integers, the answers of [checkAccountAvailability], the retry of a
    failed status and the single rejection message of [pollRequestStatus],
    the mock client, the one-at-a-time rule of
    [ApiClient.submitAccountRequest], [formatErrorMessage], the email
    matcher, the generic error of [app.js] for an invalid name, the ACT
    checker's verdict, the email test script, [validateUrl], at most one
    broadcast per submission of the [keychain.js] page and its confirmed
    and denied broadcasts.

    ** Not modelled

    Console output outside the mail service and the scripts; the DOM
    updates of the pages beyond the state kept in [App] and [Keychain]
    (icons, scrolling, the loading spinner, [updateDeliveryMethodInfo] and
    [displayRequestFound], which only log); the markup [innerHTML]
    returns for a status message with [&], [<] or [>] (an HTML
    serializer; the model reads the markup back as written); the two
    READMEs of [src/unnamed],
    which are documentation; the URL parser behind [validateUrl] and the
    cryptography of key derivation and memo encryption (libraries: a
    predicate and the classes of [Network] and [Credentials]); the
    printing helpers of [admin.js] ([formatUser], [printUsage]), whose
    output depends on the locale's date format; [generateMockAccountData],
    which nothing calls; [cors] and the listen messages of the server.
    JavaScript's built-ins [parseInt] and [String] are modelled only on the
    values the program handles: decimal and [0x] strings, and integers
    below 10^21 ([String] prints larger ones in exponent form, and rounds
    above 2^53).  [processBlock] reads [tx.operations] of every
    transaction; the model takes a transaction as its list of operations,
    so a block whose transaction has no [operations] field (where the code
    throws a [TypeError], caught by [streamBlocks]) is not represented. *)

From stdpp Require Export base gmap strings list.
From Stdlib Require Export ZArith String Ascii Lia.

(** [String] is exported after stdpp: keep [length] for lists, and write
    [String.length] for strings. *)
Abbreviation length := List.length (only parsing).

Declare Scope faucet_scope.
Delimit Scope faucet_scope with faucet.
Open Scope faucet_scope.

(** ** Results of fallible calls *)

(** A call that may fail; [Err] carries the error text the code logs or
    returns (e.g. [error.message]). *)
Inductive result (A : Type) : Type :=
| Ok (a : A)
| Err (e : string).
Arguments Ok {A} a.
Arguments Err {A} e.

Definition result_bind {A B} (r : result A) (k : A -> result B) : result B :=
  match r with
  | Ok a => k a
  | Err e => Err e
  end.

Notation "x <- c ;; k" := (result_bind c (fun x => k))
  (at level 100, c at next level, right associativity) : faucet_scope.

Definition is_ok {A} (r : result A) : bool :=
  match r with Ok _ => true | Err _ => false end.

(** ** JSON files on disk *)

(** The content of a JSON file the code reads with [fs.readFileSync] and
    [JSON.parse]: absent, unreadable or unparsable, or holding a value. *)
Inductive file (A : Type) : Type :=
| FMissing
| FCorrupt
| FPresent (a : A).
Arguments FMissing {A}.
Arguments FCorrupt {A}.
Arguments FPresent {A} a.

(** How [fs.writeFileSync(f, data)] on the file ends.  Node opens the
    file with flag ['w'], which truncates it, and then writes: the call
    succeeds ([WriteOk]), or throws at the open (permissions, a missing
    directory: [OpenFails], the file untouched), or throws while writing
    (a full disk, an I/O error: [WriteFails], the file left truncated). *)
Inductive write_mode : Type :=
| WriteOk
| OpenFails
| WriteFails.

(** A file together with how a write to it ends. *)
Record store (A : Type) : Type := mkStore {
  st_file : file A;
  st_write : write_mode
}.
Arguments mkStore {A} st_file st_write.
Arguments st_file {A} s.
Arguments st_write {A} s.

Definition st_writable {A} (s : store A) : bool :=
  match st_write s with WriteOk => true | _ => false end.

(** [JSON.parse(fs.readFileSync(f))] inside a [try]: [None] when it throws. *)
Definition read_store {A} (s : store A) : option A :=
  match st_file s with
  | FPresent a => Some a
  | _ => None
  end.

(** What a failed write leaves: the file as it was when the open failed;
    after the truncation, a prefix of the JSON text, which no longer
    parses. *)
Definition failed_write {A} (s : store A) : store A :=
  match st_write s with
  | WriteFails => mkStore FCorrupt WriteFails
  | _ => s
  end.

(** [fs.writeFileSync(f + '.tmp', ...)] then [fs.renameSync(f + '.tmp', f)]
    inside a [try]: the file is replaced whole or not at all. *)
Definition write_atomic {A} (a : A) (s : store A) : bool * store A :=
  match st_write s with
  | WriteOk => (true, mkStore (FPresent a) WriteOk)
  | _ => (false, s)
  end.

(** [fs.writeFileSync(f, JSON.stringify(a))] inside a [try]: returns whether
    it succeeded, and the file it leaves. *)
Definition write_store {A} (a : A) (s : store A) : bool * store A :=
  match st_write s with
  | WriteOk => (true, mkStore (FPresent a) WriteOk)
  | _ => (false, failed_write s)
  end.

(** ** JavaScript string helpers *)

(** [hay.includes(needle)]. *)
Fixpoint str_includes (hay needle : string) : bool :=
  String.prefix needle hay ||
  match hay with
  | EmptyString => false
  | String _ t => str_includes t needle
  end.

(** The characters [String.prototype.trim] removes and the regex class
    [\s] matches, among the code units 0-255: TAB, LF, VT, FF, CR, space and
    NO-BREAK SPACE. *)
Definition js_space (c : ascii) : bool :=
  match nat_of_ascii c with
  | 9 | 10 | 11 | 12 | 13 | 32 | 160 => true
  | _ => false
  end.

(** [s.trim() === ''] *)
Fixpoint js_blank (s : string) : bool :=
  match s with
  | EmptyString => true
  | String c t => js_space c && js_blank t
  end.

(** [a.indexOf(c) >= 0] on one character, as a membership test. *)
Fixpoint str_mem (c : ascii) (s : string) : bool :=
  match s with
  | EmptyString => false
  | String d t => if ascii_dec c d then true else str_mem c t
  end.

(** ** Sums over a map, for the aggregate metadata of the quota file *)

Definition map_sumZ {V} (f : V -> Z) (m : gmap string V) : Z :=
  foldr (fun kv acc => (f kv.2 + acc)%Z) 0%Z (map_to_list m).

(** ** Hint database and tactics shared by the components *)

Create HintDb faucet discriminated.
Create Rewrite HintDb faucet_rw.

(** Case analysis on every [if] and [match] of the goal, cleaning up the
    equations; the workhorse for the branches of the code's handlers. *)
Ltac case_code :=
  repeat match goal with
  | |- context [match ?x with _ => _ end] =>
      lazymatch x with
      | context [match _ with _ => _ end] => fail
      | _ => destruct x eqn:?
      end
  end; simplify_eq/=.

(** Unfold a result bind that has been computed to [Ok] or [Err]. *)
Ltac simpl_res :=
  repeat match goal with
  | H : result_bind ?r _ = _ |- _ =>
      destruct r eqn:?; simpl in H; try discriminate H
  end.

(** ** Generic lemmas *)

Section Lemmas.
Context {V : Type}.

Lemma foldr_sumZ_perm (f : V -> Z) (l1 l2 : list (string * V)) :
  l1 ≡ₚ l2 ->
  foldr (fun kv acc => (f kv.2 + acc)%Z) 0%Z l1 =
  foldr (fun kv acc => (f kv.2 + acc)%Z) 0%Z l2.
Proof. induction 1; simpl; lia. Qed.

Lemma map_sumZ_insert_new (f : V -> Z) (m : gmap string V) k v :
  m !! k = None -> map_sumZ f (<[k:=v]> m) = (f v + map_sumZ f m)%Z.
Proof.
  intros Hk. unfold map_sumZ.
  rewrite (foldr_sumZ_perm f _ _ (map_to_list_insert m k v Hk)). reflexivity.
Qed.

Lemma map_sumZ_insert_old (f : V -> Z) (m : gmap string V) k v0 v :
  m !! k = Some v0 -> map_sumZ f (<[k:=v]> m) = (map_sumZ f m - f v0 + f v)%Z.
Proof.
  intros Hk.
  rewrite <- (insert_delete_id m k v0 Hk) at 2.
  rewrite <- insert_delete_eq.
  rewrite !map_sumZ_insert_new by apply lookup_delete_eq. lia.
Qed.

Lemma map_sumZ_ext (f g : V -> Z) (m : gmap string V) :
  (forall v, f v = g v) -> map_sumZ f m = map_sumZ g m.
Proof.
  intros Hfg. unfold map_sumZ.
  induction (map_to_list m) as [|kv l IH]; simpl; [done|]. rewrite Hfg, IH. done.
Qed.

Lemma map_sumZ_ext_in (f g : V -> Z) (m : gmap string V) :
  map_Forall (fun _ v => f v = g v) m -> map_sumZ f m = map_sumZ g m.
Proof.
  rewrite map_Forall_to_list. unfold map_sumZ.
  induction (map_to_list m) as [|[k v] l IH]; simpl; [done|].
  intros [Hv Hl]%Forall_cons. simpl in Hv. rewrite Hv, IH; done.
Qed.

Lemma map_sumZ_sub (f g : V -> Z) (m : gmap string V) :
  (map_sumZ f m - map_sumZ g m)%Z = map_sumZ (fun v => f v - g v)%Z m.
Proof. unfold map_sumZ. induction (map_to_list m) as [|kv l IH]; simpl; lia. Qed.

End Lemmas.

Lemma length_filter_negb {A} (p : A -> bool) (l : list A) :
  length (List.filter p l) + length (List.filter (fun x => negb (p x)) l) = length l.
Proof. induction l as [|x l IH]; simpl; [done|]. destruct (p x); simpl; lia. Qed.

(** How many elements of a list satisfy [p], before and after an append
    or the removal of the [i]-th element. *)
Lemma length_filter_app {A} (p : A -> bool) (l1 l2 : list A) :
  length (List.filter p (l1 ++ l2)) = length (List.filter p l1) + length (List.filter p l2).
Proof. by rewrite List.filter_app, List.length_app. Qed.

Lemma length_filter_delete {A} (p : A -> bool) (l : list A) i x :
  l !! i = Some x ->
  length (List.filter p l) = (if p x then 1 else 0) + length (List.filter p (delete i l)).
Proof.
  revert i. induction l as [|y l IH]; intros [|i] Hi; simplify_eq/=; [by destruct (p x)|].
  specialize (IH i Hi). destruct (p y); simpl; lia.
Qed.

Lemma str_includes_prefix s t : String.prefix t s = true -> str_includes s t = true.
Proof. destruct s; simpl; intros ->; done. Qed.

Lemma str_includes_cons c s t : str_includes s t = true -> str_includes (String c s) t = true.
Proof. simpl. intros ->. apply orb_true_r. Qed.

Lemma str_includes_app_r a b t : str_includes b t = true -> str_includes (a ++ b) t = true.
Proof. induction a as [|c a IH]; [done|]. intros Hb. apply str_includes_cons, IH, Hb. Qed.

Lemma str_prefix_app (t c : string) : String.prefix t (t ++ c) = true.
Proof.
  induction t as [|x t IH]; simpl; [by destruct c|]. by destruct (ascii_dec x x).
Qed.

Lemma str_includes_here (t c : string) : str_includes (t ++ c) t = true.
Proof. apply str_includes_prefix, str_prefix_app. Qed.

(** [str_includes (a1 ++ ... ++ t ++ c) t]: skip the pieces before [t]. *)
Ltac str_found :=
  repeat first [apply str_includes_here | apply str_includes_app_r].

Lemma str_app_nil_r (s : string) : (s ++ "")%string = s.
Proof. induction s as [|c s IH]; [done|exact (f_equal (String c) IH)]. Qed.

Lemma str_app_assoc (a b c : string) : (a ++ (b ++ c))%string = ((a ++ b) ++ c)%string.
Proof. induction a as [|x a IH]; [done|exact (f_equal (String x) IH)]. Qed.

Lemma str_eqb_cons_nil c (s : string) : String.eqb (String c s) "" = false.
Proof. done. Qed.

Lemma write_store_ok {A} (a : A) s :
  st_writable s = true -> write_store a s = (true, mkStore (FPresent a) WriteOk).
Proof. unfold write_store, st_writable. by destruct (st_write s). Qed.

Lemma write_store_fail {A} (a : A) s :
  st_writable s = false -> write_store a s = (false, failed_write s).
Proof. unfold write_store, st_writable. by destruct (st_write s). Qed.

(** A failed write keeps the way writes to the file end. *)
Lemma failed_write_mode {A} (s : store A) : st_write (failed_write s) = st_write s.
Proof. unfold failed_write. by destruct (st_write s) eqn:E. Qed.

(** A write, successful or not, keeps the way writes to the file end. *)
Lemma write_store_mode {A} (a : A) s : st_write (snd (write_store a s)) = st_write s.
Proof. unfold write_store, failed_write. by destruct (st_write s) eqn:E. Qed.

#[export] Hint Resolve str_includes_prefix str_includes_cons : faucet.
#[export] Hint Rewrite @map_sumZ_insert_new @write_store_ok @write_store_fail using done : faucet_rw.
