(* ===== verification/Console.v ===== *)
(** * Console output and caught exceptions of the Node code

    The stand-alone scripts of the repository (the ACT checker and the
    email test of [src/unnamed]) and [EmailService] do their work through
    [console.log] and [console.error], inside [try]/[catch] blocks.  A
    [Logged L A] is such a computation: the lines it wrote, in order, and
    its outcome, a value or the message of the exception it threw.  A line
    written before a throw stays written, which is what the console does;
    [try_catch] runs the handler of a [catch] on the message.  [Logged L]
    is a monad (stdpp's [MRet] and [MBind], so the code reads with
    [x ← m; k]); its laws and the output of a bind are the lemmas of this
    file. *)

From S2P Require Import Prelude.

(** ** The monad *)

Record Logged (L A : Type) : Type := mkLogged {
  lg_out : list L;
  lg_res : result A
}.
Arguments mkLogged {L A} lg_out lg_res.
Arguments lg_out {L A} l.
Arguments lg_res {L A} l.

Definition lret {L A} (a : A) : Logged L A := mkLogged [] (Ok a).

Definition lbind {L A B} (m : Logged L A) (k : A -> Logged L B) : Logged L B :=
  match lg_res m with
  | Ok a => let r := k a in mkLogged (lg_out m ++ lg_out r) (lg_res r)
  | Err e => mkLogged (lg_out m) (Err e)
  end.

#[export] Instance Logged_ret {L} : MRet (Logged L) := fun A a => lret a.
#[export] Instance Logged_bind {L} : MBind (Logged L) := fun A B k m => lbind m k.

(** [console.log(l)] or [console.error(l)]. *)
Definition tell {L} (l : L) : Logged L unit := mkLogged [l] (Ok tt).

(** A call that may throw, e.g. a member access on [undefined]. *)
Definition lift {L A} (r : result A) : Logged L A := mkLogged [] r.

(** [try { m } catch (error) { h(error.message) }]. *)
Definition try_catch {L A} (m : Logged L A) (h : string -> Logged L A) : Logged L A :=
  match lg_res m with
  | Ok _ => m
  | Err e => let r := h e in mkLogged (lg_out m ++ lg_out r) (lg_res r)
  end.

(** ** Laws *)

Section Laws.
Context {L : Type}.

Lemma lbind_ret_l {A B} (a : A) (k : A -> Logged L B) : (lret a ≫= k) = k a.
Proof. cbv [mbind Logged_bind lbind lret]. simpl. by destruct (k a). Qed.

Lemma lbind_ret_r {A} (m : Logged L A) : (m ≫= lret) = m.
Proof. destruct m as [o [a|e]]; cbv [mbind Logged_bind lbind lret]; simpl; by rewrite ?app_nil_r. Qed.

Lemma lbind_assoc {A B D} (m : Logged L A) (k : A -> Logged L B) (h : B -> Logged L D) :
  ((m ≫= k) ≫= h) = (m ≫= fun a => k a ≫= h).
Proof.
  destruct m as [o [a|e]]; cbv [mbind Logged_bind lbind]; simpl; [|done].
  destruct (k a) as [o' [b|e']]; simpl; [|done]. by rewrite app_assoc.
Qed.

(** What a bind writes: the lines of the first part, then, if it returned,
    those of the rest. *)
Lemma lg_out_bind {A B} (m : Logged L A) (k : A -> Logged L B) :
  lg_out (m ≫= k) =
    lg_out m ++ match lg_res m with Ok a => lg_out (k a) | Err _ => [] end.
Proof. destruct m as [o [a|e]]; cbv [mbind Logged_bind lbind]; simpl; by rewrite ?app_nil_r. Qed.

Lemma lg_res_bind {A B} (m : Logged L A) (k : A -> Logged L B) :
  lg_res (m ≫= k) = match lg_res m with Ok a => lg_res (k a) | Err e => Err e end.
Proof. destruct m as [o [a|e]]; done. Qed.

Lemma lg_res_try_catch {A} (m : Logged L A) h :
  lg_res (try_catch m h) = match lg_res m with Ok a => Ok a | Err e => lg_res (h e) end.
Proof. destruct m as [o [a|e]]; done. Qed.

End Laws.

#[export] Hint Rewrite @lbind_ret_l @lbind_assoc @lg_out_bind @lg_res_bind @lg_res_try_catch
  : faucet_rw.

(** Compute a [Logged] program down to its lines and outcome. *)
Ltac logged_simpl :=
  cbv [mbind Logged_bind lbind mret Logged_ret lret tell lift try_catch] in *; simpl in *.
