(* ===== verification/Json.v ===== *)
(** * JSON values, JavaScript access to them, and the request validator

    The monitor parses the payload of each [custom_json] operation with
    [JSON.parse] and checks it with [validateRequest]
    ([src/backend/services/blockchain-monitor.js], lines 280-289). This file
    models a parsed JSON value, the JavaScript operations the code applies
    to it (member access, which throws on [null] and [undefined], strict
    equality with a string, truthiness, [String(v)]), the validator, and the
    two request builders of the frontends ([createAccountRequestJson] of
    [src/scripts/keychain.js], lines 186-199, and the object literal of
    [handleFormSubmit] in [src/scripts/app.js], lines 180-191). *)

From S2P Require Import Prelude.
From Stdlib Require Import DecimalString.

#[local] Set Warnings "-register-all".

(** ** Values *)

(** A value produced by [JSON.parse]; numbers are integers (every number
    the code inspects is an integer). *)
Inductive json : Type :=
| JNull
| JBool (b : bool)
| JNum (n : Z)
| JStr (s : string)
| JArr (l : list json)
| JObj (fields : list (string * json)).

(** What a JavaScript expression over parsed JSON evaluates to: a missing
    property is [undefined]. *)
Inductive jsv : Type :=
| Undef
| Val (j : json).

(** The value of key [k] in an object literal; [JSON.parse] keeps the last
    binding of a duplicated key. *)
Fixpoint assoc_last (k : string) (fs : list (string * json)) : option json :=
  match fs with
  | [] => None
  | (k', j) :: t =>
      match assoc_last k t with
      | Some j' => Some j'
      | None => if String.eqb k k' then Some j else None
      end
  end.

(** [v.k]: a [TypeError] on [null] and [undefined], [undefined] for a key a
    primitive, an array or an object does not have. *)
Definition member (v : jsv) (k : string) : result jsv :=
  match v with
  | Undef => Err ("Cannot read properties of undefined (reading '" ++ k ++ "')")%string
  | Val JNull => Err ("Cannot read properties of null (reading '" ++ k ++ "')")%string
  | Val (JObj fs) =>
      match assoc_last k fs with
      | Some j => Ok (Val j)
      | None => Ok Undef
      end
  | Val _ => Ok Undef
  end.

Definition json_truthy (j : json) : bool :=
  match j with
  | JNull => false
  | JBool b => b
  | JNum n => negb (Z.eqb n 0)
  | JStr s => negb (String.eqb s "")
  | JArr _ | JObj _ => true
  end.

(** [!!v] *)
Definition truthy (v : jsv) : bool :=
  match v with
  | Undef => false
  | Val j => json_truthy j
  end.

(** [v === s] for a string literal [s]. *)
Definition strict_eq_str (v : jsv) (s : string) : bool :=
  match v with
  | Val (JStr s') => String.eqb s' s
  | _ => false
  end.

(** [String(v)], used where the code interpolates a value in a template
    string; arrays join their elements with commas, [null] elements giving
    the empty string.  A number is printed in full decimal, which is what
    [String] does for the integers below [1e21] (it switches to exponent
    notation from there, and rounds above [2^53]): the model's numbers are
    the token counts, heights and ids of the program, all far below. *)
Fixpoint js_to_string (j : json) : string :=
  match j with
  | JNull => "null"
  | JBool true => "true"
  | JBool false => "false"
  | JNum n => NilZero.string_of_int (Z.to_int n)
  | JStr s => s
  | JArr l =>
      (fix join (l : list json) : string :=
         match l with
         | [] => ""
         | x :: t =>
             let e := match x with JNull => "" | _ => js_to_string x end in
             match t with
             | [] => e
             | _ => (e ++ "," ++ join t)%string
             end
         end) l
  | JObj _ => "[object Object]"
  end.

(** [String(v)] in a template literal or an [Error] constructor. *)
Definition jsv_to_string (v : jsv) : string :=
  match v with Val j => js_to_string j | Undef => "undefined" end.

(** [String(x || d)] on the [message] or [error] of a Keychain response. *)
Definition message_or (m : jsv) (d : string) : string :=
  if truthy m then match m with Val j => js_to_string j | Undef => d end else d.

(** ** The validator *)

Definition FAUCET_ID : string := "hive_account_faucet".

(** [validateRequest(data)]: the [&&] chain of the source, returning the
    truthiness of its value (the code only uses it in an [if]); [Err] is
    the [TypeError] of [data.app] when [data] is [null]. *)
Definition validateRequest (data : jsv) : result bool :=
  app <- member data "app" ;;
  if negb (strict_eq_str app FAUCET_ID) then Ok false else
  version <- member data "version" ;;
  if negb (strict_eq_str version "1.0.0") then Ok false else
  action <- member data "action" ;;
  if negb (strict_eq_str action "create_account_request") then Ok false else
  d <- member data "data" ;;
  if negb (truthy d) then Ok false else
  u <- member d "requested_username" ;;
  if negb (truthy u) then Ok false else
  m <- member d "delivery_method" ;;
  Ok (truthy m).

(** ** The requests the frontends build *)

(** [KeychainManager.createAccountRequestJson] ([keychain.js]); the time
    stamp and the request id are arguments, the three fields whatever
    values the caller passes (a form field may be [null]). *)
Definition createAccountRequestJson (requestedUsername deliveryMethod notes : json)
    (timestamp requestId : string) : json :=
  JObj [("app", JStr "hive-account-faucet");
        ("version", JStr "1.0.0");
        ("action", JStr "create_account_request");
        ("timestamp", JStr timestamp);
        ("requestId", JStr requestId);
        ("data", JObj [("requestedUsername", requestedUsername);
                       ("deliveryMethod", deliveryMethod);
                       ("notes", notes)])].

(** [x || null] for a form field ([FormData.get] gives a string or null). *)
Definition or_null (o : option string) : json :=
  match o with
  | Some s => if String.eqb s "" then JNull else JStr s
  | None => JNull
  end.

(** A variable holding a string or [null]. *)
Definition opt_str (o : option string) : json :=
  match o with Some s => JStr s | None => JNull end.

(** The [customJson] literal of [handleFormSubmit] ([app.js]). *)
Definition appCustomJson (currentUser : option string) (requestedUsername deliveryMethod : string)
    (email notes : option string) (timestamp : string) : json :=
  JObj [("app", JStr FAUCET_ID);
        ("version", JStr "1.0.0");
        ("action", JStr "create_account_request");
        ("data", JObj [("requester", opt_str currentUser);
                       ("requested_username", JStr requestedUsername);
                       ("delivery_method", JStr deliveryMethod);
                       ("email", or_null email);
                       ("notes", or_null notes);
                       ("timestamp", JStr timestamp)])].

(** ** Lemmas *)

Lemma member_obj fs k :
  member (Val (JObj fs)) k =
  Ok (match assoc_last k fs with Some j => Val j | None => Undef end).
Proof. simpl. by destruct (assoc_last k fs). Qed.

Lemma strict_eq_str_true v s : strict_eq_str v s = true <-> v = Val (JStr s).
Proof.
  destruct v as [|[]]; simpl; split; intros H; try done;
    [apply String.eqb_eq in H; by subst | inversion H; apply String.eqb_refl].
Qed.

Lemma truthy_Val j : truthy (Val j) = json_truthy j.
Proof. done. Qed.

#[export] Hint Rewrite member_obj truthy_Val : faucet_rw.

(** Reading a field of a JSON object never throws. *)
Lemma member_obj_ok fs k : exists v, member (Val (JObj fs)) k = Ok v.
Proof. rewrite member_obj. eauto. Qed.

(** [truthy] of what [member] returns, by cases on the key's binding. *)
Lemma truthy_member_obj fs k :
  forall v, member (Val (JObj fs)) k = Ok v ->
  truthy v = true <-> exists j, assoc_last k fs = Some j /\ json_truthy j = true.
Proof.
  intros v. rewrite member_obj. intros [= <-].
  destruct (assoc_last k fs); simpl; split; [eauto|intros (?&[= <-]&?); done|done|intros (?&?&?); done].
Qed.

(** ** Properties *)

(** C20: [validateRequest] accepts exactly the objects whose [app],
    [version] and [action] fields are the three expected strings and whose
    [data] field is an object with truthy [requested_username] and
    [delivery_method] fields; nothing else is checked (in particular not
    the type of the two fields nor the value of the delivery method). *)
Theorem validateRequest_accepts_iff (j : json) :
  validateRequest (Val j) = Ok true <->
  exists fs dfs u m,
    j = JObj fs /\
    assoc_last "app" fs = Some (JStr FAUCET_ID) /\
    assoc_last "version" fs = Some (JStr "1.0.0") /\
    assoc_last "action" fs = Some (JStr "create_account_request") /\
    assoc_last "data" fs = Some (JObj dfs) /\
    assoc_last "requested_username" dfs = Some u /\ json_truthy u = true /\
    assoc_last "delivery_method" dfs = Some m /\ json_truthy m = true.
Proof.
  split.
  - unfold validateRequest. destruct j as [|b|n|s|l|fs]; simpl; try discriminate.
    destruct (assoc_last "app" fs) as [[| | |a| |]|] eqn:Ha; simpl; try discriminate.
    destruct (String.eqb_spec a FAUCET_ID); simpl; [subst|discriminate].
    destruct (assoc_last "version" fs) as [[| | |ve| |]|] eqn:Hv; simpl; try discriminate.
    destruct (String.eqb_spec ve "1.0.0"); simpl; [subst|discriminate].
    destruct (assoc_last "action" fs) as [[| | |ac| |]|] eqn:Hc; simpl; try discriminate.
    destruct (String.eqb_spec ac "create_account_request"); simpl; [subst|discriminate].
    destruct (assoc_last "data" fs) as [d|] eqn:Hd; simpl; try discriminate.
    destruct d as [|b|n|s|l|dfs]; simpl; try discriminate;
      try (destruct b; simpl; discriminate);
      try (destruct (n =? 0)%Z; simpl; discriminate);
      try (destruct (s =? "")%string; simpl; discriminate).
    destruct (assoc_last "requested_username" dfs) as [u|] eqn:Hu; simpl; try discriminate.
    destruct (json_truthy u) eqn:Hut; simpl; try discriminate.
    destruct (assoc_last "delivery_method" dfs) as [m|] eqn:Hm; simpl; try discriminate.
    intros [= Hmt]. exists fs, dfs, u, m. eauto 20.
  - intros (fs & dfs & u & m & -> & Ha & Hv & Hc & Hd & Hu & Hut & Hm & Hmt).
    unfold validateRequest. simpl. rewrite Ha, Hv, Hc, Hd; simpl.
    rewrite Hu; simpl. rewrite Hut; simpl. rewrite Hm; simpl. by rewrite Hmt.
Qed.

(** Every request built by [createAccountRequestJson] of
    [keychain.js] is rejected by the monitor, whatever the user typed: its
    [app] field is ["hive-account-faucet"] (hyphens), not the
    ["hive_account_faucet"] the validator expects, and its [data] fields are
    camel-cased. *)
Theorem keychain_request_rejected u m n ts rid :
  validateRequest (Val (createAccountRequestJson u m n ts rid)) = Ok false.
Proof. reflexivity. Qed.

(** The request literal of [app.js] passes the validator whenever the
    username and the delivery method are non-empty, which [handleFormSubmit]
    checks before it broadcasts. *)
Theorem app_request_accepted cu u m e n ts :
  u <> ""%string -> m <> ""%string ->
  validateRequest (Val (appCustomJson cu u m e n ts)) = Ok true.
Proof.
  intros Hu Hm. apply String.eqb_neq in Hu, Hm.
  unfold validateRequest. simpl. by rewrite Hu, Hm.
Qed.

Lemma app_request_accepted_witness :
  validateRequest (Val (appCustomJson (Some "alice") "newuser1" "email" None None "t")) = Ok true.
Proof. apply app_request_accepted; discriminate. Defined.

(** The validator throws only on [null], the one parsed value whose member
    access raises; the monitor's [try] turns that into a rejection. *)
Lemma validateRequest_err j e : validateRequest (Val j) = Err e -> j = JNull.
Proof.
  unfold validateRequest. destruct j as [|b|n|s|l|fs]; simpl; try done.
  repeat (case_match; simpl; try done).
Qed.
