(* ===== verification/UserManager.v ===== *)
(** * The quota ledger: [UserManager]

    [src/unnamed/part_001], lines 1-246: the class [UserManager] keeps the
    authorized requesters and their token accounts in
    [data/authorized_users.json]. Every operation reads the whole file
    ([loadData]), changes it in memory and writes it back ([saveData]),
    stamping [metadata.last_updated]. The monitor calls [checkAuthorization]
    and [useToken]; the administrative CLI ([src/backend/admin.js]) calls
    [addUser], [giveTokens], [setTokens], [setUserStatus], [getUser] and
    [getAllUsers], after the constructor ([newUserManager]) has created a
    missing file ([ensureDataFile]).

    The file is a [store Db] (see [Prelude]); the clock value [now] of each
    call is an argument. The messages the operations return to the CLI are
    not modelled, only their success flags. *)

From S2P Require Import Prelude.

(** ** Data *)

(** One entry of [authorized_users]. *)
Record User : Type := mkUser {
  tokens_allocated : Z;
  tokens_used : Z;
  tokens_remaining : Z;
  email : option string;
  created_at : Z;
  last_used : option Z;
  is_active : bool;
  notes : string
}.

(** The [metadata] block. *)
Record Metadata : Type := mkMeta {
  meta_created_at : Z;
  last_updated : Z;
  total_users : Z;
  total_tokens_allocated : Z;
  total_tokens_used : Z
}.

(** The parsed content of [authorized_users.json]. *)
Record Db : Type := mkDb {
  authorized_users : gmap string User;
  metadata : Metadata
}.

Definition set_last_updated (now : Z) (m : Metadata) : Metadata :=
  mkMeta (meta_created_at m) now (total_users m) (total_tokens_allocated m)
    (total_tokens_used m).

(** ** Operations *)

(** [loadData()]: [null] when the file cannot be read or parsed. *)
Definition loadData (fs : store Db) : option Db := read_store fs.

(** [saveData(data)]: stamps [last_updated] and writes the file. *)
Definition saveData (now : Z) (d : Db) (fs : store Db) : bool * store Db :=
  write_store (mkDb (authorized_users d) (set_last_updated now (metadata d))) fs.

Definition initialData (now : Z) : Db :=
  mkDb ∅ (mkMeta now now 0 0 0).

(** [ensureDataFile()]: creates an empty ledger when the file is absent. *)
Definition ensureDataFile (now : Z) (fs : store Db) : store Db :=
  match st_file fs with
  | FMissing => snd (saveData now (initialData now) fs)
  | _ => fs
  end.

(** The result of [checkAuthorization]: on success the code returns the
    user's counters and the whole record ([user_info]); on the
    no-tokens failure it also returns [tokens_used] and [tokens_allocated]. *)
Inductive AuthCheck : Type :=
| Authorized (u : User)
| NotAuthorized (reason : string) (usage : option (Z * Z)).

Definition checkAuthorization (fs : store Db) (username : string) : AuthCheck :=
  match loadData fs with
  | None => NotAuthorized "Database error" None
  | Some d =>
      match authorized_users d !! username with
      | None => NotAuthorized "User not found in authorized list" None
      | Some u =>
          if negb (is_active u) then NotAuthorized "User account is deactivated" None
          else if (tokens_remaining u <=? 0)%Z then
            NotAuthorized "No tokens remaining" (Some (tokens_used u, tokens_allocated u))
          else Authorized u
      end
  end.

(** The user record after [useToken] charged it. *)
Definition charge (now : Z) (u : User) : User :=
  mkUser (tokens_allocated u) (tokens_used u + 1) (tokens_remaining u - 1)
    (email u) (created_at u) (Some now) (is_active u) (notes u).

Definition meta_add (du da dused : Z) (m : Metadata) : Metadata :=
  mkMeta (meta_created_at m) (last_updated m) (total_users m + du)
    (total_tokens_allocated m + da) (total_tokens_used m + dused).

(** [useToken(username)] *)
Definition useToken (now : Z) (username : string) (fs : store Db) : bool * store Db :=
  match loadData fs with
  | None => (false, fs)
  | Some d =>
      match authorized_users d !! username with
      | None => (false, fs)
      | Some u =>
          if (tokens_remaining u <=? 0)%Z then (false, fs)
          else saveData now
                 (mkDb (<[username := charge now u]> (authorized_users d))
                       (meta_add 0 0 1 (metadata d))) fs
      end
  end.

(** [addUser(username, tokens, email, notes)]; the code returns [false]
    (not a result object) when the file cannot be loaded. *)
Definition addUser (now : Z) (username : string) (tokens : Z) (email : option string)
    (notes : string) (fs : store Db) : bool * store Db :=
  match loadData fs with
  | None => (false, fs)
  | Some d =>
      match authorized_users d !! username with
      | Some _ => (false, fs)
      | None =>
          saveData now
            (mkDb (<[username := mkUser tokens 0 tokens email now None true notes]>
                     (authorized_users d))
                  (meta_add 1 tokens 0 (metadata d))) fs
      end
  end.

(** [giveTokens(username, additionalTokens)] *)
Definition giveTokens (now : Z) (username : string) (additional : Z) (fs : store Db)
    : bool * store Db :=
  match loadData fs with
  | None => (false, fs)
  | Some d =>
      match authorized_users d !! username with
      | None => (false, fs)
      | Some u =>
          let u' := mkUser (tokens_allocated u + additional) (tokens_used u)
                      (tokens_remaining u + additional) (email u) (created_at u)
                      (last_used u) (is_active u) (notes u) in
          saveData now (mkDb (<[username := u']> (authorized_users d))
                             (meta_add 0 additional 0 (metadata d))) fs
      end
  end.

(** [setTokens(username, newTotal)]: the remaining count is recomputed from
    [tokens_used], with no lower bound. *)
Definition setTokens (now : Z) (username : string) (newTotal : Z) (fs : store Db)
    : bool * store Db :=
  match loadData fs with
  | None => (false, fs)
  | Some d =>
      match authorized_users d !! username with
      | None => (false, fs)
      | Some u =>
          let difference := (newTotal - tokens_allocated u)%Z in
          let u' := mkUser newTotal (tokens_used u) (newTotal - tokens_used u)
                      (email u) (created_at u) (last_used u) (is_active u) (notes u) in
          saveData now (mkDb (<[username := u']> (authorized_users d))
                             (meta_add 0 difference 0 (metadata d))) fs
      end
  end.

(** [setUserStatus(username, isActive)] *)
Definition setUserStatus (now : Z) (username : string) (isActive : bool) (fs : store Db)
    : bool * store Db :=
  match loadData fs with
  | None => (false, fs)
  | Some d =>
      match authorized_users d !! username with
      | None => (false, fs)
      | Some u =>
          let u' := mkUser (tokens_allocated u) (tokens_used u) (tokens_remaining u)
                      (email u) (created_at u) (last_used u) isActive (notes u) in
          saveData now (mkDb (<[username := u']> (authorized_users d)) (metadata d)) fs
      end
  end.

(** [getAllUsers()]: the whole file, [null] when it cannot be read. *)
Definition getAllUsers (fs : store Db) : option Db := loadData fs.

(** [new UserManager()]: the constructor only makes sure the file exists. *)
Definition newUserManager (now : Z) (fs : store Db) : store Db := ensureDataFile now fs.

(** [getUser(username)] *)
Definition getUser (fs : store Db) (username : string) : option User :=
  d ← loadData fs; authorized_users d !! username.

(** Every state-changing operation of the class, as issued by the monitor
    ([useToken]) or by the CLI. *)
Inductive um_op : Type :=
| OpUseToken (username : string)
| OpAddUser (username : string) (tokens : Z) (email : option string) (notes : string)
| OpGiveTokens (username : string) (additional : Z)
| OpSetTokens (username : string) (newTotal : Z)
| OpSetUserStatus (username : string) (isActive : bool).

Definition um_step (now : Z) (op : um_op) (fs : store Db) : bool * store Db :=
  match op with
  | OpUseToken k => useToken now k fs
  | OpAddUser k t e n => addUser now k t e n fs
  | OpGiveTokens k a => giveTokens now k a fs
  | OpSetTokens k t => setTokens now k t fs
  | OpSetUserStatus k b => setUserStatus now k b fs
  end.

(** A sequence of operations, each with its clock value, in the order the
    single writer issues them. *)
Fixpoint um_run (ops : list (Z * um_op)) (fs : store Db) : store Db :=
  match ops with
  | [] => fs
  | (now, op) :: t => um_run t (snd (um_step now op fs))
  end.

(** ** The accounting invariant *)

Definition user_wf (u : User) : Prop :=
  (tokens_used u + tokens_remaining u = tokens_allocated u)%Z.

(** Per-user accounting, and the aggregate [metadata] in step with the
    records ([§3] and [§4.3] of the spec). *)
Definition db_wf (d : Db) : Prop :=
  map_Forall (fun _ u => user_wf u) (authorized_users d) /\
  total_users (metadata d) = Z.of_nat (size (authorized_users d)) /\
  total_tokens_allocated (metadata d) = map_sumZ tokens_allocated (authorized_users d) /\
  total_tokens_used (metadata d) = map_sumZ tokens_used (authorized_users d).

Definition um_wf (fs : store Db) : Prop :=
  forall d, loadData fs = Some d -> db_wf d.

#[export] Instance user_wf_dec u : Decision (user_wf u).
Proof. unfold user_wf. apply _. Defined.

#[export] Instance db_wf_dec d : Decision (db_wf d).
Proof. unfold db_wf. apply _. Defined.

(** ** Lemmas *)

Lemma saveData_wf now d fs :
  db_wf d -> um_wf fs -> um_wf (snd (saveData now d fs)).
Proof.
  intros Hd Hfs. unfold saveData, write_store, failed_write.
  destruct (st_write fs); simpl; [|done|by intros d'].
  intros d' [= <-]. destruct Hd as (?&?&?&?). repeat split; done.
Qed.

(** Replacing an existing record keeps the invariant when the new record is
    well formed and the aggregate moves by the difference. *)
Lemma db_wf_replace d k u u' m' :
  db_wf d -> authorized_users d !! k = Some u -> user_wf u' ->
  total_users m' = total_users (metadata d) ->
  total_tokens_allocated m' =
    (total_tokens_allocated (metadata d) - tokens_allocated u + tokens_allocated u')%Z ->
  total_tokens_used m' =
    (total_tokens_used (metadata d) - tokens_used u + tokens_used u')%Z ->
  db_wf (mkDb (<[k:=u']> (authorized_users d)) m').
Proof.
  intros (Hall & Hn & Ha & Hu) Hk Hu' Hm1 Hm2 Hm3. repeat split; simpl.
  - by apply map_Forall_insert_2.
  - rewrite map_size_insert_Some by eauto. lia.
  - rewrite (map_sumZ_insert_old _ _ _ u) by done. lia.
  - rewrite (map_sumZ_insert_old _ _ _ u) by done. lia.
Qed.

Lemma db_wf_add d k u' m' :
  db_wf d -> authorized_users d !! k = None -> user_wf u' ->
  total_users m' = (total_users (metadata d) + 1)%Z ->
  total_tokens_allocated m' = (total_tokens_allocated (metadata d) + tokens_allocated u')%Z ->
  total_tokens_used m' = (total_tokens_used (metadata d) + tokens_used u')%Z ->
  db_wf (mkDb (<[k:=u']> (authorized_users d)) m').
Proof.
  intros (Hall & Hn & Ha & Hu) Hk Hu' Hm1 Hm2 Hm3. repeat split; simpl.
  - by apply map_Forall_insert_2.
  - rewrite map_size_insert_None by done. lia.
  - rewrite map_sumZ_insert_new by done. lia.
  - rewrite map_sumZ_insert_new by done. lia.
Qed.

Lemma um_wf_loaded fs d : um_wf fs -> loadData fs = Some d -> db_wf d.
Proof. eauto. Qed.

Lemma db_wf_user d k u : db_wf d -> authorized_users d !! k = Some u -> user_wf u.
Proof. intros (Hall&_) Hk. exact (Hall k u Hk). Qed.

#[export] Hint Resolve saveData_wf db_wf_replace db_wf_add um_wf_loaded db_wf_user : faucet.

(** The shape every operation shares: a failure returns the store as it
    was; a success writes a database built from the loaded one. *)
Ltac um_cases :=
  repeat match goal with
  | |- context [loadData ?fs] => destruct (loadData fs) as [?d|] eqn:?
  | |- context [authorized_users ?d !! ?k] => destruct (authorized_users d !! k) as [?u|] eqn:?
  | |- context [Z.leb ?a ?b] => destruct (Z.leb_spec a b)
  end; simpl.

(** ** Properties *)

(** Each operation of the class preserves the invariant. *)
Lemma useToken_wf now k fs : um_wf fs -> um_wf (snd (useToken now k fs)).
Proof.
  intros Hfs. unfold useToken. um_cases; try done. apply saveData_wf; [|done].
  assert (db_wf d) by eauto with faucet. assert (user_wf u) by eauto with faucet.
  eapply db_wf_replace; eauto; unfold user_wf in *; simpl; lia.
Qed.

Lemma addUser_wf now k t e n fs : um_wf fs -> um_wf (snd (addUser now k t e n fs)).
Proof.
  intros Hfs. unfold addUser. um_cases; try done. apply saveData_wf; [|done].
  assert (db_wf d) by eauto with faucet.
  eapply db_wf_add; eauto; unfold user_wf; simpl; lia.
Qed.

Lemma giveTokens_wf now k a fs : um_wf fs -> um_wf (snd (giveTokens now k a fs)).
Proof.
  intros Hfs. unfold giveTokens. um_cases; try done. apply saveData_wf; [|done].
  assert (db_wf d) by eauto with faucet. assert (user_wf u) by eauto with faucet.
  eapply db_wf_replace; eauto; unfold user_wf in *; simpl; lia.
Qed.

Lemma setTokens_wf now k t fs : um_wf fs -> um_wf (snd (setTokens now k t fs)).
Proof.
  intros Hfs. unfold setTokens. um_cases; try done. apply saveData_wf; [|done].
  assert (db_wf d) by eauto with faucet.
  eapply db_wf_replace; eauto; unfold user_wf in *; simpl; lia.
Qed.

Lemma setUserStatus_wf now k b fs : um_wf fs -> um_wf (snd (setUserStatus now k b fs)).
Proof.
  intros Hfs. unfold setUserStatus. um_cases; try done. apply saveData_wf; [|done].
  assert (db_wf d) by eauto with faucet. assert (user_wf u) by eauto with faucet.
  eapply db_wf_replace; eauto; unfold user_wf in *; simpl; lia.
Qed.

(** The ledger the constructor creates on a missing file is well formed. *)
Lemma newUserManager_wf now fs : um_wf fs -> um_wf (newUserManager now fs).
Proof.
  unfold newUserManager, ensureDataFile. intros Hfs. case_match; [|done..].
  apply saveData_wf; [|done]. split_and!; [apply map_Forall_empty|done|done|done].
Qed.


Corollary um_run_preserves_wf ops fs : um_wf fs -> um_wf (um_run ops fs).
Proof.
  revert fs. induction ops as [|[now op] ops IH]; simpl; [done|].
  intros fs Hfs. apply IH. destruct op; simpl;
    auto using useToken_wf, addUser_wf, giveTokens_wf, setTokens_wf, setUserStatus_wf.
Qed.

Lemma lookup_insert_used (m : gmap string User) k k' u v :
  m !! k = Some u -> (k' = k -> (tokens_used u <= tokens_used v)%Z) ->
  exists u', <[k':=v]> m !! k = Some u' /\ (tokens_used u <= tokens_used u')%Z.
Proof.
  intros Hk Hle. destruct (decide (k' = k)) as [->|Hne].
  - rewrite lookup_insert_eq. eauto.
  - rewrite lookup_insert_ne by done. exists u. split; [done|lia].
Qed.

(** An operation never removes a user and never lowers a user's
    [tokens_used]. *)
Lemma um_step_used_mono now op fs d u k :
  st_write fs <> WriteFails ->
  loadData fs = Some d -> authorized_users d !! k = Some u ->
  exists d', loadData (snd (um_step now op fs)) = Some d' /\
    exists u', authorized_users d' !! k = Some u' /\ (tokens_used u <= tokens_used u')%Z.
Proof.
  intros Hm Hd Hk. destruct op as [k'|k' t e n|k' a|k' t|k' b]; simpl;
    unfold useToken, addUser, giveTokens, setTokens, setUserStatus; rewrite Hd;
    destruct (authorized_users d !! k') as [u0|] eqn:Hk';
    try (destruct (Z.leb_spec (tokens_remaining u0) 0));
    unfold saveData, write_store, failed_write; try destruct (st_write fs); try done; simpl;
    try (exists d; split; [done|]; exists u; done);
    (eexists; split; [reflexivity|]); simpl; apply lookup_insert_used; auto;
    intros <-; rewrite Hk in Hk'; simplify_eq/=; lia.
Qed.

Lemma saveData_mode now d fs : st_write (snd (saveData now d fs)) = st_write fs.
Proof. apply write_store_mode. Qed.

(** No operation changes how writes to the file end. *)
Lemma um_step_mode now op fs : st_write (snd (um_step now op fs)) = st_write fs.
Proof.
  destruct op; simpl; unfold useToken, addUser, giveTokens, setTokens, setUserStatus;
    repeat case_match; simpl; try done; apply saveData_mode.
Qed.

(** C3: over any sequence of ledger operations, a user present at the
    start is still present and its [tokens_used] has not decreased. *)
Theorem um_run_used_monotone ops fs d u k :
  st_write fs <> WriteFails ->
  loadData fs = Some d -> authorized_users d !! k = Some u ->
  exists d', loadData (um_run ops fs) = Some d' /\
    exists u', authorized_users d' !! k = Some u' /\ (tokens_used u <= tokens_used u')%Z.
Proof.
  revert fs d u. induction ops as [|[now op] ops IH]; simpl; intros fs d u Hm Hd Hk.
  - exists d. split; [done|]. exists u. split; [done|lia].
  - destruct (um_step_used_mono now op fs d u k Hm Hd Hk) as (d1 & H1 & u1 & H2 & H3).
    destruct (IH _ _ _ ltac:(by rewrite um_step_mode) H1 H2) as (d2 & ? & u2 & ? & ?).
    exists d2. split; [done|]. exists u2. split; [done|lia].
Qed.

Definition alice : User := mkUser 1 0 1 (Some "alice@example.com") 0 None true "".
Definition ledger1 : store Db :=
  mkStore (FPresent (mkDb {[ "alice" := alice ]} (mkMeta 0 0 1 1 0))) WriteOk.

Lemma um_run_used_monotone_witness :
  st_write ledger1 <> WriteFails /\
  exists d', loadData (um_run [(1%Z, OpUseToken "alice"); (2%Z, OpSetTokens "alice" 0)] ledger1) = Some d' /\
    exists u', authorized_users d' !! "alice" = Some u' /\ (tokens_used alice <= tokens_used u')%Z.
Proof.
  split; [discriminate|].
  apply (um_run_used_monotone _ ledger1 (mkDb {[ "alice" := alice ]} (mkMeta 0 0 1 1 0)));
    (discriminate || reflexivity).
Defined.


(** The write of a successful [useToken]: the charged account and the
    metadata with one more token used, stamped. *)
Lemma useToken_write now k fs d u :
  loadData fs = Some d -> authorized_users d !! k = Some u ->
  (0 < tokens_remaining u)%Z -> st_writable fs = true ->
  useToken now k fs = (true, mkStore (FPresent (mkDb (<[k := charge now u]> (authorized_users d))
                                                 (set_last_updated now (meta_add 0 0 1 (metadata d))))) WriteOk).
Proof.
  intros Hd Hk Hpos Hw. unfold useToken. rewrite Hd, Hk.
  destruct (Z.leb_spec (tokens_remaining u) 0); [lia|].
  unfold saveData. by rewrite write_store_ok.
Qed.

(** C4: when the file loads, the user exists with a positive
    [tokens_remaining] and the file is writable, [useToken] succeeds and
    writes the user back with one token moved from remaining to used and
    [last_used] stamped, every other user as it was, the total of used
    tokens one higher and [last_updated] stamped. *)
Theorem useToken_success now k fs d u :
  loadData fs = Some d -> authorized_users d !! k = Some u ->
  (0 < tokens_remaining u)%Z -> st_writable fs = true ->
  exists d', useToken now k fs = (true, mkStore (FPresent d') WriteOk) /\
    authorized_users d' !! k =
      Some (mkUser (tokens_allocated u) (tokens_used u + 1) (tokens_remaining u - 1)
              (email u) (created_at u) (Some now) (is_active u) (notes u)) /\
    (forall k', k' <> k -> authorized_users d' !! k' = authorized_users d !! k') /\
    total_tokens_used (metadata d') = (total_tokens_used (metadata d) + 1)%Z /\
    last_updated (metadata d') = now.
Proof.
  intros Hd Hk Hpos Hw. rewrite (useToken_write now k fs d u) by done.
  eexists; split; [reflexivity|]; simpl. split_and!.
  - apply lookup_insert_eq.
  - intros k' Hne. by apply lookup_insert_ne.
  - done.
  - done.
Qed.

Lemma useToken_success_witness :
  exists d', useToken 5 "alice" ledger1 = (true, mkStore (FPresent d') WriteOk) /\
    authorized_users d' !! "alice" =
      Some (mkUser (tokens_allocated alice) (tokens_used alice + 1) (tokens_remaining alice - 1)
              (email alice) (created_at alice) (Some 5%Z) (is_active alice) (notes alice)) /\
    (forall k', k' <> "alice" -> authorized_users d' !! k' =
                authorized_users (mkDb {[ "alice" := alice ]} (mkMeta 0 0 1 1 0)) !! k') /\
    total_tokens_used (metadata d') =
      (total_tokens_used (mkMeta 0 0 1 1 0) + 1)%Z /\
    last_updated (metadata d') = 5%Z.
Proof. apply useToken_success; reflexivity || (simpl; lia). Defined.

(** A user with a token on a file whose write fails after the open. *)
Lemma useToken_write_fails now k fs d u :
  loadData fs = Some d -> authorized_users d !! k = Some u ->
  (0 < tokens_remaining u)%Z -> st_write fs = WriteFails ->
  useToken now k fs = (false, mkStore FCorrupt WriteFails).
Proof.
  intros Hd Hk Hpos Hm. unfold useToken. rewrite Hd, Hk.
  destruct (Z.leb_spec (tokens_remaining u) 0); [lia|].
  unfold saveData, write_store, failed_write. by rewrite Hm.
Qed.

(** C5: a failed [useToken] never writes new data: the ledger file is as
    it was, or as a failed write leaves it.  When the failure is the
    write itself after Node truncated the file (a full disk), the whole
    ledger is lost: the file no longer parses, so [loadData] finds no
    user at all. *)
Theorem useToken_failure now k fs :
  (fst (useToken now k fs) = false ->
   snd (useToken now k fs) = fs \/ snd (useToken now k fs) = failed_write fs) /\
  (forall d u, loadData fs = Some d -> authorized_users d !! k = Some u ->
     (0 < tokens_remaining u)%Z -> st_write fs = WriteFails ->
     fst (useToken now k fs) = false /\ loadData (snd (useToken now k fs)) = None).
Proof.
  split.
  - unfold useToken, saveData, write_store. um_cases; try (left; done).
    destruct (st_write fs); [done|right; done|right; done].
  - intros d u Hd Hk Hpos Hm. by rewrite (useToken_write_fails now k fs d u).
Qed.

(** The ledger of [alice] on a full disk. *)
Definition ledger_full : store Db :=
  mkStore (FPresent (mkDb {[ "alice" := alice ]} (mkMeta 0 0 1 1 0))) WriteFails.

Lemma useToken_failure_witness :
  (fst (useToken 5 "bob" ledger1) = false /\ snd (useToken 5 "bob" ledger1) = ledger1) /\
  (fst (useToken 5 "alice" ledger_full) = false /\ loadData (snd (useToken 5 "alice" ledger_full)) = None).
Proof.
  destruct (useToken_failure 5 "bob" ledger1) as [H1 _].
  destruct (useToken_failure 5 "alice" ledger_full) as [_ H2].
  split.
  - split; [reflexivity|]. destruct (H1 eq_refl) as [H|H]; [exact H|exact H].
  - apply (H2 (mkDb {[ "alice" := alice ]} (mkMeta 0 0 1 1 0)) alice); reflexivity || (simpl; lia).
Defined.

(** A successful [checkAuthorization] means that [useToken] on the same
    file succeeds, provided the file is writable. *)
Lemma authorized_useToken now k fs u :
  checkAuthorization fs k = Authorized u -> st_writable fs = true ->
  exists fs', useToken now k fs = (true, fs').
Proof.
  unfold checkAuthorization, useToken. intros H Hw.
  destruct (loadData fs) as [d|]; [|done].
  destruct (authorized_users d !! k) as [u0|]; [|done].
  destruct (is_active u0); simpl in H; [|done].
  destruct (Z.leb_spec (tokens_remaining u0) 0); [done|].
  unfold saveData. rewrite write_store_ok by done. eauto.
Qed.

(** C6: [setTokens] accepts a total below the tokens already used and then
    stores a negative [tokens_remaining], although the spec states
    [tokensRemaining >= 0] as an invariant of the ledger. *)
Theorem setTokens_negative_remaining now k n fs d u :
  loadData fs = Some d -> authorized_users d !! k = Some u ->
  (n < tokens_used u)%Z -> st_writable fs = true ->
  exists d' u', setTokens now k n fs = (true, mkStore (FPresent d') WriteOk) /\
    authorized_users d' !! k = Some u' /\ (tokens_remaining u' < 0)%Z.
Proof.
  intros Hd Hk Hn Hw. unfold setTokens. rewrite Hd, Hk.
  unfold saveData. rewrite write_store_ok by done.
  do 2 eexists; split; [reflexivity|]. simpl. rewrite lookup_insert_eq. split; [done|]. simpl. lia.
Qed.

Definition ledger2 : store Db :=
  mkStore (FPresent (mkDb {[ "alice" := mkUser 3 2 1 None 0 None true "" ]}
                          (mkMeta 0 0 1 3 2))) WriteOk.

Lemma setTokens_negative_remaining_witness :
  exists d' u', setTokens 7 "alice" 0 ledger2 = (true, mkStore (FPresent d') WriteOk) /\
    authorized_users d' !! "alice" = Some u' /\ (tokens_remaining u' < 0)%Z.
Proof.
  apply (setTokens_negative_remaining _ _ _ _
           (mkDb {[ "alice" := mkUser 3 2 1 None 0 None true "" ]} (mkMeta 0 0 1 3 2))
           (mkUser 3 2 1 None 0 None true "")); reflexivity || (simpl; lia).
Defined.
