(* ===== verification/PendingStore.v ===== *)
(** * The recovery store of generated credentials

    [src/backend/services/blockchain-monitor.js], lines 60-95:
    [ensureRecoveryFile], [loadPending], [savePending], [addPending] and
    [removePending] keep [data/pending_credentials.json], a list of the
    credentials of accounts that were created but whose delivery has not
    succeeded yet. The file is a [store (list PendingRecord)]; a read that
    fails yields the empty list ([loadPending]'s [catch]) and a write that
    fails is only logged ([savePending]'s [catch]). *)

From S2P Require Import Prelude.

(** The object [processAccountRequest] passes to [addPending]
    (lines 364-374); the [pr_] prefix keeps the field names apart from those
    of the quota ledger. *)
Record PendingRecord : Type := mkPending {
  pr_username : string;
  pr_created_at : Z;
  pr_requester : string;
  pr_masterPassword : string;
  pr_ownerKey : string;
  pr_activeKey : string;
  pr_postingKey : string;
  pr_memoKey : string;
  pr_transactionId : string
}.

Definition PendingFile := store (list PendingRecord).

(** [ensureRecoveryFile()] *)
Definition ensureRecoveryFile (fs : PendingFile) : PendingFile :=
  match st_file fs with
  | FMissing => snd (write_store [] fs)
  | _ => fs
  end.

(** [loadPending()]: [JSON.parse(raw).pending || []], and [[]] when the
    read or the parse throws. *)
Definition loadPending (fs : PendingFile) : list PendingRecord :=
  match read_store fs with
  | Some l => l
  | None => []
  end.

(** [savePending(list)] *)
Definition savePending (l : list PendingRecord) (fs : PendingFile) : PendingFile :=
  snd (write_store l fs).

(** [addPending(record)]: appends, without looking for an existing record
    of the same account. *)
Definition addPending (r : PendingRecord) (fs : PendingFile) : PendingFile :=
  savePending (loadPending fs ++ [r]) fs.

(** [removePending(username)]: keeps the records whose [username] differs. *)
Definition removePending (username : string) (fs : PendingFile) : PendingFile :=
  savePending (List.filter (fun r => negb (String.eqb (pr_username r) username))
                 (loadPending fs)) fs.

(** ** Lemmas *)

Lemma loadPending_save l fs :
  st_writable fs = true -> loadPending (savePending l fs) = l.
Proof. intros Hw. unfold savePending. by rewrite write_store_ok. Qed.

Lemma loadPending_save_fail l fs :
  st_writable fs = false -> savePending l fs = failed_write fs.
Proof. intros Hw. unfold savePending. by rewrite write_store_fail. Qed.

Lemma savePending_writable l fs : st_writable (savePending l fs) = st_writable fs.
Proof. unfold savePending, st_writable. by rewrite write_store_mode. Qed.

#[export] Hint Rewrite loadPending_save loadPending_save_fail savePending_writable
  using done : faucet_rw.

Lemma in_filter_username r u l :
  In r (List.filter (fun r => negb (String.eqb (pr_username r) u)) l) <->
  In r l /\ pr_username r <> u.
Proof.
  rewrite List.filter_In. destruct (String.eqb_spec (pr_username r) u) as [Heq|Hne]; simpl.
  - split; [intros [_ Hf]; discriminate | intros [_ Hn]; contradiction].
  - split; intros [Hin _]; split; done.
Qed.

Lemma filter_username_id u l :
  (forall r, In r l -> pr_username r <> u) ->
  List.filter (fun r => negb (String.eqb (pr_username r) u)) l = l.
Proof.
  induction l as [|r l IH]; simpl; intros Hl; [done|].
  destruct (String.eqb_spec (pr_username r) u) as [Heq|_].
  - exfalso. exact (Hl r (or_introl eq_refl) Heq).
  - simpl. f_equal. apply IH. intros r' Hr'. apply Hl. by right.
Qed.

(** ** Properties *)

(** On a writable store, [addPending] keeps every record the file held
    and appends the new one, so the credentials are on disk before the code
    goes on to deliver them. *)
Theorem addPending_appends r fs :
  st_writable fs = true -> loadPending (addPending r fs) = loadPending fs ++ [r].
Proof. intros Hw. unfold addPending. by rewrite loadPending_save. Qed.

Lemma addPending_appends_witness :
  loadPending (addPending (mkPending "n" 0 "a" "P5x" "o" "c" "p" "m" "T1")
                 (mkStore (FPresent []) WriteOk)) =
  loadPending (mkStore (FPresent []) WriteOk) ++ [mkPending "n" 0 "a" "P5x" "o" "c" "p" "m" "T1"].
Proof. apply addPending_appends. reflexivity. Defined.

(** [addPending] on a file whose write fails after the truncation. *)
Lemma addPending_write_fails r fs :
  st_write fs = WriteFails -> addPending r fs = mkStore FCorrupt WriteFails.
Proof. intros Hm. unfold addPending, savePending, write_store, failed_write. by rewrite Hm. Qed.

(** C21: what the recovery file holds after [addPending r], for every
    state of the file and every way the write can end.  The records kept
    are those [loadPending] could read, so a file that cannot be read or
    parsed is replaced by one holding only the new record; a write that
    fails at the open loses the new record; a write that fails after Node
    truncated the file loses every record, old and new.  Nothing of this
    reaches the caller. *)
Theorem addPending_cases r fs :
  loadPending (addPending r fs) =
    match st_write fs with
    | WriteOk => loadPending fs ++ [r]
    | OpenFails => loadPending fs
    | WriteFails => []
    end /\
  (st_file fs = FCorrupt -> st_writable fs = true -> st_file (addPending r fs) = FPresent [r]).
Proof.
  unfold addPending, savePending, write_store, failed_write. split.
  - by destruct (st_write fs) eqn:E.
  - unfold loadPending, read_store, st_writable. intros ->. by destruct (st_write fs).
Qed.

Lemma addPending_cases_witness :
  let r := mkPending "n" 0 "a" "P5x" "o" "c" "p" "m" "T1" in
  loadPending (addPending r (mkStore FCorrupt WriteOk)) =
    match st_write (mkStore (A:=list PendingRecord) FCorrupt WriteOk) with
    | WriteOk => loadPending (mkStore FCorrupt WriteOk) ++ [r]
    | OpenFails => loadPending (mkStore FCorrupt WriteOk)
    | WriteFails => []
    end /\
  (st_file (mkStore (A:=list PendingRecord) FCorrupt WriteOk) = FCorrupt ->
   st_writable (mkStore (A:=list PendingRecord) FCorrupt WriteOk) = true ->
   st_file (addPending r (mkStore FCorrupt WriteOk)) = FPresent [r]).
Proof. apply addPending_cases. Defined.

(** When the file cannot be written, [addPending] loses the record and
    nothing reports it to the caller. *)
Lemma addPending_unwritable r fs :
  st_writable fs = false -> addPending r fs = failed_write fs.
Proof. intros Hw. unfold addPending. by rewrite loadPending_save_fail. Qed.

(** After [removePending u] on a writable store, the records are
    exactly those of before whose [username] is not [u]: every record of
    [u] is gone (also duplicates) and no other record is touched. *)
Theorem removePending_spec u fs r :
  st_writable fs = true ->
  In r (loadPending (removePending u fs)) <-> In r (loadPending fs) /\ pr_username r <> u.
Proof. intros Hw. unfold removePending. rewrite loadPending_save by done. apply in_filter_username. Qed.

Lemma removePending_spec_witness :
  In (mkPending "b" 0 "a" "" "" "" "" "" "")
     (loadPending (removePending "n" (mkStore (FPresent
        [mkPending "n" 0 "a" "" "" "" "" "" ""; mkPending "b" 0 "a" "" "" "" "" "" ""]) WriteOk))) <->
  In (mkPending "b" 0 "a" "" "" "" "" "" "")
     (loadPending (mkStore (FPresent
        [mkPending "n" 0 "a" "" "" "" "" "" ""; mkPending "b" 0 "a" "" "" "" "" "" ""]) WriteOk)) /\
  pr_username (mkPending "b" 0 "a" "" "" "" "" "" "") <> "n"%string.
Proof. apply removePending_spec. reflexivity. Defined.

(** Adding the record of a fresh account and then removing it by name
    gives back the records of before (the add/remove round trip of a
    delivered account). *)
Theorem add_remove_roundtrip r fs :
  st_writable fs = true ->
  (forall r', In r' (loadPending fs) -> pr_username r' <> pr_username r) ->
  loadPending (removePending (pr_username r) (addPending r fs)) = loadPending fs.
Proof.
  intros Hw Hfresh. unfold removePending.
  rewrite loadPending_save by (unfold addPending; by rewrite savePending_writable).
  rewrite addPending_appends by done.
  rewrite List.filter_app. simpl. rewrite String.eqb_refl. simpl.
  rewrite app_nil_r. by apply filter_username_id.
Qed.

Lemma add_remove_roundtrip_witness :
  loadPending (removePending "n" (addPending (mkPending "n" 0 "a" "" "" "" "" "" "")
     (mkStore (FPresent [mkPending "b" 0 "a" "" "" "" "" "" ""]) WriteOk))) =
  [mkPending "b" 0 "a" "" "" "" "" "" ""].
Proof.
  apply (add_remove_roundtrip (mkPending "n" 0 "a" "" "" "" "" "" "")
           (mkStore (FPresent [mkPending "b" 0 "a" "" "" "" "" "" ""]) WriteOk)).
  - reflexivity.
  - intros r' [<-|[]]. simpl. discriminate.
Defined.
