(* ===== verification/Credentials.v ===== *)
(** * Generated credentials: the master password and the key seeds

    [src/backend/services/blockchain-monitor.js]:
    - [generateMasterPassword] (lines 570-588) draws 32 random bytes and
      appends to the prefix ["P5"] fifty characters of the alphabet
      [base58Chars], the [i]-th being [base58Chars[bytes[i % 32] % 58]];
    - [generateAccountKeys] (lines 676-697) derives the four role keys with
      [PrivateKey.fromSeed(username + role + masterPassword)].

    The random bytes are an argument. The cryptographic derivation is the
    interface [KeyDerivation] (the dhive library the code calls); what is
    proved about it only concerns the seed strings the code builds. *)

From S2P Require Import Prelude.

(** ** The master password *)

Definition base58Chars : string :=
  "123456789ABCDEFGHJKLMNPQRSTUVWXYZabcdefghijkmnopqrstuvwxyz".

(** [crypto.randomBytes(32)] *)
Definition RANDOM_BYTES : nat := 32.

(** [base58Chars[n]] appended to a string: [undefined] prints as
    ["undefined"] when the index is out of range. *)
Definition b58_at (n : nat) : string :=
  match String.get n base58Chars with
  | Some c => String c EmptyString
  | None => "undefined"
  end.

(** The piece the loop body appends at iteration [i]:
    [base58Chars[randomBytes[i % randomBytes.length] % base58Chars.length]]. *)
Definition pw_piece (randomBytes : list Byte.byte) (i : nat) : string :=
  match nth_error randomBytes (i mod length randomBytes) with
  | Some b => b58_at (Byte.to_nat b mod String.length base58Chars)
  | None => "undefined"
  end.

(** [for (let i = 0; i < 50; i++) password += ...], the counter [i] and the
    number [n] of iterations left. *)
Fixpoint pw_loop (randomBytes : list Byte.byte) (i n : nat) (password : string) : string :=
  match n with
  | O => password
  | S n' => pw_loop randomBytes (S i) n' (password ++ pw_piece randomBytes i)
  end.

Definition generateMasterPassword (randomBytes : list Byte.byte) : string :=
  pw_loop randomBytes 0 50 "P5".

(** ** The key seeds *)

(** The key derivation of [@hiveio/dhive]: [PrivateKey.fromSeed(seed)]
    printed as WIF, and the public key of the same private key. *)
Class KeyDerivation : Type := {
  fromSeed_wif : string -> string;
  fromSeed_public : string -> string
}.

(** The object [generateAccountKeys] returns. *)
Record AccountKeys : Type := mkKeys {
  ak_masterPassword : string;
  ownerKey : string;
  activeKey : string;
  postingKey : string;
  memoKey : string;
  ownerPublic : string;
  activePublic : string;
  postingPublic : string;
  memoPublic : string
}.

(** The template string [`${username}${role}${masterPassword}`]. *)
Definition role_seed (username role masterPassword : string) : string :=
  (username ++ role ++ masterPassword)%string.

Definition roles : list string := ["owner"; "active"; "posting"; "memo"].

Definition generateAccountKeys `{KeyDerivation} (username masterPassword : string)
    : AccountKeys :=
  let s r := role_seed username r masterPassword in
  mkKeys masterPassword
    (fromSeed_wif (s "owner")) (fromSeed_wif (s "active"))
    (fromSeed_wif (s "posting")) (fromSeed_wif (s "memo"))
    (fromSeed_public (s "owner")) (fromSeed_public (s "active"))
    (fromSeed_public (s "posting")) (fromSeed_public (s "memo")).

(** ** Lemmas on strings as lists of characters *)

Abbreviation las := list_ascii_of_string.

Lemma las_app s t : las (s ++ t) = las s ++ las t.
Proof. induction s; simpl; [done|]. by f_equal. Qed.

Lemma las_inj s t : las s = las t -> s = t.
Proof.
  intros H. rewrite <- (string_of_list_ascii_of_string s), <- (string_of_list_ascii_of_string t).
  by rewrite H.
Qed.

Lemma get_las n s : String.get n s = nth_error (las s) n.
Proof. revert n. induction s; intros []; simpl; auto. Qed.

Lemma las_length s : length (las s) = String.length s.
Proof. induction s; simpl; auto. Qed.

Lemma str_mem_las c s : str_mem c s = true <-> In c (las s).
Proof.
  induction s as [|d s IH]; simpl; [split; done|].
  destruct (ascii_dec c d) as [->|Hne]; [split; auto|].
  rewrite IH. split; [auto|intros [->|]; [done|auto]].
Qed.

#[export] Hint Rewrite las_app : faucet_rw.

(** The character the loop appends at iteration [i], when there are bytes. *)
Definition pw_char (randomBytes : list Byte.byte) (i : nat) : ascii :=
  match nth_error randomBytes (i mod length randomBytes) with
  | Some b => nth (Byte.to_nat b mod 58) (las base58Chars) "?"%char
  | None => "?"%char
  end.

Lemma base58Chars_length : String.length base58Chars = 58.
Proof. reflexivity. Qed.

Lemma pw_piece_char bs i :
  bs <> [] -> pw_piece bs i = String (pw_char bs i) EmptyString.
Proof.
  intros Hbs. unfold pw_piece, pw_char. rewrite base58Chars_length.
  destruct (nth_error bs (i mod length bs)) as [b|] eqn:Hb.
  - unfold b58_at. rewrite get_las.
    assert (Byte.to_nat b mod 58 < length (las base58Chars)) as Hlt
      by (change (length (las base58Chars)) with 58; apply Nat.mod_upper_bound; lia).
    by rewrite (nth_error_nth' _ "?"%char Hlt).
  - exfalso. apply nth_error_None in Hb.
    assert (length bs <> 0) by (destruct bs; simpl; done).
    pose proof (Nat.mod_upper_bound i (length bs)). lia.
Qed.

Lemma pw_loop_spec bs n i acc :
  bs <> [] -> las (pw_loop bs i n acc) = las acc ++ map (pw_char bs) (seq i n).
Proof.
  intros Hbs. revert i acc. induction n as [|n IH]; intros i acc; simpl.
  - by rewrite app_nil_r.
  - rewrite IH, las_app, pw_piece_char by done. simpl. by rewrite <- app_assoc.
Qed.

Lemma generateMasterPassword_las bs :
  bs <> [] -> las (generateMasterPassword bs) = ["P"; "5"]%char ++ map (pw_char bs) (seq 0 50).
Proof. apply (pw_loop_spec bs 50 0 "P5"). Qed.

(** ** Properties of the password *)

(** C22: the generated password is ["P5"] followed by the fifty characters
    [base58Chars[bytes[i % n] % 58]], [i = 0..49], for any non-empty byte
    array of length [n]; it therefore has 52 characters, all of them (after
    the prefix) in the alphabet. *)
Theorem generateMasterPassword_shape bs :
  bs <> [] ->
  las (generateMasterPassword bs) = ["P"; "5"]%char ++ map (pw_char bs) (seq 0 50) /\
  String.length (generateMasterPassword bs) = 52 /\
  (forall c, In c (map (pw_char bs) (seq 0 50)) -> str_mem c base58Chars = true).
Proof.
  intros Hbs. assert (Hl := generateMasterPassword_las bs Hbs). split_and!.
  - exact Hl.
  - rewrite <- las_length, Hl. by rewrite length_app, length_map, length_seq.
  - intros c (i & <- & _)%in_map_iff. apply str_mem_las. unfold pw_char.
    destruct (nth_error bs (i mod length bs)) as [b|] eqn:Hb.
    + apply nth_In. change (length (las base58Chars)) with 58. apply Nat.mod_upper_bound. lia.
    + exfalso. apply nth_error_None in Hb.
      assert (length bs <> 0) by (destruct bs; simpl; done).
      pose proof (Nat.mod_upper_bound i (length bs)). lia.
Qed.

Lemma generateMasterPassword_shape_witness :
  las (generateMasterPassword (repeat Byte.x00 32)) =
    ["P"; "5"]%char ++ map (pw_char (repeat Byte.x00 32)) (seq 0 50) /\
  String.length (generateMasterPassword (repeat Byte.x00 32)) = 52 /\
  (forall c, In c (map (pw_char (repeat Byte.x00 32)) (seq 0 50)) ->
             str_mem c base58Chars = true).
Proof. apply generateMasterPassword_shape. discriminate. Defined.

(** C23: with the 32 bytes the code draws, the fifty characters repeat with
    period 32: character [2 + i] equals character [2 + i + 32] for
    [i < 18]. The password carries 32 random symbols, not 50, against the
    comment's "256 bits of entropy". *)
Theorem generateMasterPassword_period bs i :
  length bs = RANDOM_BYTES -> i < 18 ->
  String.get (2 + i) (generateMasterPassword bs) =
  String.get (2 + i + 32) (generateMasterPassword bs).
Proof.
  intros Hlen Hi. assert (bs <> []) by (intros ->; discriminate).
  rewrite !get_las. rewrite (generateMasterPassword_las bs H).
  rewrite !nth_error_app2 by (cbn; lia). cbn [length].
  replace (2 + i - 2) with i by lia. replace (2 + i + 32 - 2) with (i + 1 * 32) by lia.
  rewrite !nth_error_map, !nth_error_seq.
  destruct (Nat.ltb_spec i 50), (Nat.ltb_spec (i + 1 * 32) 50); try lia. cbn [option_map].
  f_equal. rewrite !Nat.add_0_l. unfold pw_char. rewrite Hlen. unfold RANDOM_BYTES.
  by rewrite Nat.Div0.mod_add.
Qed.

Lemma generateMasterPassword_period_witness :
  String.get (2 + 5) (generateMasterPassword (repeat Byte.x7f 32)) =
  String.get (2 + 5 + 32) (generateMasterPassword (repeat Byte.x7f 32)).
Proof. apply generateMasterPassword_period; [reflexivity | lia]. Defined.

(** The password depends on each random byte only through its
    residue modulo 58: two byte arrays with the same length and the same
    residues give the same password (so at most [58^32] passwords arise
    from the [256^32] byte arrays). *)
Theorem generateMasterPassword_residues bs1 bs2 :
  length bs1 = length bs2 ->
  (forall k b1 b2, nth_error bs1 k = Some b1 -> nth_error bs2 k = Some b2 ->
     Byte.to_nat b1 mod 58 = Byte.to_nat b2 mod 58) ->
  generateMasterPassword bs1 = generateMasterPassword bs2.
Proof.
  intros Hlen Hres. unfold generateMasterPassword.
  assert (forall i, pw_piece bs1 i = pw_piece bs2 i) as Hp.
  { intros i. unfold pw_piece. rewrite base58Chars_length, Hlen.
    destruct (nth_error bs1 (i mod length bs2)) as [b1|] eqn:H1,
             (nth_error bs2 (i mod length bs2)) as [b2|] eqn:H2; try done.
    - by rewrite (Hres _ _ _ H1 H2).
    - apply nth_error_None in H2. rewrite <- Hlen in H2.
      apply nth_error_None in H2. congruence.
    - apply nth_error_None in H1. rewrite Hlen in H1.
      apply nth_error_None in H1. congruence. }
  assert (forall n i acc, pw_loop bs1 i n acc = pw_loop bs2 i n acc) as Hl.
  { induction n as [|n IH]; intros i acc; simpl; [done|]. by rewrite Hp, IH. }
  apply Hl.
Qed.

Lemma generateMasterPassword_residues_witness :
  generateMasterPassword [Byte.x00; Byte.x01] = generateMasterPassword [Byte.x3a; Byte.x3b].
Proof.
  apply generateMasterPassword_residues; [reflexivity|].
  intros [|[|k]] b1 b2 H1 H2; simpl in *; simplify_eq; [reflexivity|reflexivity|].
  destruct k; discriminate.
Defined.

(** The residue classes of a random byte: the first 24 characters of the
    alphabet are drawn by 5 byte values each, the other 34 by 4: the
    characters are not uniformly distributed. *)
Lemma base58_modulo_bias k :
  k < String.length base58Chars ->
  length (List.filter (fun n => Nat.eqb (n mod String.length base58Chars) k) (seq 0 256)) =
  (if k <? 24 then 5 else 4).
Proof.
  rewrite base58Chars_length. intros Hk.
  do 58 (destruct k as [|k]; [reflexivity|]). lia.
Qed.

(** ** Properties of the seeds *)

Lemma split_at_P (a1 a2 b1 b2 : list ascii) :
  ~ In "P"%char a1 -> ~ In "P"%char a2 ->
  head b1 = Some "P"%char -> head b2 = Some "P"%char ->
  a1 ++ b1 = a2 ++ b2 -> a1 = a2 /\ b1 = b2.
Proof.
  revert a2. induction a1 as [|c a1 IH]; intros [|c' a2] H1 H2 Hb1 Hb2 Heq; simpl in *.
  - done.
  - subst b1. simpl in Hb1. simplify_eq. tauto.
  - subst b2. simpl in Hb2. simplify_eq. tauto.
  - injection Heq as -> Heq. destruct (IH a2) as [-> ->]; auto.
Qed.

Lemma role_last_char (u1 u2 : list ascii) r1 r2 :
  In r1 roles -> In r2 roles -> u1 ++ las r1 = u2 ++ las r2 -> r1 = r2 /\ u1 = u2.
Proof.
  intros Hr1 Hr2 Heq.
  assert (r1 = r2) as <-.
  { apply (f_equal (fun l => head (rev l))) in Heq. rewrite !rev_app_distr in Heq.
    unfold roles in Hr1, Hr2; simpl in Hr1, Hr2.
    destruct Hr1 as [<-|[<-|[<-|[<-|[]]]]], Hr2 as [<-|[<-|[<-|[<-|[]]]]];
      simpl in Heq; congruence. }
  split; [done|]. by apply app_inv_tail in Heq.
Qed.

(** The seed strings [username + role + masterPassword] are
    unambiguous for passwords starting with ['P'] (as every generated one
    does) and usernames without ['P'] (Hive names are lower case): equal
    seeds come from the same username, role and password, so distinct
    accounts and roles never share a derivation seed. *)
Theorem role_seed_injective u1 u2 r1 r2 p1 p2 :
  str_mem "P" u1 = false -> str_mem "P" u2 = false ->
  In r1 roles -> In r2 roles ->
  String.prefix "P" p1 = true -> String.prefix "P" p2 = true ->
  role_seed u1 r1 p1 = role_seed u2 r2 p2 -> u1 = u2 /\ r1 = r2 /\ p1 = p2.
Proof.
  intros Hu1 Hu2 Hr1 Hr2 Hp1 Hp2 Heq. unfold role_seed in Heq.
  apply (f_equal las) in Heq. rewrite !las_app, !app_assoc in Heq.
  assert (forall r, In r roles -> ~ In "P"%char (las r)) as HrP.
  { intros r Hr Hin. unfold roles in Hr. simpl in Hr.
    destruct Hr as [<-|[<-|[<-|[<-|[]]]]]; simpl in Hin;
      repeat (destruct Hin as [Hin|Hin]; [discriminate|]); exact Hin. }
  assert (forall u, str_mem "P" u = false -> ~ In "P"%char (las u)) as HuP.
  { intros u Hu Hin. apply str_mem_las in Hin. congruence. }
  assert (forall p, String.prefix "P" p = true -> head (las p) = Some "P"%char) as HpP.
  { intros [|c p] Hp; [discriminate|]. cbn [String.prefix] in Hp.
    cbn [list_ascii_of_string head].
    destruct (ascii_dec "P" c) as [Heq'|Hne]; [by subst c|discriminate]. }
  assert (forall u r, str_mem "P" u = false -> In r roles -> ~ In "P"%char (las u ++ las r))
    as HurP.
  { intros u r Hu Hr. rewrite in_app_iff. intros [Hin|Hin]; [exact (HuP u Hu Hin)|exact (HrP r Hr Hin)]. }
  apply split_at_P in Heq as [Hur Hp]; auto.
  apply las_inj in Hp. subst p2.
  destruct (role_last_char (las u1) (las u2) r1 r2) as [Hr Hu]; auto.
  apply las_inj in Hu. auto.
Qed.

Lemma role_seed_injective_witness :
  "alice"%string = "alice"%string /\ "owner"%string = "owner"%string /\
  generateMasterPassword [Byte.x01] = generateMasterPassword [Byte.x01].
Proof.
  apply (role_seed_injective "alice" "alice" "owner" "owner"
           (generateMasterPassword [Byte.x01]) (generateMasterPassword [Byte.x01]));
    try reflexivity; unfold roles; simpl; auto.
Defined.
