(* ===== verification/Validation.v ===== *)
(** * The client-side form validator ([src/scripts/validation.js])

    [FormValidator] checks the fields of the request form in the browser:
    [validateHiveUsername] (lines 21-75), [validateEmail] (82-101),
    [validateRequired] (109-114), [validatePhone] (141-162) and
    [validateForm] (169-198).  Each returns an object
    [{isValid, message}] ([validateForm]: [{isValid, errors}]), a
    [ValidationResult] here.

    Strings are JavaScript strings whose code units are below 256, i.e.
    Rocq strings of [ascii] characters.  On that range [trim] removes the
    characters of [js_space] (the same set the regex class [\s] matches),
    [toLowerCase] maps A-Z and the Latin-1 capitals 192-222 (except 215,
    the multiplication sign) 32 code points down, and the two regexes are
    decided by the executable matchers [validCharsRegex_test] and
    [emailRegex_test]; the second is proved equal to the regex's meaning.
    [validateUrl] needs the WHATWG URL parser and is not modelled. *)

From S2P Require Import Prelude.
From Stdlib Require Import Btauto.

(** ** JavaScript string primitives *)

Definition js_lower_char (c : ascii) : ascii :=
  let n := nat_of_ascii c in
  if ((65 <=? n) && (n <=? 90)) || ((192 <=? n) && (n <=? 222) && negb (n =? 215))
  then ascii_of_nat (n + 32) else c.

(** [s.toLowerCase()] *)
Fixpoint toLowerCase (s : string) : string :=
  match s with
  | EmptyString => EmptyString
  | String c t => String (js_lower_char c) (toLowerCase t)
  end.

Fixpoint trimStart (s : string) : string :=
  match s with
  | EmptyString => EmptyString
  | String c t => if js_space c then trimStart t else s
  end.

Fixpoint trimEnd (s : string) : string :=
  match s with
  | EmptyString => EmptyString
  | String c t =>
      let t' := trimEnd t in
      if js_space c && String.eqb t' "" then EmptyString else String c t'
  end.

(** [s.trim()] *)
Definition trim (s : string) : string := trimEnd (trimStart s).

Fixpoint all_chars (p : ascii -> bool) (s : string) : bool :=
  match s with
  | EmptyString => true
  | String c t => p c && all_chars p t
  end.

Fixpoint str_last (s : string) : option ascii :=
  match s with
  | EmptyString => None
  | String c EmptyString => Some c
  | String _ t => str_last t
  end.

(** [s.endsWith(c)] for a one-character [c] *)
Definition endsWith_char (s : string) (c : ascii) : bool :=
  match str_last s with Some d => Ascii.eqb d c | None => false end.

Definition in_range (lo hi : nat) (c : ascii) : bool :=
  (lo <=? nat_of_ascii c) && (nat_of_ascii c <=? hi).

Definition is_lower (c : ascii) : bool := in_range 97 122 c.
Definition is_digit (c : ascii) : bool := in_range 48 57 c.
Definition is_alnum (c : ascii) : bool := is_lower c || is_digit c.

(** ** [validateHiveUsername] *)

Record ValidationResult : Type := mkResult {
  isValid : bool;
  message : string
}.

(** The class [[a-z0-9-]] *)
Definition is_name_char (c : ascii) : bool := is_alnum c || Ascii.eqb c "-".

(** [/^[a-z0-9-]+$/.test(s)] *)
Definition validCharsRegex_test (s : string) : bool :=
  negb (String.eqb s "") && all_chars is_name_char s.

(** The reserved patterns: [/^hive/i] and the like test a prefix, [/^null$/i]
    and the like the whole name; the [i] flag makes the test ignore case. *)
Inductive reserved_pattern : Type :=
| StartsWith (w : string)
| Exactly (w : string).

Definition reservedPatterns : list reserved_pattern :=
  [StartsWith "hive"; StartsWith "steem"; StartsWith "admin"; StartsWith "system";
   Exactly "null"; Exactly "test"; Exactly "api"; Exactly "www"; Exactly "blog";
   Exactly "wallet"].

(** [pattern.test(s)]; the words of the patterns are lower case. *)
Definition pattern_test (p : reserved_pattern) (s : string) : bool :=
  match p with
  | StartsWith w => String.prefix w (toLowerCase s)
  | Exactly w => String.eqb w (toLowerCase s)
  end.

Definition is_reserved (s : string) : bool :=
  existsb (fun p => pattern_test p s) reservedPatterns.

(** [FormData.get] gives a string or [null] ([None]); [!username] holds for
    [null] and for [""]. *)
Definition validateHiveUsername (username : option string) : ValidationResult :=
  match username with
  | None => mkResult false "Username is required."
  | Some u =>
      if String.eqb u "" then mkResult false "Username is required." else
      let u := toLowerCase (trim u) in
      if (String.length u <? 3)%nat then
        mkResult false "Username must be at least 3 characters long."
      else if (16 <? String.length u)%nat then
        mkResult false "Username cannot be longer than 16 characters."
      else if negb (validCharsRegex_test u) then
        mkResult false "Username can only contain lowercase letters, numbers, and hyphens."
      else if String.prefix "-" u || endsWith_char u "-" then
        mkResult false "Username cannot start or end with a hyphen."
      else if str_includes u "--" then
        mkResult false "Username cannot contain consecutive hyphens."
      else if is_reserved u then
        mkResult false "This username contains reserved words and cannot be used."
      else mkResult true ""
  end.

(** ** [validateEmail] *)

(** The class [[^\s@]] *)
Definition email_char (c : ascii) : bool := negb (js_space c) && negb (Ascii.eqb c "@").

(** The text before the first [c], and the text after it. *)
Fixpoint split_at_char (c : ascii) (s : string) : option (string * string) :=
  match s with
  | EmptyString => None
  | String d t =>
      if Ascii.eqb d c then Some (EmptyString, t)
      else match split_at_char c t with
           | Some (a, b) => Some (String d a, b)
           | None => None
           end
  end.

(** Whether a ['.'] occurs in [s] at neither end: [s] is [b ++ "." ++ c]
    with [b] and [c] not empty. *)
Fixpoint dot_not_last (s : string) : bool :=
  match s with
  | EmptyString => false
  | String d t => (Ascii.eqb d "." && negb (String.eqb t "")) || dot_not_last t
  end.

Definition inner_dot (s : string) : bool :=
  match s with
  | EmptyString => false
  | String _ t => dot_not_last t
  end.

(** [/^[^\s@]+@[^\s@]+\.[^\s@]+$/.test(s)]: one ['@'] after a non-empty
    local part, then a domain with an inner dot, no blank anywhere. *)
Definition emailRegex_test (s : string) : bool :=
  match split_at_char "@" s with
  | None => false
  | Some (a, d) =>
      negb (String.eqb a "") && all_chars email_char a && all_chars email_char d && inner_dot d
  end.

Definition validateEmail (email : option string) : ValidationResult :=
  match email with
  | None => mkResult false "Email address is required."
  | Some e =>
      if String.eqb e "" then mkResult false "Email address is required." else
      let e := trim e in
      if negb (emailRegex_test e) then mkResult false "Please enter a valid email address."
      else if (254 <? String.length e)%nat then mkResult false "Email address is too long."
      else mkResult true ""
  end.

(** ** [validateRequired] and [validatePhone] *)

Definition validateRequired (value : option string) (fieldName : string) : ValidationResult :=
  match value with
  | Some v => if String.eqb v "" || String.eqb (trim v) "" then
                mkResult false (fieldName ++ " is required.")
              else mkResult true ""
  | None => mkResult false (fieldName ++ " is required.")
  end.

Fixpoint str_filter (p : ascii -> bool) (s : string) : string :=
  match s with
  | EmptyString => EmptyString
  | String c t => if p c then String c (str_filter p t) else str_filter p t
  end.

(** The class [[\s\-\(\)\+\.]] that [replace(..., '')] removes. *)
Definition phone_format_char (c : ascii) : bool := js_space c || str_mem c "-()+.".

Definition validatePhone (phone : option string) : ValidationResult :=
  match phone with
  | None => mkResult true ""
  | Some p =>
      if String.eqb p "" || String.eqb (trim p) "" then mkResult true "" else
      let cleanPhone := str_filter (fun c => negb (phone_format_char c)) (trim p) in
      if negb (negb (String.eqb cleanPhone "") && all_chars is_digit cleanPhone) then
        mkResult false "Phone number should contain only numbers and common formatting characters."
      else if (String.length cleanPhone <? 7)%nat || (15 <? String.length cleanPhone)%nat then
        mkResult false "Phone number should be between 7 and 15 digits."
      else mkResult true ""
  end.

(** ** [validateForm] *)

(** Assigning [obj[k] = v]: an existing property keeps its place. *)
Fixpoint js_set (k v : string) (o : list (string * string)) : list (string * string) :=
  match o with
  | [] => [(k, v)]
  | (k', v') :: o' => if String.eqb k k' then (k, v) :: o' else (k', v') :: js_set k v o'
  end.

Record FormResult : Type := mkFormResult {
  form_isValid : bool;
  errors : list (string * string)
}.

(** The fields [requestedUsername] and [termsAccepted] of the form, and the
    [username] of [keychainManager.getConnectedUser()] ([None] when it is
    [null] or the manager is absent). *)
Definition validateForm (requestedUsername : option string) (connectedUser : option string)
    (termsAccepted : option string) : FormResult :=
  let r := validateHiveUsername requestedUsername in
  let '(errs, ok) :=
    if negb (isValid r) then (js_set "requestedUsername" (message r) [], false) else ([], true) in
  let '(errs, ok) :=
    match connectedUser, requestedUsername with
    | Some cu, Some ru =>
        if negb (String.eqb cu "") && negb (String.eqb ru "")
           && String.eqb (toLowerCase cu) (toLowerCase ru)
        then (js_set "requestedUsername"
                "The new account name cannot be the same as your connected username." errs, false)
        else (errs, ok)
    | _, _ => (errs, ok)
    end in
  let '(errs, ok) :=
    match termsAccepted with
    | Some t => if String.eqb t "" then
                  (js_set "termsAccepted" "You must confirm authorization to continue." errs, false)
                else (errs, ok)
    | None => (js_set "termsAccepted" "You must confirm authorization to continue." errs, false)
    end in
  mkFormResult ok errs.

(** ** The shape of an accepted name *)

#[local] Open Scope string_scope.
#[local] Arguments String.append : simpl nomatch.

(** A word of an accepted name: not empty, of [[a-z0-9]] only. *)
Definition okword (w : string) : bool := negb (String.eqb w "") && all_chars is_alnum w.

(** The words after the first, each preceded by its hyphen. *)
Fixpoint tail_join (ws : list string) : string :=
  match ws with
  | [] => EmptyString
  | w :: r => String "-" (w ++ tail_join r)
  end.

(** A left-to-right scan of the rest of a name, [prev_hyphen] telling
    whether the character before was a hyphen. *)
Fixpoint words_after (prev_hyphen : bool) (s : string) : bool :=
  match s with
  | EmptyString => negb prev_hyphen
  | String c t =>
      if is_alnum c then words_after false t
      else if Ascii.eqb c "-" then negb prev_hyphen && words_after true t
      else false
  end.

Definition hyphen_words (s : string) : bool :=
  match s with
  | EmptyString => false
  | String c t => is_alnum c && words_after false t
  end.

(** ** Lemmas on strings *)

Lemma all_chars_app p a b : all_chars p (a ++ b) = all_chars p a && all_chars p b.
Proof. induction a as [|c a IH]; simpl; [done|]. by rewrite IH, andb_assoc. Qed.

Lemma endsWith_char_cons c t x :
  endsWith_char (String c t) x = if String.eqb t "" then Ascii.eqb c x else endsWith_char t x.
Proof. by destruct t. Qed.

Lemma prefix_hyphen d s t :
  String.prefix (String "-" s) (String d t) = Ascii.eqb d "-" && String.prefix s t.
Proof.
  cbn [String.prefix]. destruct (ascii_dec "-" d), (Ascii.eqb_spec d "-"); subst; done.
Qed.

Lemma prefix_nil s : String.prefix "" s = true.
Proof. by destruct s. Qed.

Lemma alnum_not_hyphen c : is_alnum c = true -> Ascii.eqb c "-" = false.
Proof. intros H. by destruct (Ascii.eqb_spec c "-"); subst. Qed.

Lemma concat_hyphen w ws : String.concat "-" (w :: ws) = w ++ tail_join ws.
Proof.
  revert w. induction ws as [|v ws IH]; intros w; simpl.
  - by rewrite str_app_nil_r.
  - rewrite <- (IH v). by destruct ws.
Qed.

Lemma tail_join_head d u ws : String d u = tail_join ws -> d = "-"%char.
Proof. destruct ws; simpl; congruence. Qed.

#[export] Hint Resolve alnum_not_hyphen : faucet.

(** The scan after a character that is not a hyphen reads [w ++ "-" ++ ...]
    with [w] a possibly empty alphanumeric word; after a hyphen, the same
    with [w] not empty. *)
#[local] Arguments is_alnum : simpl never.
#[local] Arguments email_char : simpl never.

Lemma okword_cons c w : okword (String c w) = is_alnum c && all_chars is_alnum w.
Proof. done. Qed.

Lemma okword_nil : okword "" = false.
Proof. done. Qed.

Ltac vsimpl :=
  simpl in *; rewrite ?okword_cons, ?okword_nil in *;
  rewrite ?andb_true_iff in *; destruct_and?.

Lemma words_after_spec t :
  (words_after false t = true <-> exists w ws, all_chars is_alnum w = true /\
     forallb okword ws = true /\ t = w ++ tail_join ws) /\
  (words_after true t = true <-> exists w ws, okword w = true /\
     forallb okword ws = true /\ t = w ++ tail_join ws).
Proof.
  induction t as [|d u [IHf IHt]].
  { split; split; cbn [words_after negb]; try done.
    - intros _. by exists "", [].
    - intros ([|c w] & ws & Hw & _ & Heq); vsimpl; done. }
  cbn [words_after]. destruct (is_alnum d) eqn:Ha.
  - rewrite !IHf. clear IHf IHt. split; split.
    + intros (w & ws & Hw & Hws & ->). exists (String d w), ws. vsimpl. split_and?; done.
    + intros ([|d' w] & ws & Hw & Hws & Heq); vsimpl.
      * apply tail_join_head in Heq. subst. done.
      * injection Heq as <- ->. exists w, ws; split_and?; done.
    + intros (w & ws & Hw & Hws & ->). exists (String d w), ws. vsimpl. split_and?; done.
    + intros ([|d' w] & ws & Hw & Hws & Heq); vsimpl; [done|].
      injection Heq as <- ->. exists w, ws; split_and?; done.
  - destruct (Ascii.eqb_spec d "-") as [->|Hd]; cbn [andb negb].
    + rewrite IHt. clear IHf IHt. split; split; try done.
      * intros (w & ws & Hw & Hws & ->). exists "", (w :: ws). vsimpl. split_and?; done.
      * intros ([|d' w] & [|v ws] & Hw & Hws & Heq); vsimpl; try done.
        -- injection Heq as ->. exists v, ws; split_and?; done.
        -- injection Heq as <- _. done.
        -- injection Heq as <- _. done.
      * intros ([|d' w] & ws & Hw & Hws & Heq); vsimpl; [done|].
        injection Heq as <- _. done.
    + clear IHf IHt. split; split; try done.
      * intros ([|d' w] & ws & Hw & Hws & Heq); vsimpl.
        -- apply tail_join_head in Heq. congruence.
        -- injection Heq as <- _. congruence.
      * intros ([|d' w] & ws & Hw & Hws & Heq); vsimpl; [done|].
        injection Heq as <- _. congruence.
Qed.

Lemma hyphen_words_spec s :
  hyphen_words s = true <->
  exists ws, ws <> [] /\ forallb okword ws = true /\ s = String.concat "-" ws.
Proof.
  destruct s as [|c t]; unfold hyphen_words.
  - split; [done|]. intros ([|w ws] & Hne & Hws & Heq); [done|].
    rewrite concat_hyphen in Heq. vsimpl. destruct w; [done|discriminate].
  - rewrite andb_true_iff, (proj1 (words_after_spec t)). split.
    + intros [Hc (w & ws & Hw & Hws & ->)]. exists (String c w :: ws).
      rewrite concat_hyphen. vsimpl. split_and?; done.
    + intros ([|w ws] & Hne & Hws & Heq); [done|].
      rewrite concat_hyphen in Heq. destruct w as [|c' w]; vsimpl; [done|].
      injection Heq as <- ->. split; [done|]. exists w, ws; split_and?; done.
Qed.

Lemma str_last_cons c u :
  str_last (String c u) = match u with EmptyString => Some c | _ => str_last u end.
Proof. by destruct u. Qed.

Lemma includes_hh d u :
  str_includes (String d u) "--" = (Ascii.eqb d "-" && String.prefix "-" u) || str_includes u "--".
Proof. cbn [str_includes]. by rewrite prefix_hyphen. Qed.

Definition last_ok (prev : bool) (u : string) : bool :=
  match str_last u with None => negb prev | Some c => negb (Ascii.eqb c "-") end.

Lemma str_last_some a u : exists c, str_last (String a u) = Some c.
Proof.
  revert a. induction u as [|b u IH]; intros a; [by eexists|].
  rewrite str_last_cons. apply IH.
Qed.

Lemma last_ok_cons prev d u : last_ok prev (String d u) = last_ok (Ascii.eqb d "-") u.
Proof.
  unfold last_ok. rewrite str_last_cons. destruct u as [|a u]; [done|].
  by destruct (str_last_some a u) as [c ->].
Qed.

(** The scan [words_after] decides the three checks of the code on the rest
    of a name: the class [[a-z0-9-]], the last character, and [--]. *)
Lemma words_after_checks prev u :
  words_after prev u =
    all_chars is_name_char u && last_ok prev u &&
    negb (str_includes (if prev then String "-" u else u) "--").
Proof.
  revert prev. induction u as [|d u IH]; intros prev; [by destruct prev|].
  cbn [words_after all_chars]. rewrite last_ok_cons.
  replace (is_name_char d) with (is_alnum d || Ascii.eqb d "-") by done.
  destruct (is_alnum d) eqn:Ha.
  - pose proof (alnum_not_hyphen d Ha) as Hd. rewrite IH, Hd.
    destruct prev; rewrite ?includes_hh, ?prefix_hyphen, ?prefix_nil, ?Hd; cbn [andb orb]; btauto.
  - destruct (Ascii.eqb d "-") eqn:Hd; [|done].
    apply Ascii.eqb_eq in Hd as ->.
    rewrite IH. destruct prev; rewrite ?includes_hh, ?prefix_hyphen, ?prefix_nil, ?Ascii.eqb_refl;
      cbn [andb orb negb]; btauto.
Qed.

Lemma endsWith_last_ok s : negb (endsWith_char s "-") = last_ok false s.
Proof. unfold endsWith_char, last_ok. by destruct (str_last s). Qed.

(** The code's character, hyphen and [--] checks on a name together say
    that it is a sequence of words joined by single hyphens. *)
Lemma name_checks n :
  validCharsRegex_test n && negb (String.prefix "-" n || endsWith_char n "-") &&
  negb (str_includes n "--") = hyphen_words n.
Proof.
  destruct n as [|c t]; [done|]. unfold validCharsRegex_test, hyphen_words.
  rewrite str_eqb_cons_nil, negb_orb, endsWith_last_ok, last_ok_cons, includes_hh,
    prefix_hyphen, prefix_nil, (words_after_checks false t).
  cbn [all_chars negb andb]. replace (is_name_char c) with (is_alnum c || Ascii.eqb c "-") by done.
  destruct (is_alnum c) eqn:Ha.
  - rewrite (alnum_not_hyphen c Ha). cbn [andb orb negb]. btauto.
  - destruct (Ascii.eqb c "-"); cbn [andb orb negb]; btauto.
Qed.

(** ** Properties *)

(** C29: [validateHiveUsername] accepts a name exactly when its trimmed,
    lower-cased form has 3 to 16 characters, is a sequence of one or more
    non-empty words of [[a-z0-9]] joined by single hyphens, and matches no
    reserved pattern. *)
Theorem validateHiveUsername_accepts u :
  isValid (validateHiveUsername (Some u)) = true <->
  (3 <= String.length (toLowerCase (trim u)) <= 16)%nat /\
  (exists ws, ws <> [] /\ forallb okword ws = true /\
              toLowerCase (trim u) = String.concat "-" ws) /\
  is_reserved (toLowerCase (trim u)) = false.
Proof.
  unfold validateHiveUsername. destruct (String.eqb_spec u "") as [->|Hu].
  { cbn. split; [done|]. intros [? _]. lia. }
  cbv zeta. set (n := toLowerCase (trim u)).
  rewrite <- hyphen_words_spec, <- name_checks.
  destruct (Nat.ltb_spec (String.length n) 3); [cbn; split; [done|lia]|].
  destruct (Nat.ltb_spec 16 (String.length n)); [cbn; split; [done|lia]|].
  destruct (validCharsRegex_test n), (String.prefix "-" n || endsWith_char n "-"),
    (str_includes n "--"), (is_reserved n); cbn; split; intros; destruct_and?;
    split_and?; try done; lia.
Qed.

(** ** The email pattern *)

(** What [/^[^\s@]+@[^\s@]+\.[^\s@]+$/] matches: three non-empty runs of
    the class [[^\s@]], the first two separated by ['@'], the last two by
    ['.']. *)
Definition email_regex (s : string) : Prop :=
  exists a b c, s = a ++ String "@" (b ++ String "." c) /\ a <> "" /\ b <> "" /\ c <> "" /\
    all_chars email_char a = true /\ all_chars email_char b = true /\
    all_chars email_char c = true.

Lemma split_at_char_some c s a d :
  split_at_char c s = Some (a, d) ->
  s = a ++ String c d /\ all_chars (fun x => negb (Ascii.eqb x c)) a = true.
Proof.
  revert a d. induction s as [|x t IH]; intros a d; [done|]. cbn [split_at_char].
  destruct (Ascii.eqb_spec x c) as [->|Hx].
  - by intros [= <- <-].
  - destruct (split_at_char c t) as [[a' d']|] eqn:Hs; [|done]. intros [= <- <-].
    destruct (IH a' d' eq_refl) as [-> Ha]. cbn [all_chars]. rewrite Ha.
    destruct (Ascii.eqb_spec x c); done.
Qed.

Lemma split_at_char_app c a d :
  all_chars (fun x => negb (Ascii.eqb x c)) a = true -> split_at_char c (a ++ String c d) = Some (a, d).
Proof.
  induction a as [|x a IH]; intros Ha; cbn [split_at_char all_chars String.append] in *.
  - by rewrite Ascii.eqb_refl.
  - apply andb_prop in Ha as [Hx Ha]. destruct (Ascii.eqb x c); [done|]. by rewrite IH.
Qed.

Lemma all_chars_impl (p q : ascii -> bool) s :
  (forall x, p x = true -> q x = true) -> all_chars p s = true -> all_chars q s = true.
Proof.
  intros Hpq. induction s as [|x s IH]; cbn [all_chars]; [done|].
  rewrite !andb_true_iff. intros [Hx Hs]. auto.
Qed.

Lemma dot_not_last_spec t :
  dot_not_last t = true <-> exists b c, t = b ++ String "." c /\ c <> "".
Proof.
  induction t as [|x t IH]; cbn [dot_not_last].
  - split; [done|]. intros ([|? ?] & ? & ? & _); done.
  - rewrite orb_true_iff, IH, andb_true_iff. split.
    + intros [[Hx Ht]|(b & c & -> & Hc)].
      * apply Ascii.eqb_eq in Hx as ->. exists "", t. split; [done|].
        by intros ->.
      * by exists (String x b), c.
    + intros ([|y b] & c & Heq & Hc); cbn [String.append] in Heq; injection Heq as -> ->.
      * left. rewrite Ascii.eqb_refl. split; [done|]. by destruct c.
      * right. eauto.
Qed.

Lemma inner_dot_spec d :
  inner_dot d = true <-> exists b c, d = b ++ String "." c /\ b <> "" /\ c <> "".
Proof.
  destruct d as [|x t]; cbn [inner_dot].
  - split; [done|]. intros ([|? ?] & ? & ? & _); done.
  - rewrite dot_not_last_spec. split.
    + intros (b & c & -> & Hc). by exists (String x b), c.
    + intros ([|y b] & c & Heq & Hb & Hc); [done|].
      cbn [String.append] in Heq. injection Heq as -> ->. eauto.
Qed.

Lemma email_char_not_at x : email_char x = true -> negb (Ascii.eqb x "@") = true.
Proof. unfold email_char. rewrite andb_true_iff. tauto. Qed.

(** The executable matcher [emailRegex_test] decides exactly the
    language of the regex [/^[^\s@]+@[^\s@]+\.[^\s@]+$/] of [validateEmail]. *)
Theorem emailRegex_test_spec s : emailRegex_test s = true <-> email_regex s.
Proof.
  unfold emailRegex_test, email_regex. split.
  - destruct (split_at_char "@" s) as [[a d]|] eqn:Hs; [|done].
    apply split_at_char_some in Hs as [-> _].
    rewrite !andb_true_iff, negb_true_iff, inner_dot_spec.
    intros [[[Ha Hae] Hd] (b & c & -> & Hb & Hc)].
    rewrite all_chars_app in Hd. cbn [all_chars] in Hd. rewrite !andb_true_iff in Hd.
    exists a, b, c. apply String.eqb_neq in Ha. tauto.
  - intros (a & b & c & -> & Ha & Hb & Hc & Hea & Heb & Hec).
    rewrite split_at_char_app by (eapply all_chars_impl; [apply email_char_not_at|done]).
    rewrite all_chars_app. cbn [all_chars]. rewrite Hea, Heb, Hec.
    apply String.eqb_neq in Ha. rewrite Ha. cbn.
    apply inner_dot_spec. eauto.
Qed.
