(* ===== verification/FieldValidation.v ===== *)
(** * Validators by name, [validateUrl], and real-time field validation

    [src/scripts/validation.js]: the constructor of [FormValidator]
    (lines 5-14) keeps a table [this.validators] from a validator name to
    a validator; [validateUrl] (lines 121-134) accepts an empty field and
    otherwise asks the [URL] constructor; [setupRealtimeValidation]
    (lines 248-290) attaches two listeners to a field: on [blur] it runs
    the named validator on the field's value and shows its message under
    the field, or clears it; on [focus] it clears it.

    The [URL] constructor is the WHATWG URL parser of the browser, a
    library: [validateUrl] takes it as the predicate [urlParses] (whether
    [new URL(s)] returns rather than throws).  The table is looked up with
    the five names it defines; the names of [Object.prototype] it also
    answers to are not validator names any caller passes.

    [FieldErrors] is what the listeners change of the page: the text and
    display of the field's error element, its [error] class and its
    [aria-invalid] attribute. *)

From S2P Require Import Prelude Validation.

(** ** The table of validators *)

Inductive validator_type : Type :=
| VHiveUsername
| VEmail
| VRequired
| VUrl
| VPhone.

(** [this.validators[name]] *)
Definition validators (name : string) : option validator_type :=
  if String.eqb name "hiveUsername" then Some VHiveUsername
  else if String.eqb name "email" then Some VEmail
  else if String.eqb name "required" then Some VRequired
  else if String.eqb name "url" then Some VUrl
  else if String.eqb name "phone" then Some VPhone
  else None.

(** [validateUrl(url)] *)
Definition validateUrl (urlParses : string -> bool) (url : option string) : ValidationResult :=
  match url with
  | None => mkResult true ""
  | Some u =>
      if String.eqb u "" || String.eqb (trim u) "" then mkResult true ""
      else if urlParses (trim u) then mkResult true ""
      else mkResult false "Please enter a valid URL (e.g., https://example.com)."
  end.

Section Realtime.
Variable urlParses : string -> bool.

(** The call of the blur listener: [required] also receives the field's
    [data-field-name] or ['This field']. *)
Definition run_validator (t : validator_type) (value : string) (fieldName : option string)
    : ValidationResult :=
  match t with
  | VHiveUsername => validateHiveUsername (Some value)
  | VEmail => validateEmail (Some value)
  | VRequired =>
      validateRequired (Some value)
        (match fieldName with Some n => if String.eqb n "" then "This field" else n
                              | None => "This field" end)
  | VUrl => validateUrl urlParses (Some value)
  | VPhone => validatePhone (Some value)
  end.

(** ** The field and its listeners *)

(** [errorElement.textContent] with its display ([None]: empty and
    hidden), the [error] class and [aria-invalid] of the field. *)
Record FieldErrors : Type := mkFieldErrors {
  fv_error : option string;
  fv_error_class : bool;
  fv_aria_invalid : bool
}.

Definition clearedField : FieldErrors := mkFieldErrors None false false.

(** The [blur] listener; [hasErrorElement] is whether
    [document.getElementById(fieldId + 'Error')] found the element. *)
Definition on_blur (t : validator_type) (hasErrorElement : bool) (value : string)
    (fieldName : option string) (v : FieldErrors) : FieldErrors :=
  if hasErrorElement then
    let r := run_validator t value fieldName in
    if isValid r then clearedField else mkFieldErrors (Some (message r)) true true
  else v.

(** The [focus] listener. *)
Definition on_focus (hasErrorElement : bool) (v : FieldErrors) : FieldErrors :=
  if hasErrorElement then clearedField else v.

(** [setupRealtimeValidation(fieldId, validatorType)]: the validator the
    listeners run, or [None] when the field or the validator is missing
    and nothing is attached. *)
Definition setupRealtimeValidation (fieldExists : bool) (validatorType : string)
    : option validator_type :=
  if fieldExists then validators validatorType else None.

(** What happens to the field: it loses focus with a value, or gets it. *)
Inductive field_event : Type :=
| Blur (value : string)
| Focus.

Definition field_step (reg : option validator_type) (hasErrorElement : bool)
    (fieldName : option string) (v : FieldErrors) (e : field_event) : FieldErrors :=
  match reg with
  | None => v
  | Some t =>
      match e with
      | Blur value => on_blur t hasErrorElement value fieldName v
      | Focus => on_focus hasErrorElement v
      end
  end.

Definition field_run (reg : option validator_type) (hasErrorElement : bool)
    (fieldName : option string) (v : FieldErrors) (es : list field_event) : FieldErrors :=
  fold_left (field_step reg hasErrorElement fieldName) es v.

End Realtime.

(** ** Lemmas *)

(** [validateUrl] accepts a value exactly when it is blank or the URL
    parser accepts it trimmed. *)
Lemma validateUrl_valid urlParses u :
  isValid (validateUrl urlParses (Some u)) = String.eqb (trim u) "" || urlParses (trim u).
Proof.
  unfold validateUrl. destruct (String.eqb_spec u "") as [->|]; simpl; [done|].
  by destruct (String.eqb (trim u) ""), (urlParses (trim u)).
Qed.

(** A validator name outside the table attaches nothing: the field never
    changes. *)
Lemma setupRealtimeValidation_unknown urlParses fieldExists name hasErr fieldName v es :
  validators name = None ->
  field_run urlParses (setupRealtimeValidation fieldExists name) hasErr fieldName v es = v.
Proof.
  intros Hn. unfold setupRealtimeValidation. replace (if fieldExists then validators name else None) with (@None validator_type) by (by destruct fieldExists).
  revert v. induction es as [|e es IH]; intros v; [done|]. apply IH.
Qed.

(** What the listeners keep true of the field: the [error] class and
    [aria-invalid] are set together, exactly when an error is shown, and
    an error shown is the message with which the validator rejected a
    value. *)
Definition field_inv (urlParses : string -> bool) (t : validator_type) (fieldName : option string)
    (v : FieldErrors) : Prop :=
  fv_error_class v = fv_aria_invalid v /\
  fv_error_class v = bool_decide (is_Some (fv_error v)) /\
  forall m, fv_error v = Some m -> exists x, run_validator urlParses t x fieldName = mkResult false m.

Lemma field_inv_cleared urlParses t fieldName : field_inv urlParses t fieldName clearedField.
Proof. split_and!; [done|done|by intros m]. Qed.

Lemma field_step_inv urlParses t hasErr fieldName v e :
  field_inv urlParses t fieldName v ->
  field_inv urlParses t fieldName (field_step urlParses (Some t) hasErr fieldName v e).
Proof.
  intros Hv. destruct e as [x|]; simpl; unfold on_blur, on_focus; destruct hasErr;
    try done; try apply field_inv_cleared.
  destruct (run_validator urlParses t x fieldName) as [ok m] eqn:Hr; simpl.
  destruct ok; [apply field_inv_cleared|]. split_and!; [done|done|]. intros m' [= <-]. eauto.
Qed.

(** ** Properties *)

(** C19: whatever the field's blur and focus events, from a field
    without error, real-time validation keeps the field consistent: the
    [error] class and [aria-invalid] are set together and exactly when an
    error is shown, and the error shown is always the message the
    attached validator gave for a value it rejected. *)
Theorem realtime_validation_consistent urlParses fieldExists name t hasErr fieldName es :
  setupRealtimeValidation fieldExists name = Some t ->
  field_inv urlParses t fieldName
    (field_run urlParses (setupRealtimeValidation fieldExists name) hasErr fieldName clearedField es).
Proof.
  intros Hs. rewrite Hs. unfold field_run.
  generalize clearedField (field_inv_cleared urlParses t fieldName).
  induction es as [|e es IH]; intros v Hv; [done|]. simpl. by apply IH, field_step_inv.
Qed.

Lemma realtime_validation_consistent_witness :
  setupRealtimeValidation true "hiveUsername" = Some VHiveUsername /\
  field_inv (fun _ => true) VHiveUsername None
    (field_run (fun _ => true) (setupRealtimeValidation true "hiveUsername") true None clearedField
       [Blur "ab"; Focus; Blur "alice"]).
Proof.
  split; [reflexivity|]. apply (realtime_validation_consistent _ true "hiveUsername"). reflexivity.
Defined.
