(* ===== verification/Admin.v ===== *)
(** * The administrative CLI ([src/backend/admin.js])

    [node admin.js <command> [args]] runs [main] (lines 47-211) once over
    the quota ledger: [args] is [process.argv.slice(2)], [command] its
    first element.  Each command calls one [UserManager] method
    ([getAllUsers], [getUser], [addUser], [giveTokens], [setTokens],
    [setUserStatus]) and prints its result; [admin_main] returns what is
    printed, as a [cli_output], and the ledger file after the call.  The
    token counts are read with [parseInt], modelled by [parseInt] below
    (leading white space, sign, the [0x] prefix, digits up to the first
    non-digit; [None] is [NaN]).  Numbers are exact integers here: an
    argument of more than fifteen digits, which JavaScript would round, is
    outside the model.  [admin_script] is the whole script: the
    constructor of [UserManager] (line 4), then [main].  The section on
    [parseInt] of [String(n)] proves that the two are inverse on the
    integers, which the ACT checker relies on. *)

From S2P Require Import Prelude Json UserManager Validation.
From Stdlib Require Import DecimalString DecimalPos DecimalZ.

(** ** [parseInt] *)

(** The value of a digit in [radix] (10 or 16). *)
Definition digit_value (radix : Z) (c : ascii) : option Z :=
  let n := Z.of_nat (nat_of_ascii c) in
  let v := if (48 <=? n)%Z && (n <=? 57)%Z then Some (n - 48)%Z
           else if (97 <=? n)%Z && (n <=? 122)%Z then Some (n - 87)%Z
           else if (65 <=? n)%Z && (n <=? 90)%Z then Some (n - 55)%Z
           else None in
  match v with Some d => if (d <? radix)%Z then Some d else None | None => None end.

(** The digits up to the first character that is not one; [None] when there
    is no digit at all. *)
Fixpoint parse_digits (radix acc : Z) (seen : bool) (s : string) : option Z :=
  match s with
  | EmptyString => if seen then Some acc else None
  | String c t =>
      match digit_value radix c with
      | Some d => parse_digits radix (acc * radix + d) true t
      | None => if seen then Some acc else None
      end
  end.

Definition parseInt (s : string) : option Z :=
  let s := trimStart s in
  let '(sign, s) :=
    match s with
    | String c t => if Ascii.eqb c "-" then ((-1)%Z, t)
                    else if Ascii.eqb c "+" then (1%Z, t) else (1%Z, s)
    | EmptyString => (1%Z, s)
    end in
  let '(radix, s) :=
    match s with
    | String z (String x t) =>
        if Ascii.eqb z "0" && (Ascii.eqb x "x" || Ascii.eqb x "X") then (16%Z, t) else (10%Z, s)
    | _ => (10%Z, s)
    end in
  match parse_digits radix 0 false s with
  | Some n => Some (sign * n)%Z
  | None => None
  end.

(** The value of a decimal numeral read left to right from [acc], the
    way [parse_digits] reads it: the reading of [String(n)] back. *)
Fixpoint horner (d : Decimal.uint) (acc : Z) : Z :=
  match d with
  | Decimal.Nil => acc
  | Decimal.D0 l => horner l (acc * 10 + 0)
  | Decimal.D1 l => horner l (acc * 10 + 1)
  | Decimal.D2 l => horner l (acc * 10 + 2)
  | Decimal.D3 l => horner l (acc * 10 + 3)
  | Decimal.D4 l => horner l (acc * 10 + 4)
  | Decimal.D5 l => horner l (acc * 10 + 5)
  | Decimal.D6 l => horner l (acc * 10 + 6)
  | Decimal.D7 l => horner l (acc * 10 + 7)
  | Decimal.D8 l => horner l (acc * 10 + 8)
  | Decimal.D9 l => horner l (acc * 10 + 9)
  end.

(** [parseInt(args[i])], [undefined] when the argument is missing. *)
Definition parseArg (a : option string) : option Z :=
  match a with Some s => parseInt s | None => None end.

(** ** [main] *)

(** The aggregate figures the [stats] command prints. *)
Record Stats : Type := mkStats {
  st_total_users : Z;
  st_active : nat;
  st_inactive : nat;
  st_with_tokens : nat;
  st_allocated : Z;
  st_used : Z;
  st_remaining : Z
}.

Definition count_users (p : User -> bool) (d : Db) : nat :=
  length (List.filter (fun kv => p kv.2) (map_to_list (authorized_users d))).

(** Lines 184-203. *)
Definition stats (d : Db) : Stats :=
  mkStats (total_users (metadata d))
    (count_users is_active d) (count_users (fun u => negb (is_active u)) d)
    (count_users (fun u => (0 <? tokens_remaining u)%Z) d)
    (total_tokens_allocated (metadata d)) (total_tokens_used (metadata d))
    (total_tokens_allocated (metadata d) - total_tokens_used (metadata d)).

Inductive cli_output : Type :=
| Usage
| MissingArgs
| UnknownCommand (command : string)
| Outcome (success : bool)
| ShowUsers (data : option Db)
| ShowUser (username : string) (user : option User)
| ShowStats (s : option Stats).

Definition falsy_str (o : option string) : bool :=
  match o with Some v => String.eqb v "" | None => true end.

(** [parseInt(x) || 5]: [NaN] and [0] are falsy. *)
Definition or_five (n : option Z) : Z :=
  match n with Some k => if Z.eqb k 0 then 5 else k | None => 5 end.

Definition cmd_is (c : string) (names : list string) : bool :=
  existsb (String.eqb c) names.

Definition outcome (r : bool * store Db) : cli_output * store Db := (Outcome r.1, r.2).

Definition admin_main (now : Z) (args : list string) (fs : store Db) : cli_output * store Db :=
  let a1 := nth_error args 1 in
  let a2 := nth_error args 2 in
  let name := default "" a1 in
  match nth_error args 0 with
  | None => (Usage, fs)
  | Some command =>
      if String.eqb command "" then (Usage, fs)
      else if cmd_is command ["list-users"; "list"] then (ShowUsers (getAllUsers fs), fs)
      else if cmd_is command ["user"] then
        if falsy_str a1 then (MissingArgs, fs) else (ShowUser name (getUser fs name), fs)
      else if cmd_is command ["add-user"; "add"] then
        let tokens := or_five (parseArg a2) in
        if falsy_str a1 then (MissingArgs, fs) else outcome (addUser now name tokens None "" fs)
      else if cmd_is command ["give-tokens"; "give"] then
        match parseArg a2 with
        | Some g => if falsy_str a1 || Z.eqb g 0 then (MissingArgs, fs)
                    else outcome (giveTokens now name g fs)
        | None => (MissingArgs, fs)
        end
      else if cmd_is command ["set-tokens"; "set"] then
        match parseArg a2 with
        | Some t => if falsy_str a1 then (MissingArgs, fs) else outcome (setTokens now name t fs)
        | None => (MissingArgs, fs)
        end
      else if cmd_is command ["activate"] then
        if falsy_str a1 then (MissingArgs, fs) else outcome (setUserStatus now name true fs)
      else if cmd_is command ["deactivate"] then
        if falsy_str a1 then (MissingArgs, fs) else outcome (setUserStatus now name false fs)
      else if cmd_is command ["stats"] then (ShowStats (option_map stats (loadData fs)), fs)
      else (UnknownCommand command, fs)
  end.

(** The script: [const userManager = new UserManager()] (line 4), then
    [main()] with [process.argv.slice(2)]. *)
Definition admin_script (now : Z) (args : list string) (fs : store Db) : cli_output * store Db :=
  admin_main now args (newUserManager now fs).

(** ** [parseInt] reads back what [String] prints *)

Lemma parse_digits_uint d acc :
  parse_digits 10 acc true (NilEmpty.string_of_uint d) = Some (horner d acc).
Proof. revert acc. induction d; intros acc; simpl; try apply IHd; done. Qed.

Lemma horner_acc d p : Zpos (Pos.of_uint_acc d p) = horner d (Zpos p).
Proof. revert p. induction d; intros p; simpl; rewrite ?IHd; f_equal; lia. Qed.

Lemma horner_of_uint d : Z.of_uint d = horner d 0.
Proof. unfold Z.of_uint. induction d; simpl; rewrite ?horner_acc; done. Qed.

Lemma horner_to_uint p : horner (Pos.to_uint p) 0 = Zpos p.
Proof. by rewrite <- horner_of_uint; unfold Z.of_uint; rewrite Unsigned.of_to. Qed.

Lemma to_uint_not_nil p : Pos.to_uint p <> Decimal.Nil.
Proof. intros Hn. pose proof (Unsigned.of_to p) as Hp. rewrite Hn in Hp. discriminate. Qed.

Lemma NilZero_sou d : d <> Decimal.Nil -> NilZero.string_of_uint d = NilEmpty.string_of_uint d.
Proof. by destruct d. Qed.

Lemma parse_digits_sou d :
  d <> Decimal.Nil -> parse_digits 10 0 false (NilEmpty.string_of_uint d) = Some (horner d 0).
Proof. destruct d; intros Hd; [done|..]; apply (parse_digits_uint d). Qed.

(** A numeral starts with two digits or is one digit: no white space, no
    sign and no [0x] prefix for [parseInt] to strip, with or without a
    leading minus sign. *)
Lemma parseInt_sou d :
  d <> Decimal.Nil ->
  parseInt (NilEmpty.string_of_uint d) =
    option_map (Z.mul 1) (parse_digits 10 0 false (NilEmpty.string_of_uint d)) /\
  parseInt (String "-" (NilEmpty.string_of_uint d)) =
    option_map (Z.mul (-1)) (parse_digits 10 0 false (NilEmpty.string_of_uint d)).
Proof.
  destruct d as [|d|d|d|d|d|d|d|d|d|d]; intros Hd; [done|..]; destruct d; split; reflexivity.
Qed.

(** ** Properties *)

(** Every invocation of the CLI, whatever its arguments, keeps the
    ledger's accounting invariant: the CLI writes only through the
    [UserManager] operations, each of which preserves it. *)
Theorem admin_main_preserves_wf now args fs :
  um_wf fs -> um_wf (snd (admin_main now args fs)).
Proof.
  intros Hfs. unfold admin_main, outcome.
  repeat case_match; simpl;
    auto using addUser_wf, giveTokens_wf, setTokens_wf, setUserStatus_wf.
Qed.

(** The same for the whole script, the constructor's creation of a
    missing file included. *)
Corollary admin_script_preserves_wf now args fs :
  um_wf fs -> um_wf (snd (admin_script now args fs)).
Proof. intros Hfs. apply admin_main_preserves_wf, newUserManager_wf, Hfs. Qed.

Lemma admin_main_preserves_wf_witness :
  um_wf (snd (admin_main 9 ["give-tokens"; "alice"; "3"] ledger1)).
Proof.
  apply admin_main_preserves_wf. intros d [= <-].
  apply (bool_decide_unpack _). vm_compute. reflexivity.
Defined.

(** [add-user name n] where [parseInt(n)] is [NaN] or [0] (a typo, or
    an explicit zero) creates the user with 5 tokens: [parseInt(...) || 5]
    treats [0] like a missing count. *)
Theorem add_user_zero_gives_five now fs d u a :
  loadData fs = Some d -> authorized_users d !! u = None -> st_writable fs = true ->
  u <> ""%string -> parseInt a = None \/ parseInt a = Some 0%Z ->
  exists d', admin_main now ["add-user"; u; a] fs = (Outcome true, mkStore (FPresent d') WriteOk) /\
    authorized_users d' !! u = Some (mkUser 5 0 5 None now None true "").
Proof.
  intros Hd Hu Hw Hne Ha. unfold admin_main. cbn -[addUser parseInt].
  replace (or_five (parseInt a)) with 5%Z by (destruct Ha as [-> | ->]; done).
  apply String.eqb_neq in Hne. rewrite Hne. unfold outcome, addUser. rewrite Hd, Hu.
  unfold saveData. rewrite write_store_ok by done.
  eexists; split; [reflexivity|]. apply lookup_insert_eq.
Qed.

Lemma add_user_zero_gives_five_witness :
  exists d', admin_main 9 ["add-user"; "carol"; "0"] ledger1 = (Outcome true, mkStore (FPresent d') WriteOk) /\
    authorized_users d' !! "carol" = Some (mkUser 5 0 5 None 9 None true "").
Proof.
  apply (add_user_zero_gives_five 9 ledger1 (mkDb {[ "alice" := alice ]} (mkMeta 0 0 1 1 0)));
    try reflexivity; [discriminate|right; reflexivity].
Defined.

(** On a well-formed ledger the [stats] command's "Tokens Remaining"
    (allocated minus used, from the metadata) is the sum of the users'
    remaining counts, and the active and inactive users add up to the
    user total. *)
Theorem stats_consistent d :
  db_wf d ->
  st_remaining (stats d) = map_sumZ tokens_remaining (authorized_users d) /\
  Z.of_nat (st_active (stats d) + st_inactive (stats d)) = st_total_users (stats d).
Proof.
  intros (Hall & Hn & Ha & Hu). unfold stats, count_users; cbn [st_remaining st_active st_inactive st_total_users].
  rewrite Ha, Hu, map_sumZ_sub. split.
  - apply map_sumZ_ext_in. eapply map_Forall_impl; [exact Hall|]. intros k u Hwf.
    unfold user_wf in Hwf. lia.
  - rewrite (length_filter_negb (fun kv : string * User => is_active kv.2)), length_map_to_list. lia.
Qed.

Lemma stats_consistent_witness :
  st_remaining (stats (mkDb {[ "alice" := alice ]} (mkMeta 0 0 1 1 0))) =
    map_sumZ tokens_remaining (authorized_users (mkDb {[ "alice" := alice ]} (mkMeta 0 0 1 1 0))) /\
  Z.of_nat (st_active (stats (mkDb {[ "alice" := alice ]} (mkMeta 0 0 1 1 0))) +
            st_inactive (stats (mkDb {[ "alice" := alice ]} (mkMeta 0 0 1 1 0)))) =
    st_total_users (stats (mkDb {[ "alice" := alice ]} (mkMeta 0 0 1 1 0))).
Proof.
  apply stats_consistent. apply (bool_decide_unpack _). vm_compute. reflexivity.
Defined.

(** [parseInt] reads back the numeral of a positive number, with or
    without its minus sign. *)
Lemma parseInt_String_pos p :
  parseInt (js_to_string (JNum (Zpos p))) = Some (Zpos p) /\
  parseInt (js_to_string (JNum (Zneg p))) = Some (Zneg p).
Proof.
  simpl. rewrite NilZero_sou by apply to_uint_not_nil.
  destruct (parseInt_sou _ (to_uint_not_nil p)) as [-> ->].
  rewrite parse_digits_sou, horner_to_uint by apply to_uint_not_nil. simpl. split; f_equal; lia.
Qed.

