(* ===== verification/Api.v ===== *)
(** * The browser's API client ([src/scripts/api.js])

    - [checkAccountAvailability] (lines 140-169) asks a public Hive node
      ([condenser_api.get_accounts]) whether a name is taken and returns the
      object [{available, exists}];
    - [pollRequestStatus] (lines 216-257) polls the status of a request
      until it completes, fails, or runs out of attempts.

    In the first part, [makeRequest] is abstracted to the function [call]
    from a request body to the parsed reply or to the message of the error
    it throws, and [checkRequestStatus] to the function [answer] from the
    attempt number to its reply.  The timers between attempts are not
    modelled: they delay the next attempt and change nothing else.
    [pollRequestStatus] recurses with no bound of its own; [poll] carries
    fuel, and [pollRequestStatus_total] proves that the fuel
    [max 1 maxAttempts] it is given is never exhausted.

    The second part models the class as written: [makeRequest] over the
    outcome of [fetch] ([fetch_outcome]: a response with its [ok] flag,
    status and parsed body, or a rejection with its error name, the
    timeout's [AbortError] included), the [Client] state ([isRequesting],
    [currentRequestId]) and every method over it;
    [submitAccountRequest] is split at its [await] ([submit_begin],
    [submit_end]) so that calls can interleave ([api_step]); and the
    [MockApiClient] that [window.apiClient] is on [localhost]. *)

From S2P Require Import Prelude Json.
From Stdlib Require Import DecimalString.

(** ** [checkAccountAvailability] *)

(** The request body the client posts to [https://api.hive.blog]. *)
Definition rpc_get_accounts (username : string) : json :=
  JObj [("jsonrpc", JStr "2.0"); ("method", JStr "condenser_api.get_accounts");
        ("params", JArr [JArr [JStr username]]); ("id", JNum 1)].

(** [v.length > 0] for a truthy [v]: arrays and strings have a length, an
    object may have a numeric [length] member; anything else compares
    [undefined > 0], which is false. *)
Definition js_length_pos (v : jsv) : bool :=
  match v with
  | Val (JArr l) => (0 <? length l)%nat
  | Val (JStr s) => (0 <? String.length s)%nat
  | Val (JObj fs) => match assoc_last "length" fs with Some (JNum n) => (0 <? n)%Z | _ => false end
  | _ => false
  end.

(** The returned object; a member that is [undefined] is left out. *)
Definition availability_object (available : bool) (exists_ : jsv) : json :=
  JObj (("available", JBool available) ::
        match exists_ with Val j => [("exists", j)] | Undef => [] end).

Definition checkAccountAvailability (call : json -> result json) (username : string)
    : result json :=
  match call (rpc_get_accounts username) with
  | Err _ => Err "Unable to check account availability"
  | Ok response =>
      match member (Val response) "result" with
      | Err _ => Err "Unable to check account availability"
      | Ok r =>
          (* [response.result && response.result.length > 0] *)
          let accountExists := if truthy r then Val (JBool (js_length_pos r)) else r in
          Ok (availability_object (negb (truthy accountExists)) accountExists)
      end
  end.

(** ** [pollRequestStatus] *)

(** How the [try] block of one [poll] ends: [return] of a value, a
    [throw], or the recursive [return poll()], whose promise the block
    returns without awaiting it. *)
Inductive try_result : Type :=
| TReturn (v : jsv)
| TThrow (msg : string)
| TPoll.

Definition TIMED_OUT : string := "Request timed out. Please check your request status later.".
Definition UNABLE : string := "Unable to check request status. Please try again later.".

(** The [try] block after [attempts++], [checkRequestStatus] having
    answered [ans]; [status.status] throws on a [null] status. *)
Definition poll_try (ans : result json) (attempts maxAttempts : Z) : try_result :=
  match ans with
  | Err e => TThrow e
  | Ok status =>
      match member (Val status) "status" with
      | Err e => TThrow e
      | Ok st =>
          if strict_eq_str st "completed" then TReturn (Val status)
          else if strict_eq_str st "failed" then
            TThrow (match member (Val status) "message" with
                    | Ok m => if truthy m then match m with Val j => js_to_string j | Undef => "" end
                              else "Account creation failed"
                    | Err _ => "Account creation failed"
                    end)
          else if (maxAttempts <=? attempts)%Z then TThrow TIMED_OUT
          else if strict_eq_str st "pending" || strict_eq_str st "processing" then TPoll
          else TReturn Undef
      end
  end.

Inductive poll_outcome : Type :=
| PollResolved (v : jsv)
| PollRejected (msg : string)
| PollOutOfFuel.

(** [poll()]: the outcome, the statuses passed to [onUpdate], and the
    final value of [attempts]. *)
Fixpoint poll (answer : Z -> result json) (maxAttempts : Z) (fuel : nat) (attempts : Z)
    : poll_outcome * list json * Z :=
  match fuel with
  | O => (PollOutOfFuel, [], attempts)
  | S f =>
      let attempts := (attempts + 1)%Z in
      let ans := answer attempts in
      let upd := match ans with Ok s => [s] | Err _ => [] end in
      let again := let '(o, us, n) := poll answer maxAttempts f attempts in (o, upd ++ us, n) in
      match poll_try ans attempts maxAttempts with
      | TReturn v => (PollResolved v, upd, attempts)
      | TPoll => again
      | TThrow _ =>
          if (maxAttempts <=? attempts)%Z then (PollRejected UNABLE, upd, attempts) else again
      end
  end.

Definition pollRequestStatus (answer : Z -> result json) (maxAttempts : Z)
    : poll_outcome * list json * Z :=
  poll answer maxAttempts (Z.to_nat (Z.max 1 maxAttempts)) 0.

(** ** [makeRequest] *)

(** What the client hands to [fetch]: the URL, the method and the body
    (the value [JSON.stringify] is applied to). *)
Record FetchRequest : Type := mkFetchRequest {
  req_url : string;
  req_method : string;
  req_body : option json
}.

(** How [fetch] and [response.json()] end: a response with its [ok] flag,
    its status and what [response.json()] gives (the parsed value, or the
    message of its [SyntaxError]); or a rejection of [fetch] with the
    error's [name] and [message]: [AbortError] when the 30-second timer of
    [makeRequest] fired first, [TypeError] on a network failure. *)
Inductive fetch_outcome : Type :=
| FResponse (ok : bool) (status : Z) (body : result json)
| FThrow (name message : string).

Definition REQUEST_TIMED_OUT : string :=
  "Request timed out. Please check your connection and try again.".

(** [makeRequest(url, options)] of [ApiClient] (lines 54-85), over the
    outcome of [fetch]; [Err] carries the rejection's [message]. *)
Definition makeRequest (fetch : FetchRequest -> fetch_outcome) (rq : FetchRequest) : result json :=
  match fetch rq with
  | FThrow name msg => if String.eqb name "AbortError" then Err REQUEST_TIMED_OUT else Err msg
  | FResponse true _ body => body
  | FResponse false st body =>
      let errorData := match body with Ok j => j | Err _ => JObj [] end in
      match member (Val errorData) "message" with
      | Ok m => Err (if truthy m then jsv_to_string m
                     else "HTTP error! status: " ++ NilZero.string_of_int (Z.to_int st))%string
      | Err e => Err e
      end
  end.

(** ** The client object *)

(** [this.config.baseUrl], [this.isRequesting], [this.currentRequestId]. *)
Record Client : Type := mkClient {
  baseUrl : string;
  isRequesting : bool;
  currentRequestId : jsv
}.

(** [getApiBaseUrl()], from [window.location.hostname]. *)
Definition getApiBaseUrl (hostname : string) : string :=
  if String.eqb hostname "localhost" || String.eqb hostname "127.0.0.1" then "http://localhost:3000"
  else "https://your-backend-domain.com".

(** The constructor (lines 6-31). *)
Definition newApiClient (hostname : string) : Client :=
  mkClient (getApiBaseUrl hostname) false (Val JNull).

Definition CREATE_ACCOUNT : string := "/api/create-account".
Definition CHECK_STATUS : string := "/api/status".
Definition HEALTH_CHECK : string := "/api/health".
Definition RPC_ENDPOINT : string := "https://api.hive.blog".

Definition set_requesting (b : bool) (c : Client) : Client :=
  mkClient (baseUrl c) b (currentRequestId c).
Definition set_current (r : jsv) (c : Client) : Client :=
  mkClient (baseUrl c) (isRequesting c) r.

(** An object literal: a member whose value is [undefined] is left out by
    [JSON.stringify]. *)
Definition js_object (fs : list (string * jsv)) : json :=
  JObj (omap (fun kv => match kv.2 with Val j => Some (kv.1, j) | Undef => None end) fs).

(** The [formData] argument of [submitAccountRequest]. *)
Record ApiFormData : Type := mkApiFormData {
  af_requestingUsername : jsv;
  af_requestedUsername : jsv;
  af_deliveryMethod : jsv;
  af_notes : jsv
}.

(** The [requestBody] of [submitAccountRequest]: [notes || '']. *)
Definition requestBody (fd : ApiFormData) : json :=
  js_object [("requestingUsername", af_requestingUsername fd);
             ("requestedUsername", af_requestedUsername fd);
             ("deliveryMethod", af_deliveryMethod fd);
             ("notes", if truthy (af_notes fd) then af_notes fd else Val (JStr ""))].

(** [submitAccountRequest(formData)] (lines 92-120) up to its [await]: a
    call while another is in progress is refused; otherwise the flag is
    set and the request goes out. *)
Definition submit_begin (fd : ApiFormData) (c : Client) : result FetchRequest * Client :=
  if isRequesting c then (Err "A request is already in progress. Please wait.", c)
  else (Ok (mkFetchRequest (baseUrl c ++ CREATE_ACCOUNT) "POST" (Some (requestBody fd))),
        set_requesting true c).

(** After the [await]: [response.requestId] is recorded, and the [finally]
    clears the flag on every path. *)
Definition submit_end (r : result json) (c : Client) : result json * Client :=
  match r with
  | Ok response =>
      match member (Val response) "requestId" with
      | Ok rid => (Ok response, set_requesting false (set_current rid c))
      | Err e => (Err e, set_requesting false c)
      end
  | Err e => (Err e, set_requesting false c)
  end.

(** The whole call when nothing runs in between; [mk] is the
    [this.makeRequest] of the object (the real one or the mock's). *)
Definition submitAccountRequest (mk : FetchRequest -> result json) (fd : ApiFormData) (c : Client)
    : result json * Client :=
  match submit_begin fd c with
  | (Ok rq, c1) => submit_end (mk rq) c1
  | (Err e, c1) => (Err e, c1)
  end.

(** [checkRequestStatus(requestId)] *)
Definition checkRequestStatus (mk : FetchRequest -> result json) (c : Client) (requestId : string)
    : result json :=
  mk (mkFetchRequest (baseUrl c ++ CHECK_STATUS ++ "/" ++ requestId) "GET" None).

(** [checkAccountAvailability]'s call: the node request through
    [this.makeRequest]. *)
Definition rpc_call (mk : FetchRequest -> result json) (body : json) : result json :=
  mk (mkFetchRequest RPC_ENDPOINT "POST" (Some body)).

(** [checkUserAuthorization(username)] *)
Definition checkUserAuthorization (mk : FetchRequest -> result json) (c : Client) (username : string)
    : result json :=
  match mk (mkFetchRequest (baseUrl c ++ "/api/check-authorization/" ++ username) "GET" None) with
  | Ok r => Ok r
  | Err _ => Err "Unable to verify authorization"
  end.

(** The members that [{...v}] copies: an object's own, an array's or a
    string's indexed elements, nothing for the other values. *)
Fixpoint indexed {A} (f : A -> json) (i : nat) (l : list A) : list (string * json) :=
  match l with
  | [] => []
  | x :: t => (NilZero.string_of_uint (Nat.to_uint i), f x) :: indexed f (S i) t
  end.

Definition spread (j : json) : list (string * json) :=
  match j with
  | JObj fs => fs
  | JArr l => indexed id 0 l
  | JStr s => indexed (fun c => JStr (String c EmptyString)) 0 (list_ascii_of_string s)
  | _ => []
  end.

Definition HEALTH_SUGGESTION : string :=
  "The backend service may be temporarily unavailable. Please try again later.".

(** [checkHealth()]: never rejects. *)
Definition checkHealth (mk : FetchRequest -> result json) (c : Client) : json :=
  match mk (mkFetchRequest (baseUrl c ++ HEALTH_CHECK) "GET" None) with
  | Ok response => JObj (("healthy", JBool true) :: spread response)
  | Err msg => JObj [("healthy", JBool false); ("error", JStr msg); ("suggestion", JStr HEALTH_SUGGESTION)]
  end.

(** [pollRequestStatus] of the client: attempt [k] asks
    [checkRequestStatus] through [mks k]. *)
Definition pollRequestStatusClient (mks : Z -> FetchRequest -> result json) (c : Client)
    (requestId : string) (maxAttempts : Z) : poll_outcome * list json * Z :=
  pollRequestStatus (fun k => checkRequestStatus (mks k) c requestId) maxAttempts.

(** [formatErrorMessage(error)] (lines 263-297) on [error.message]. *)
Definition formatErrorMessage (msg : string) : string :=
  let message := if String.eqb msg "" then "An unexpected error occurred" else msg in
  if str_includes message "Failed to fetch" || str_includes message "NetworkError" then
    "Unable to connect to the service. Please check your internet connection and try again."
  else if str_includes message "timeout" || str_includes message "timed out" then
    "The request is taking longer than expected. Please try again in a few minutes."
  else if str_includes message "400" then
    "There was an error with your request. Please check your information and try again."
  else if str_includes message "401" || str_includes message "403" then
    "Authentication failed. Please refresh the page and try again."
  else if str_includes message "429" then
    "Too many requests. Please wait a few minutes before trying again."
  else if str_includes message "500" || str_includes message "502" || str_includes message "503" then
    "The service is temporarily unavailable. Please try again in a few minutes."
  else if (String.length message <? 200)%nat && negb (str_includes message "TypeError")
          && negb (str_includes message "undefined") then message
  else "An error occurred while processing your request. Please try again.".

(** [getCurrentRequestInfo()] and [resetRequestState()] *)
Definition getCurrentRequestInfo (c : Client) : bool * jsv := (isRequesting c, currentRequestId c).
Definition resetRequestState (c : Client) : Client := mkClient (baseUrl c) false (Val JNull).

(** ** [MockApiClient] *)

(** The message of [JSON.parse(undefined)]. *)
Definition PARSE_UNDEFINED : string :=
  String (ascii_of_nat 34) ("undefined" ++ String (ascii_of_nat 34) " is not valid JSON")%string.

(** [mockCreateAccount(requestBody)], with [Date.now()] as [now]. *)
Definition mockCreateAccount (body : option json) (now : Z) : result json :=
  match body with
  | None => Err PARSE_UNDEFINED
  | Some data =>
      ru <- member (Val data) "requestedUsername" ;;
      if strict_eq_str ru "taken" then Err "Username is already taken" else
      rg <- member (Val data) "requestingUsername" ;;
      if strict_eq_str rg "unauthorized" then
        Err "You are not authorized to use this faucet service"
      else if strict_eq_str rg "notokens" then
        Err "You have no remaining account creation tokens. Please contact the administrator."
      else
        Ok (JObj [("success", JBool true);
                  ("requestId", JStr ("req_" ++ NilZero.string_of_int (Z.to_int now))%string);
                  ("message", JStr "Account creation request submitted successfully");
                  ("estimatedTime", JStr "5-10 minutes");
                  ("tokensRemaining", JNum 9)])
  end.

(** [url.split('/').pop()]: the text after the last ['/']. *)
Fixpoint last_segment (s : string) : string :=
  match s with
  | EmptyString => EmptyString
  | String c t =>
      if str_mem "/" t then last_segment t
      else if Ascii.eqb c "/" then t else String c t
  end.

(** [mockStatusCheck(url)]: [pick] is [Math.floor(Math.random() * 3)],
    [created] and [completed] the two time stamps. *)
Definition mockStatusCheck (url : string) (pick : nat) (created completed : string) : json :=
  let st := match pick with 0 => "pending" | 1 => "processing" | _ => "completed" end in
  let done_ := String.eqb st "completed" in
  JObj [("requestId", JStr (last_segment url));
        ("status", JStr st);
        ("createdAt", JStr created);
        ("completedAt", if done_ then JStr completed else JNull);
        ("accountName", if done_ then JStr "newuser123" else JNull);
        ("message", JStr (if done_ then "Account created successfully" else "Processing request..."))].

Definition mockHealthCheck (timestamp : string) : json :=
  JObj [("status", JStr "healthy"); ("timestamp", JStr timestamp); ("version", JStr "1.0.0")].

(** The mock's [makeRequest(url, options)] (lines 326-340); its delay only
    postpones the answer. *)
Definition mock_makeRequest (now : Z) (pick : nat) (ts1 ts2 : string) (rq : FetchRequest) : result json :=
  let url := req_url rq in
  if str_includes url "/create-account" then mockCreateAccount (req_body rq) now
  else if str_includes url "/status/" then Ok (mockStatusCheck url pick ts1 ts2)
  else if str_includes url "/health" then Ok (mockHealthCheck ts1)
  else Err "Endpoint not found".

(** [window.apiClient] (lines 397-399): the mock on [localhost] unless
    [window.FORCE_REAL_API] is set. *)
Definition useMock (hostname : string) (forceRealApi : bool) : bool :=
  String.eqb hostname "localhost" && negb forceRealApi.

(** ** Lemmas *)

Lemma poll_try_poll ans a m : poll_try ans a m = TPoll -> (a < m)%Z.
Proof.
  unfold poll_try. repeat case_match; try done. intros _. lia.
Qed.

Lemma poll_try_return_or_throw ans a m :
  (m <= a)%Z -> poll_try ans a m <> TPoll.
Proof. intros Hm Hp. apply poll_try_poll in Hp. lia. Qed.

Section Poll.
Context (answer : Z -> result json) (maxAttempts : Z).

(** Enough fuel: [poll] from [attempts = a] finishes without running out
    when it has at least [max 1 (maxAttempts - a)] fuel, and it makes
    between one and [max 1 (maxAttempts - a)] requests. *)
Lemma poll_enough f a :
  (Z.max 1 (maxAttempts - a) <= Z.of_nat f)%Z ->
  match poll answer maxAttempts f a with
  | (o, _, n) => o <> PollOutOfFuel /\ (a < n <= Z.max (a + 1) maxAttempts)%Z
  end.
Proof.
  revert a. induction f as [|f IH]; intros a Hf; [lia|]. cbn [poll].
  assert (Hrec : (a + 1 < maxAttempts)%Z ->
    match (let '(o, us, n) := poll answer maxAttempts f (a + 1) in
           (o, (match answer (a + 1) with Ok s => [s] | Err _ => [] end) ++ us, n)) with
    | (o, _, n) => o <> PollOutOfFuel /\ (a < n <= Z.max (a + 1) maxAttempts)%Z
    end).
  { intros Hlt. specialize (IH (a + 1)%Z ltac:(lia)).
    destruct (poll answer maxAttempts f (a + 1)) as [[o us] n]. destruct IH as [Ho Hn].
    split; [done|lia]. }
  destruct (poll_try (answer (a + 1)) (a + 1) maxAttempts) eqn:Ht.
  - split; [done|lia].
  - destruct (Z.leb_spec maxAttempts (a + 1)); [split; [done|lia]|]. apply Hrec. lia.
  - apply Hrec. by apply poll_try_poll in Ht.
Qed.

(** The only rejection [poll] produces is the catch block's. *)
Lemma poll_rejected f a msg us n :
  poll answer maxAttempts f a = (PollRejected msg, us, n) -> msg = UNABLE.
Proof.
  revert a us n. induction f as [|f IH]; intros a us n; cbn [poll]; [done|].
  destruct (poll answer maxAttempts f (a + 1)) as [[o us'] n'] eqn:Hp.
  destruct (poll_try _ _ _); [done| |].
  - case_match; [by intros [= <-]|]. intros [= -> _ _]. eauto.
  - intros [= -> _ _]. eauto.
Qed.

(** When every status request fails, polling ends with the catch block's
    rejection. *)
Lemma poll_all_err f a :
  (forall k, exists e, answer k = Err e) ->
  (Z.max 1 (maxAttempts - a) <= Z.of_nat f)%Z ->
  fst (fst (poll answer maxAttempts f a)) = PollRejected UNABLE.
Proof.
  intros Herr. revert a. induction f as [|f IH]; intros a Hf; [lia|]. cbn [poll].
  destruct (Herr (a + 1)%Z) as [e ->]. cbn [poll_try].
  destruct (Z.leb_spec maxAttempts (a + 1)); [done|].
  specialize (IH (a + 1)%Z ltac:(lia)).
  destruct (poll answer maxAttempts f (a + 1)) as [[o us] n]. done.
Qed.

End Poll.

(** A reply whose [result] is an array gives an object, whatever the
    array holds. *)
Lemma checkAccountAvailability_ok call username response l :
  call (rpc_get_accounts username) = Ok response ->
  member (Val response) "result" = Ok (Val (JArr l)) ->
  exists obj, checkAccountAvailability call username = Ok (JObj obj).
Proof. intros Hc Hr. unfold checkAccountAvailability. rewrite Hc, Hr. by eexists. Qed.

(** ** Properties *)

(** C30: [pollRequestStatus] always settles within its attempts: the fuel
    it is given never runs out, and it sends between one and
    [max 1 maxAttempts] status requests. *)
Theorem pollRequestStatus_total answer maxAttempts :
  match pollRequestStatus answer maxAttempts with
  | (o, _, n) => o <> PollOutOfFuel /\ (1 <= n <= Z.max 1 maxAttempts)%Z
  end.
Proof.
  unfold pollRequestStatus.
  pose proof (poll_enough answer maxAttempts (Z.to_nat (Z.max 1 maxAttempts)) 0) as H.
  destruct (poll _ _ _ _) as [[o us] n]. destruct H as [Ho Hn]; [lia|]. split; [done|lia].
Qed.

(** Every rejection of [pollRequestStatus] carries the catch block's
    message: the [throw]s of a ['failed'] status and of the timeout are
    inside the [try] and are caught, so neither message ever reaches the
    caller. *)
Theorem pollRequestStatus_rejection answer maxAttempts msg us n :
  pollRequestStatus answer maxAttempts = (PollRejected msg, us, n) -> msg = UNABLE.
Proof. apply poll_rejected. Qed.

Definition failed_then_completed (k : Z) : result json :=
  if (k =? 1)%Z then Ok (JObj [("status", JStr "failed"); ("message", JStr "no ACTs")])
  else Ok (JObj [("status", JStr "completed")]).

Lemma pollRequestStatus_rejection_witness :
  exists msg, pollRequestStatus (fun _ => Err "Failed to fetch") 3 = (PollRejected msg, [], 3%Z) /\
              msg = UNABLE.
Proof.
  exists UNABLE. split; [reflexivity|].
  apply (pollRequestStatus_rejection (fun _ => Err "Failed to fetch") 3 UNABLE [] 3). reflexivity.
Defined.

(** A ['failed'] status before the last attempt does not end the
    polling: it is caught like a network error and the next attempt is
    made. *)
Theorem pollRequestStatus_failed_retried answer maxAttempts m :
  (1 < maxAttempts)%Z ->
  answer 1%Z = Ok (JObj [("status", JStr "failed"); ("message", JStr m)]) ->
  pollRequestStatus answer maxAttempts =
    let '(o, us, n) := poll answer maxAttempts (Z.to_nat maxAttempts - 1) 1 in
    (o, JObj [("status", JStr "failed"); ("message", JStr m)] :: us, n).
Proof.
  intros Hm Ha. unfold pollRequestStatus.
  replace (Z.to_nat (Z.max 1 maxAttempts)) with (S (Z.to_nat maxAttempts - 1)) by lia.
  cbn [poll]. change (0 + 1)%Z with 1%Z. rewrite Ha. cbn -[poll]. destruct (Z.leb_spec maxAttempts 1); [lia|]. done.
Qed.

Lemma pollRequestStatus_failed_retried_witness :
  fst (fst (pollRequestStatus failed_then_completed 60)) =
    PollResolved (Val (JObj [("status", JStr "completed")])).
Proof.
  rewrite (pollRequestStatus_failed_retried failed_then_completed 60 "no ACTs");
    [reflexivity|lia|reflexivity].
Defined.

(** On a reply whose [result] is the array [l] of accounts found,
    [checkAccountAvailability] returns [available: true] exactly when [l]
    is empty, and [exists] says the opposite. *)
Theorem checkAccountAvailability_array call username response l :
  call (rpc_get_accounts username) = Ok response ->
  member (Val response) "result" = Ok (Val (JArr l)) ->
  checkAccountAvailability call username =
    Ok (availability_object (Nat.eqb (length l) 0) (Val (JBool (negb (Nat.eqb (length l) 0))))).
Proof.
  intros Hc Hr. unfold checkAccountAvailability. rewrite Hc, Hr. cbn.
  by destruct l.
Qed.

Lemma checkAccountAvailability_array_witness :
  checkAccountAvailability (fun _ => Ok (JObj [("result", JArr [JObj [("name", JStr "alice")]])])) "alice" =
    Ok (availability_object false (Val (JBool true))).
Proof.
  apply (checkAccountAvailability_array _ "alice" (JObj [("result", JArr [JObj [("name", JStr "alice")]])])
           [JObj [("name", JStr "alice")]]); reflexivity.
Defined.

(** A reply without [result] (a JSON-RPC error object, for instance)
    reports the name as available. *)
Lemma checkAccountAvailability_no_result call username fs :
  call (rpc_get_accounts username) = Ok (JObj fs) -> assoc_last "result" fs = None ->
  checkAccountAvailability call username = Ok (availability_object true Undef).
Proof. intros Hc Hr. unfold checkAccountAvailability. rewrite Hc. simpl. by rewrite Hr. Qed.

(** ** The client's request discipline *)

(** The client and the [submitAccountRequest] calls whose [await] has not
    returned. *)
Record ApiSys : Type := mkApiSys {
  api_client : Client;
  api_inflight : list FetchRequest
}.

(** A page calls [submitAccountRequest]; the answer to the [i]-th request
    in flight arrives, as [makeRequest] ends; or [resetRequestState()] is
    called. *)
Inductive api_event : Type :=
| CallSubmit (fd : ApiFormData)
| Settle (i : nat) (r : result json)
| ResetState.

Definition api_step (s : ApiSys) (e : api_event) : ApiSys :=
  match e with
  | CallSubmit fd =>
      match submit_begin fd (api_client s) with
      | (Ok rq, c) => mkApiSys c (api_inflight s ++ [rq])
      | (Err _, c) => mkApiSys c (api_inflight s)
      end
  | Settle i r =>
      match api_inflight s !! i with
      | Some _ => mkApiSys (snd (submit_end r (api_client s))) (delete i (api_inflight s))
      | None => s
      end
  | ResetState => mkApiSys (resetRequestState (api_client s)) (api_inflight s)
  end.

Definition api_run (s : ApiSys) (es : list api_event) : ApiSys := fold_left api_step es s.

Definition is_reset (e : api_event) : bool := match e with ResetState => true | _ => false end.

(** One submission at most is in flight, exactly while [isRequesting]. *)
Definition api_inv (s : ApiSys) : Prop :=
  length (api_inflight s) = (if isRequesting (api_client s) then 1 else 0).

Lemma submit_end_clears r c : isRequesting (snd (submit_end r c)) = false.
Proof. unfold submit_end. by repeat case_match. Qed.

Lemma api_step_inv s e : is_reset e = false -> api_inv s -> api_inv (api_step s e).
Proof.
  unfold api_inv. destruct e as [fd|i r|]; simpl; try done; intros _ Hi.
  - unfold submit_begin. destruct (isRequesting (api_client s)) eqn:Hr; simpl in *.
    + by rewrite Hr.
    + rewrite length_app. simpl. lia.
  - destruct (api_inflight s !! i) eqn:Hs; [|done]. simpl. rewrite submit_end_clears.
    rewrite length_delete by eauto. destruct (isRequesting _); simpl in *;
      apply lookup_lt_Some in Hs; lia.
Qed.

Lemma api_run_inv s es :
  forallb (fun e => negb (is_reset e)) es = true -> api_inv s -> api_inv (api_run s es).
Proof.
  unfold api_run. revert s. induction es as [|e es IH]; intros s Hes Hs; simpl in *; [done|].
  apply andb_true_iff in Hes as [He Hes]. apply IH; [done|]. apply api_step_inv; [|done].
  by destruct (is_reset e).
Qed.

(** As long as [resetRequestState] is not called, the client never
    has two [submitAccountRequest] calls in flight: a call made while one
    is in progress is refused without sending anything, and the [finally]
    clears [isRequesting] however the request ends. *)
Theorem submit_one_at_a_time hostname es :
  forallb (fun e => negb (is_reset e)) es = true ->
  length (api_inflight (api_run (mkApiSys (newApiClient hostname) []) es)) =
    (if isRequesting (api_client (api_run (mkApiSys (newApiClient hostname) []) es)) then 1 else 0).
Proof. intros Hes. apply api_run_inv; [done|]. reflexivity. Qed.

Definition form_a : ApiFormData :=
  mkApiFormData (Val (JStr "alice")) (Val (JStr "newuser1")) (Val (JStr "email")) Undef.

Lemma submit_one_at_a_time_witness :
  length (api_inflight (api_run (mkApiSys (newApiClient "localhost") [])
                          [CallSubmit form_a; CallSubmit form_a; Settle 0 (Err "Failed to fetch")])) =
    (if isRequesting (api_client (api_run (mkApiSys (newApiClient "localhost") [])
                          [CallSubmit form_a; CallSubmit form_a; Settle 0 (Err "Failed to fetch")]))
     then 1 else 0).
Proof. apply submit_one_at_a_time. reflexivity. Defined.

(** [resetRequestState] while a request is in flight lets a second one
    start. *)
Lemma reset_allows_two :
  length (api_inflight (api_run (mkApiSys (newApiClient "localhost") [])
                          [CallSubmit form_a; ResetState; CallSubmit form_a])) = 2.
Proof. reflexivity. Qed.

(** Whatever error reaches it, [formatErrorMessage] never shows a
    text containing [TypeError] or [undefined], nor one of 200 characters
    or more. *)
Theorem formatErrorMessage_safe msg :
  str_includes (formatErrorMessage msg) "TypeError" = false /\
  str_includes (formatErrorMessage msg) "undefined" = false /\
  (String.length (formatErrorMessage msg) < 200)%nat.
Proof.
  unfold formatErrorMessage.
  set (m := if String.eqb msg "" then "An unexpected error occurred"%string else msg).
  repeat match goal with
  | |- context [if ?b then _ else _] => destruct b eqn:?
  end; try (split_and!; [reflexivity|reflexivity|apply Nat.ltb_lt; reflexivity]).
  repeat match goal with H : _ && _ = true |- _ => apply andb_true_iff in H as [? ?] end.
  apply negb_true_iff in H0, H1. apply Nat.ltb_lt in H. auto.
Qed.

(** On [localhost], where [window.apiClient] is the mock, every
    availability check fails: the mock's [makeRequest] knows no route for
    the node URL [https://api.hive.blog] and throws, so
    [checkAccountAvailability] always rejects. *)
Theorem mock_availability_fails now pick ts1 ts2 username :
  checkAccountAvailability (rpc_call (mock_makeRequest now pick ts1 ts2)) username =
    Err "Unable to check account availability".
Proof. reflexivity. Qed.
