(* ===== verification/App.v ===== *)
(** * The request page ([src/scripts/app.js])

    The page keeps two variables, [currentUser] and [isProcessing], and
    reacts to events: the page load ([checkExistingSession]), the login
    and logout buttons ([handleLogin], [handleLogout]), the request form
    ([handleFormSubmit]), typing in the requested-name field, and the
    callbacks of what it started earlier: the answers of the Keychain
    browser extension to [requestSignBuffer] and [requestCustomJson], the
    500 ms debounce timer of the name field, the node's answers to the
    availability checks ([checkUsernameAvailability] awaits
    [apiClient.checkAccountAvailability]), and the timers [showStatus]
    and the request callback arm (clear a success message after five
    seconds, reset the form after two).  [app_step] is one event,
    [app_run] a sequence of them; a pending callback is picked by its
    index, so every order in which they can run is a run of the model.

    The state [App] holds the two variables, what the page shows (the
    [statusContent] markup, the loading overlay, which section is
    visible, the submit button's [disabled] flag, the classes and texts
    of the requested-name field), the [hive_username] entry of
    [localStorage], the form's values and the defaults [form.reset()]
    restores, and what is pending: the Keychain requests, the debounce
    timer, the availability checks and the other timers.
    [checkUsernameAvailability] is split at its [await]: the part before
    it ([checkUsernameAvailability]) and the continuation
    ([availabilityAnswered]).

    A promise rejected inside an async handler reaches the page's
    [unhandledrejection] listener (lines 339-342), which shows the generic
    error; the model shows it when the handler throws.  The markup of
    [statusContent] is read back as written, which is what the browser's
    serializer returns for a message without [&], [<] or [>]; the leading
    glyph of the availability message is left out. *)

From S2P Require Import Prelude Json Validation Api.
From Stdlib Require Import DecimalString.

(** ** State *)

Inductive status_type : Type := SInfo | SSuccess | SError | SWarning.

(** What [statusContent] holds: the page's own markup before any status
    ([NoStatus]), a message of [showStatus], or the placeholder the
    auto-clear timer writes. *)
Inductive status_view : Type :=
| NoStatus
| StatusMsg (msg : string) (ty : status_type)
| StatusReady.

(** A request handed to the extension, answered later by its callback. *)
Inductive keychain_request : Type :=
| SignBufferReq (username buffer : string)
| CustomJsonReq (account : option string) (id keyType : string) (payload : json) (title : string).

(** A [setTimeout] callback not run yet: the clear of a success message
    (five seconds) and the form reset after a successful request (two
    seconds). *)
Inductive app_timer : Type :=
| ClearStatus (message : string)
| ResetForm.

(** The requested-name field: its [error] and [success] classes and the
    texts of its error and success elements. *)
Record FieldView : Type := mkField {
  fv_error_class : bool;
  fv_success_class : bool;
  fv_error_text : string;
  fv_success_text : string
}.

(** The fields of the form, as [FormData.get] returns them. *)
Record FormInput : Type := mkForm {
  fi_requestedUsername : option string;
  fi_deliveryMethod : option string;
  fi_email : option string;
  fi_notes : option string
}.

(** The page: the two variables, what it shows, [localStorage], the
    requests the extension has not answered, the form with the values
    [form.reset()] restores ([formDefaults], from the page's markup), the
    debounce timer of the name field ([validationTimeout]), the
    availability checks waiting for the node, and the other timers. *)
Record App : Type := mkApp {
  currentUser : option string;
  isProcessing : bool;
  submitDisabled : bool;
  status : status_view;
  loading : option string;
  loggedInView : bool;
  storage : option string;
  pending : list keychain_request;
  usernameField : FieldView;
  form : FormInput;
  formDefaults : FormInput;
  validationTimeout : bool;
  checks : list string;
  timers : list app_timer
}.

Definition initialApp (stored : option string) (defaults : FormInput) : App :=
  mkApp None false false NoStatus None false stored [] (mkField false false "" "")
    defaults defaults false [] [].

(** ** Display helpers *)

(** [showStatus(message, type)]: a success message arms its clear. *)
Definition showStatus (msg : string) (ty : status_type) (s : App) : App :=
  mkApp (currentUser s) (isProcessing s) (submitDisabled s) (StatusMsg msg ty) (loading s)
    (loggedInView s) (storage s) (pending s) (usernameField s) (form s) (formDefaults s)
    (validationTimeout s) (checks s)
    (match ty with SSuccess => timers s ++ [ClearStatus msg] | _ => timers s end).

Definition set_loading (l : option string) (s : App) : App :=
  mkApp (currentUser s) (isProcessing s) (submitDisabled s) (status s) l
    (loggedInView s) (storage s) (pending s) (usernameField s) (form s) (formDefaults s)
    (validationTimeout s) (checks s) (timers s).

Definition set_session (u : option string) (view : bool) (stored : option string) (s : App) : App :=
  mkApp u (isProcessing s) (submitDisabled s) (status s) (loading s) view stored
    (pending s) (usernameField s) (form s) (formDefaults s) (validationTimeout s) (checks s)
    (timers s).

(** [isProcessing = p] together with the submit button's [disabled = p]. *)
Definition set_processing (p : bool) (s : App) : App :=
  mkApp (currentUser s) p p (status s) (loading s) (loggedInView s) (storage s)
    (pending s) (usernameField s) (form s) (formDefaults s) (validationTimeout s) (checks s)
    (timers s).

Definition set_pending (q : list keychain_request) (s : App) : App :=
  mkApp (currentUser s) (isProcessing s) (submitDisabled s) (status s) (loading s)
    (loggedInView s) (storage s) q (usernameField s) (form s) (formDefaults s)
    (validationTimeout s) (checks s) (timers s).

Definition set_field (f : FieldView) (s : App) : App :=
  mkApp (currentUser s) (isProcessing s) (submitDisabled s) (status s) (loading s)
    (loggedInView s) (storage s) (pending s) f (form s) (formDefaults s)
    (validationTimeout s) (checks s) (timers s).

Definition set_app_form (f : FormInput) (s : App) : App :=
  mkApp (currentUser s) (isProcessing s) (submitDisabled s) (status s) (loading s)
    (loggedInView s) (storage s) (pending s) (usernameField s) f (formDefaults s)
    (validationTimeout s) (checks s) (timers s).

Definition set_validationTimeout (b : bool) (s : App) : App :=
  mkApp (currentUser s) (isProcessing s) (submitDisabled s) (status s) (loading s)
    (loggedInView s) (storage s) (pending s) (usernameField s) (form s) (formDefaults s)
    b (checks s) (timers s).

Definition set_checks (q : list string) (s : App) : App :=
  mkApp (currentUser s) (isProcessing s) (submitDisabled s) (status s) (loading s)
    (loggedInView s) (storage s) (pending s) (usernameField s) (form s) (formDefaults s)
    (validationTimeout s) q (timers s).

Definition set_timers (q : list app_timer) (s : App) : App :=
  mkApp (currentUser s) (isProcessing s) (submitDisabled s) (status s) (loading s)
    (loggedInView s) (storage s) (pending s) (usernameField s) (form s) (formDefaults s)
    (validationTimeout s) (checks s) q.

Definition set_status_view (v : status_view) (s : App) : App :=
  mkApp (currentUser s) (isProcessing s) (submitDisabled s) v (loading s)
    (loggedInView s) (storage s) (pending s) (usernameField s) (form s) (formDefaults s)
    (validationTimeout s) (checks s) (timers s).

(** The [unhandledrejection] listener. *)
Definition UNEXPECTED : string := "An unexpected error occurred. Please refresh the page.".

Definition on_unhandled_rejection (s : App) : App := showStatus UNEXPECTED SError s.

(** The double quote character, for the template literals that quote a name. *)
Definition dq : string := String (ascii_of_nat 34) EmptyString.

Definition nl : string := String (ascii_of_nat 10) EmptyString.

(** [statusClass] and [iconMap[type]] of [showStatus]. *)
Definition status_class (ty : status_type) : string :=
  match ty with SInfo => "info" | SSuccess => "success" | SError => "error" | SWarning => "warning" end.

Definition status_icon (ty : status_type) : string :=
  match ty with
  | SInfo => "fas fa-info-circle"
  | SSuccess => "fas fa-check-circle"
  | SError => "fas fa-exclamation-circle"
  | SWarning => "fas fa-exclamation-triangle"
  end.

(** [statusContent.innerHTML]: the template [showStatus] writes, or the
    placeholder.  Read back as written, which is what the serializer
    returns for a message without [&], [<] or [>]. *)
Definition status_html (v : status_view) : string :=
  match v with
  | NoStatus => ""
  | StatusMsg m ty =>
      nl ++ "        <div class=" ++ dq ++ "status-message status-" ++ status_class ty ++ dq ++ ">" ++
      nl ++ "            <i class=" ++ dq ++ status_icon ty ++ dq ++ "></i>" ++
      nl ++ "            " ++ m ++
      nl ++ "        </div>" ++ nl ++ "    "
  | StatusReady => "<p class=" ++ dq ++ "text-muted" ++ dq ++ ">Ready for next action...</p>"
  end%string.

(** ** Handlers *)

Module Handlers.

(** [checkExistingSession()] *)
Definition checkExistingSession (s : App) : App :=
  match storage s with
  | Some u => if String.eqb u "" then s else set_session (Some u) true (storage s) s
  | None => s
  end.

(** [handleLogin()], reading the login input and [window.hive_keychain]. *)
Definition handleLogin (input : string) (keychainInstalled : bool) (now : Z) (s : App) : App :=
  let username := trim input in
  if String.eqb username "" then showStatus "Please enter a username" SError s
  else if negb keychainInstalled then
    showStatus "Hive Keychain not found. Please install the Hive Keychain browser extension." SError s
  else
    let s := set_loading (Some "Authenticating with Hive Keychain...") s in
    let buffer := ("Login to Hive Account Faucet - " ++ NilZero.string_of_int (Z.to_int now))%string in
    set_pending (pending s ++ [SignBufferReq username buffer]) s.

(** [handleLogout()]: [showLoggedOutState] hides the faucet section and
    resets the form. *)
Definition handleLogout (s : App) : App :=
  let s := set_session None false None s in
  showStatus "Logged out successfully" SInfo (set_app_form (formDefaults s) s).

(** [handleFormSubmit(event)] *)
Definition handleFormSubmit (fd : FormInput) (keychainInstalled : bool) (timestamp : string)
    (s : App) : App :=
  let falsy (o : option string) := match o with Some v => String.eqb v "" | None => true end in
  if isProcessing s then s
  else if falsy (fi_requestedUsername fd) then
    showStatus "Please enter a username for the new account" SError s
  else if falsy (fi_deliveryMethod fd) then
    showStatus "Please select a credential delivery method" SError s
  else if bool_decide (fi_deliveryMethod fd = Some "email") && falsy (fi_email fd) then
    showStatus "Please enter an email address" SError s
  else if negb (isValid (validateHiveUsername (fi_requestedUsername fd))) then
    (* [validation.errors.join(', ')]: [errors] is undefined *)
    on_unhandled_rejection s
  else
    let s := set_loading (Some "Broadcasting account request...") (set_processing true s) in
    if keychainInstalled then
      let u := default "" (fi_requestedUsername fd) in
      let m := default "" (fi_deliveryMethod fd) in
      let payload := appCustomJson (currentUser s) u m (fi_email fd) (fi_notes fd) timestamp in
      set_pending (pending s ++ [CustomJsonReq (currentUser s) FAUCET_ID "Posting" payload
                                   "Account Creation Request"]) s
    else
      (* [window.hive_keychain.requestCustomJson] throws; the catch block *)
      showStatus "Failed to submit request. Please try again." SError
        (set_processing false (set_loading None s)).

(** The callbacks of the two Keychain requests. *)
Definition keychain_callback (r : keychain_request) (success : bool) (msg : jsv) (s : App) : App :=
  let s := set_loading None s in
  match r with
  | SignBufferReq username _ =>
      if success then
        showStatus ("Successfully logged in as @" ++ username)%string SSuccess
          (set_session (Some username) true (Some username) s)
      else showStatus ("Login failed: " ++ message_or msg "Unknown error")%string SError s
  | CustomJsonReq _ _ _ _ _ =>
      let s := set_processing false s in
      if success then
        let s := showStatus ("Account request submitted successfully! Your request has been " ++
                             "broadcast to the blockchain and will be processed shortly.")%string
                   SSuccess s in
        set_timers (timers s ++ [ResetForm]) s
      else showStatus ("Failed to submit request: " ++ message_or msg "Unknown error")%string SError s
  end.

(** The extension answers the [i]-th request still waiting. *)
Definition keychainResponse (i : nat) (success : bool) (msg : jsv) (s : App) : App :=
  match pending s !! i with
  | Some r => keychain_callback r success msg (set_pending (delete i (pending s)) s)
  | None => s
  end.

(** [checkUsernameAvailability(value, 'requested')] up to its [await]:
    the messages are cleared and a name the validator accepts is sent to
    the node ([apiClient.checkAccountAvailability]); the rest runs when the
    node answers. *)
Definition checkUsernameAvailability (value : string) (s : App) : App :=
  let validation := validateHiveUsername (Some value) in
  let f := usernameField s in
  let s := set_field (mkField (fv_error_class f) (fv_success_class f) "" "") s in
  if negb (isValid validation) then on_unhandled_rejection s
  else set_checks (checks s ++ [value]) s.

(** The rest of [checkUsernameAvailability(value, 'requested')], when the
    node's [reply] to the check of [value] arrives: each branch sets the
    classes and one of the two texts. *)
Definition availabilityAnswered (value : string) (reply : result json) (s : App) : App :=
  let f := usernameField s in
  match checkAccountAvailability (fun _ => reply) value with
  | Ok isAvailable =>
      if truthy (Val isAvailable) then
        set_field (mkField false true (fv_error_text f)
                     ("Username " ++ dq ++ value ++ dq ++ " is available")) s
      else
        set_field (mkField true false ("Username " ++ dq ++ value ++ dq ++ " is already taken")
                     (fv_success_text f)) s
  | Err _ =>
      set_field (mkField true false "Unable to check username availability. Please try again."
                   (fv_success_text f)) s
  end%string.

(** A timer's callback. *)
Definition run_timer (t : app_timer) (s : App) : App :=
  match t with
  | ClearStatus message =>
      if str_includes (status_html (status s)) message then set_status_view StatusReady s else s
  | ResetForm => set_app_form (formDefaults s) s
  end.

End Handlers.
Import Handlers.

(** ** Events *)

(** What can happen next on the page: the page load, the login and
    logout buttons, typing in the requested-name field (its [input]
    listener re-arms the 500 ms debounce timer) or the form's other
    fields, submitting the form, an answer of the extension, the debounce
    timer firing, an answer of the node to an availability check, or
    another timer firing.  Timers and answers are picked by their index
    among those pending: the model does not track the clock, so it allows
    every order in which they can come. *)
Inductive app_event : Type :=
| DOMContentLoaded
| ClickLogin (input : string) (keychainInstalled : bool) (now : Z)
| ClickLogout
| NameInput (value : string)
| EditForm (deliveryMethod email notes : option string)
| SubmitForm (keychainInstalled : bool) (timestamp : string)
| KeychainAnswer (i : nat) (success : bool) (message : jsv)
| DebounceFires
| NodeAnswer (i : nat) (reply : result json)
| TimerFires (i : nat).

Definition app_step (s : App) (e : app_event) : App :=
  match e with
  | DOMContentLoaded => checkExistingSession s
  | ClickLogin input k now => handleLogin input k now s
  | ClickLogout => handleLogout s
  | NameInput v =>
      let f := form s in
      set_validationTimeout true
        (set_app_form (mkForm (Some v) (fi_deliveryMethod f) (fi_email f) (fi_notes f)) s)
  | EditForm m e n => set_app_form (mkForm (fi_requestedUsername (form s)) m e n) s
  | SubmitForm k ts => handleFormSubmit (form s) k ts s
  | KeychainAnswer i ok msg => keychainResponse i ok msg s
  | DebounceFires =>
      if validationTimeout s then
        checkUsernameAvailability (default "" (fi_requestedUsername (form s)))
          (set_validationTimeout false s)
      else s
  | NodeAnswer i reply =>
      match checks s !! i with
      | Some v => availabilityAnswered v reply (set_checks (delete i (checks s)) s)
      | None => s
      end
  | TimerFires i =>
      match timers s !! i with
      | Some t => run_timer t (set_timers (delete i (timers s)) s)
      | None => s
      end
  end.

Definition app_run (s : App) (es : list app_event) : App := fold_left app_step es s.

(** ** Invariant *)

Definition is_json_req (r : keychain_request) : nat :=
  match r with CustomJsonReq _ _ _ _ _ => 1 | SignBufferReq _ _ => 0 end.

(** The account requests waiting for the extension. *)
Fixpoint count_json (q : list keychain_request) : nat :=
  match q with
  | [] => 0
  | r :: q => is_json_req r + count_json q
  end.

Definition logged_in (s : App) : bool :=
  match currentUser s with Some _ => true | None => false end.

(** The submit button is disabled exactly while [isProcessing]; an account
    request waits for the extension exactly then, and only one; the faucet
    section shows exactly when a user is logged in, who is the one kept in
    [localStorage]. *)
Definition app_inv (s : App) : Prop :=
  submitDisabled s = isProcessing s /\
  count_json (pending s) = (if isProcessing s then 1 else 0) /\
  loggedInView s = logged_in s /\
  (forall u, currentUser s = Some u -> storage s = Some u).

Lemma count_json_app q r : count_json (q ++ r) = count_json q + count_json r.
Proof. induction q as [|x q IH]; simpl; lia. Qed.

Lemma count_json_delete q i r :
  q !! i = Some r -> count_json q = is_json_req r + count_json (delete i q).
Proof.
  revert i. induction q as [|x q IH]; intros [|i] Hi; simplify_eq/=; [done|].
  rewrite (IH i Hi). lia.
Qed.

Lemma app_inv_initial stored defaults : app_inv (initialApp stored defaults).
Proof. unfold app_inv. cbn. split_and!; done. Qed.

Create HintDb app_inv discriminated.

(** What the display helpers leave alone. *)
Lemma app_inv_showStatus m t s : app_inv s -> app_inv (showStatus m t s).
Proof. done. Qed.

Lemma app_inv_loading l s : app_inv s -> app_inv (set_loading l s).
Proof. done. Qed.

Lemma app_inv_field f s : app_inv s -> app_inv (set_field f s).
Proof. done. Qed.

Lemma app_inv_form f s : app_inv s -> app_inv (set_app_form f s).
Proof. done. Qed.

Lemma app_inv_validationTimeout b s : app_inv s -> app_inv (set_validationTimeout b s).
Proof. done. Qed.

Lemma app_inv_checks q s : app_inv s -> app_inv (set_checks q s).
Proof. done. Qed.

Lemma app_inv_timers q s : app_inv s -> app_inv (set_timers q s).
Proof. done. Qed.

Lemma app_inv_status v s : app_inv s -> app_inv (set_status_view v s).
Proof. done. Qed.

Lemma app_inv_sign s u b : app_inv s -> app_inv (set_pending (pending s ++ [SignBufferReq u b]) s).
Proof. unfold app_inv. cbn. rewrite count_json_app. cbn. intros. destruct_and!. split_and!; auto; lia. Qed.

Lemma app_inv_session s u : app_inv s -> app_inv (set_session (Some u) true (Some u) s).
Proof. unfold app_inv. cbn. intros. destruct_and!. split_and!; auto; by intros ? [= <-]. Qed.

Lemma app_inv_logout s : app_inv s -> app_inv (set_session None false None s).
Proof. unfold app_inv. cbn. intros. destruct_and!. split_and!; auto; done. Qed.

(** Starting to broadcast: only when no request was waiting. *)
Lemma app_inv_submit s l a i t p ti :
  app_inv s -> isProcessing s = false ->
  app_inv (set_pending (pending (set_loading l (set_processing true s)) ++ [CustomJsonReq a i t p ti])
             (set_loading l (set_processing true s))).
Proof.
  unfold app_inv. cbn. rewrite count_json_app. cbn. intros Hi Hp. rewrite Hp in Hi.
  destruct_and!. split_and!; auto; lia.
Qed.

Lemma app_inv_catch s l :
  app_inv s -> isProcessing s = false ->
  app_inv (set_processing false (set_loading None (set_loading l (set_processing true s)))).
Proof. unfold app_inv. cbn. intros Hi Hp. rewrite Hp in Hi. destruct_and!. split_and!; auto. Qed.

Lemma app_inv_pending s q :
  app_inv s -> count_json q = count_json (pending s) -> app_inv (set_pending q s).
Proof. unfold app_inv. cbn. intros. destruct_and!. split_and!; auto; lia. Qed.

(** An account request answered: none is left waiting. *)
Lemma app_inv_done s q l :
  app_inv s -> count_json q = 0 -> app_inv (set_processing false (set_loading l (set_pending q s))).
Proof. unfold app_inv. cbn. intros. destruct_and!. split_and!; auto. Qed.

#[local] Hint Resolve app_inv_submit app_inv_catch app_inv_done : app_inv.

#[local] Hint Resolve app_inv_showStatus app_inv_loading app_inv_field app_inv_sign
  app_inv_session app_inv_logout app_inv_form app_inv_validationTimeout app_inv_checks
  app_inv_timers app_inv_status : app_inv.

Lemma checkExistingSession_inv s : app_inv s -> app_inv (checkExistingSession s).
Proof.
  unfold checkExistingSession. intros Hi. destruct (storage s) as [u|] eqn:Hs; [|done].
  destruct (String.eqb u ""); [done|]. unfold app_inv in *. cbn. destruct_and!.
  split_and!; auto.
Qed.

Lemma handleLogin_inv input k now s : app_inv s -> app_inv (handleLogin input k now s).
Proof.
  unfold handleLogin. intros Hi. repeat case_match; auto with app_inv.
Qed.

Lemma handleLogout_inv s : app_inv s -> app_inv (handleLogout s).
Proof. unfold handleLogout. auto with app_inv. Qed.

Lemma handleFormSubmit_inv fd k ts s : app_inv s -> app_inv (handleFormSubmit fd k ts s).
Proof.
  unfold handleFormSubmit, on_unhandled_rejection. intros Hi. repeat case_match; auto with app_inv.
Qed.

Lemma keychainResponse_inv i ok msg s : app_inv s -> app_inv (keychainResponse i ok msg s).
Proof.
  unfold keychainResponse. destruct (pending s !! i) as [r|] eqn:Hr; [|done].
  pose proof (count_json_delete _ _ _ Hr) as Hc. intros Hi.
  destruct r; cbn [is_json_req] in Hc; unfold keychain_callback.
  - assert (app_inv (set_pending (delete i (pending s)) s)) by (apply app_inv_pending; [done|lia]).
    destruct ok; auto with app_inv.
  - assert (count_json (delete i (pending s)) = 0).
    { destruct Hi as (_ & Hn & _). destruct (isProcessing s); lia. }
    destruct ok; auto with app_inv.
Qed.

Lemma checkUsernameAvailability_inv v s : app_inv s -> app_inv (checkUsernameAvailability v s).
Proof.
  unfold checkUsernameAvailability, on_unhandled_rejection. intros Hi.
  repeat case_match; auto with app_inv.
Qed.

Lemma availabilityAnswered_inv v r s : app_inv s -> app_inv (availabilityAnswered v r s).
Proof. unfold availabilityAnswered. intros Hi. repeat case_match; auto with app_inv. Qed.

Lemma run_timer_inv t s : app_inv s -> app_inv (run_timer t s).
Proof. unfold run_timer. intros Hi. repeat case_match; auto with app_inv. Qed.

#[local] Hint Resolve checkExistingSession_inv handleLogin_inv handleLogout_inv
  handleFormSubmit_inv keychainResponse_inv checkUsernameAvailability_inv
  availabilityAnswered_inv run_timer_inv : app_inv.

Lemma app_step_inv s e : app_inv s -> app_inv (app_step s e).
Proof. intros Hi. destruct e; simpl; repeat case_match; auto with app_inv. Qed.

Lemma app_run_inv s es : app_inv s -> app_inv (app_run s es).
Proof.
  unfold app_run. revert s. induction es as [|e es IH]; intros s Hs; simpl; [done|].
  apply IH, app_step_inv, Hs.
Qed.

(** What every account request waiting for the extension carries: the
    faucet's id, the posting key and the payload of [appCustomJson] with a
    non-empty name and delivery method. *)
Definition app_request_ok (r : keychain_request) : Prop :=
  match r with
  | CustomJsonReq a id t p _ =>
      id = FAUCET_ID /\ t = "Posting"%string /\
      exists u m e n ts, p = appCustomJson a u m e n ts /\ u <> ""%string /\ m <> ""%string
  | SignBufferReq _ _ => True
  end.

Lemma handleFormSubmit_requests_ok fd k ts s :
  Forall app_request_ok (pending s) -> Forall app_request_ok (pending (handleFormSubmit fd k ts s)).
Proof.
  unfold handleFormSubmit. intros Hq.
  destruct (fi_requestedUsername fd) as [u|], (fi_deliveryMethod fd) as [m|]; simpl;
    repeat case_match; simpl; try done.
  all: apply Forall_app; split; [done|]; apply Forall_singleton; simpl.
  all: split_and!; try done; eexists _, _, _, _, _; split_and!; [done|by apply String.eqb_neq..].
Qed.

Lemma app_step_requests_ok s e :
  Forall app_request_ok (pending s) -> Forall app_request_ok (pending (app_step s e)).
Proof.
  intros Hq. destruct e; simpl.
  - unfold checkExistingSession. by repeat case_match.
  - unfold handleLogin. repeat case_match; simpl; try done.
    apply Forall_app; split; [done|]. by apply Forall_singleton.
  - done.
  - done.
  - done.
  - by apply handleFormSubmit_requests_ok.
  - unfold keychainResponse. destruct (pending s !! i) as [r|]; [|done].
    unfold keychain_callback. apply (Forall_delete _ _ i) in Hq.
    by destruct r; [destruct success|destruct success].
  - unfold checkUsernameAvailability, on_unhandled_rejection. by repeat case_match.
  - unfold availabilityAnswered. by repeat case_match.
  - unfold run_timer. by repeat case_match.
Qed.

Lemma app_run_requests_ok s es :
  Forall app_request_ok (pending s) -> Forall app_request_ok (pending (app_run s es)).
Proof.
  unfold app_run. revert s. induction es as [|e es IH]; intros s Hs; simpl; [done|].
  apply IH, app_step_requests_ok, Hs.
Qed.

(** ** Properties *)

(** C31: whatever the events and the order the extension answers in, the
    page never has more than one account request waiting for the
    extension; one waits exactly while [isProcessing] is set, and the
    submit button is disabled exactly then. *)
Theorem at_most_one_request stored defaults es :
  let s := app_run (initialApp stored defaults) es in
  count_json (pending s) <= 1 /\ submitDisabled s = isProcessing s /\
  (count_json (pending s) = 1 <-> isProcessing s = true).
Proof.
  destruct (app_run_inv (initialApp stored defaults) es (app_inv_initial stored defaults))
    as (Hd & Hc & _).
  cbv zeta. rewrite Hc, Hd. destruct (isProcessing _); split_and!; try done; try lia.
Qed.

(** A well-formed submission whose name the validator rejects never
    shows the validator's message: [validation.errors] is undefined, the
    handler throws, and the page shows only the generic error of the
    [unhandledrejection] listener; nothing is sent. *)
Theorem submit_invalid_name_generic_error fd k ts s u m :
  isProcessing s = false ->
  fi_requestedUsername fd = Some u -> u <> ""%string ->
  fi_deliveryMethod fd = Some m -> m <> ""%string -> m <> "email"%string ->
  isValid (validateHiveUsername (Some u)) = false ->
  handleFormSubmit fd k ts s = showStatus UNEXPECTED SError s.
Proof.
  intros Hp Hu Hne Hm Hmne Hme Hv. unfold handleFormSubmit.
  rewrite Hp, Hu, Hm, Hv. apply String.eqb_neq in Hne, Hmne.
  rewrite Hne, Hmne. rewrite bool_decide_eq_false_2 by congruence. done.
Qed.

(** A form whose defaults are an empty name, no method chosen and empty
    notes, without an email field. *)
Definition form0 : FormInput := mkForm (Some "") (Some "") None (Some "").

Definition page0 : App := checkExistingSession (initialApp (Some "alice") form0).

Definition form_ab : FormInput := mkForm (Some "ab") (Some "hive_memo") None None.

Lemma submit_invalid_name_generic_error_witness :
  handleFormSubmit form_ab true "t" page0 = showStatus UNEXPECTED SError page0.
Proof.
  apply (submit_invalid_name_generic_error form_ab true "t" page0 "ab" "hive_memo");
    try reflexivity; discriminate.
Defined.

(** What the node's answer to a check shows when its [result] is an
    array: the name that check was for, as available. *)
Lemma availabilityAnswered_array v response l s :
  member (Val response) "result" = Ok (Val (JArr l)) ->
  usernameField (availabilityAnswered v (Ok response) s) =
    mkField false true (fv_error_text (usernameField s))
      ("Username " ++ dq ++ v ++ dq ++ " is available")%string.
Proof.
  intros Hres. unfold availabilityAnswered.
  by destruct (checkAccountAvailability_ok (fun _ => Ok response) v response l eq_refl Hres)
    as [obj ->].
Qed.

(** A name the validator accepts is sent to the node. *)
Lemma checkUsernameAvailability_valid v s :
  isValid (validateHiveUsername (Some v)) = true ->
  checks (checkUsernameAvailability v s) = checks s ++ [v].
Proof. intros Hv. unfold checkUsernameAvailability. by rewrite Hv. Qed.

(** The answer of a check changes only the name field. *)
Lemma availabilityAnswered_frame v r s :
  form (availabilityAnswered v r s) = form s /\ checks (availabilityAnswered v r s) = checks s.
Proof. unfold availabilityAnswered. by repeat case_match. Qed.

(** Typing a name the validator accepts and pausing sends it to the node. *)
Lemma debounced_check s v :
  isValid (validateHiveUsername (Some v)) = true ->
  checks (app_run s [NameInput v; DebounceFires]) = checks s ++ [v] /\
  fi_requestedUsername (form (app_run s [NameInput v; DebounceFires])) = Some v.
Proof.
  intros Hv. simpl. rewrite checkUsernameAvailability_valid by done.
  unfold checkUsernameAvailability. by rewrite Hv.
Qed.

Lemma app_run_app s es1 es2 : app_run s (es1 ++ es2) = app_run (app_run s es1) es2.
Proof. apply fold_left_app. Qed.

(** C32: when the node answers a check, the page marks the checked name
    as available whatever the answer: the object [{available, exists}] is
    truthy even when the node returns the account, so a name that is
    taken is shown as free. *)
Theorem availability_always_shown s i v response l :
  checks s !! i = Some v ->
  member (Val response) "result" = Ok (Val (JArr l)) ->
  let f := usernameField (app_step s (NodeAnswer i (Ok response))) in
  fv_error_class f = false /\ fv_success_class f = true /\
  fv_success_text f = ("Username " ++ dq ++ v ++ dq ++ " is available")%string.
Proof. intros Hi Hres. simpl. rewrite Hi, (availabilityAnswered_array _ _ l) by done. done. Qed.

Definition node_alice : json := JObj [("result", JArr [JObj [("name", JStr "alice")]])].

Definition page_checking : App := app_run page0 [NameInput "alice"; DebounceFires].

Lemma availability_always_shown_witness :
  checks page_checking !! 0 = Some "alice"%string /\
  member (Val node_alice) "result" = Ok (Val (JArr [JObj [("name", JStr "alice")]])) /\
  let f := usernameField (app_step page_checking (NodeAnswer 0 (Ok node_alice))) in
  fv_error_class f = false /\ fv_success_class f = true /\
  fv_success_text f = ("Username " ++ dq ++ "alice" ++ dq ++ " is available")%string.
Proof.
  split_and!; [reflexivity|reflexivity|].
  apply (availability_always_shown page_checking 0 "alice" node_alice [JObj [("name", JStr "alice")]]);
    reflexivity.
Defined.

(** C34: the availability checks race: the debounce only spaces them out,
    and each answer writes the name it was asked for.  A user who types
    [v], pauses, then types [w] and pauses, and whose node answers the
    second check first, is left with [w] in the field and the message
    that [v] is available. *)
Theorem stale_availability_shown stored defaults v w rv rw lv lw :
  isValid (validateHiveUsername (Some v)) = true ->
  isValid (validateHiveUsername (Some w)) = true ->
  member (Val rv) "result" = Ok (Val (JArr lv)) ->
  member (Val rw) "result" = Ok (Val (JArr lw)) ->
  let s := app_run (initialApp stored defaults)
             [NameInput v; DebounceFires; NameInput w; DebounceFires;
              NodeAnswer 1 (Ok rw); NodeAnswer 0 (Ok rv)] in
  fi_requestedUsername (form s) = Some w /\
  fv_success_text (usernameField s) = ("Username " ++ dq ++ v ++ dq ++ " is available")%string.
Proof.
  intros Hv Hw Hrv Hrw. cbv zeta.
  change [NameInput v; DebounceFires; NameInput w; DebounceFires; NodeAnswer 1 (Ok rw);
          NodeAnswer 0 (Ok rv)]
    with ([NameInput v; DebounceFires] ++ [NameInput w; DebounceFires] ++
          [NodeAnswer 1 (Ok rw); NodeAnswer 0 (Ok rv)]).
  rewrite !app_run_app.
  destruct (debounced_check (initialApp stored defaults) v Hv) as [Hc1 _].
  destruct (debounced_check (app_run (initialApp stored defaults) [NameInput v; DebounceFires]) w Hw)
    as [Hc2 Hf2].
  rewrite Hc1 in Hc2.
  remember (app_run (app_run (initialApp stored defaults) [NameInput v; DebounceFires])
              [NameInput w; DebounceFires]) as s2.
  simpl. rewrite Hc2. simpl.
  destruct (availabilityAnswered_frame w (Ok rw) (set_checks [v] s2)) as [Hf3 Hc3].
  rewrite Hc3. simpl. destruct (availabilityAnswered_frame v (Ok rv) (set_checks [] (availabilityAnswered w (Ok rw) (set_checks [v] s2)))) as [Hf4 _].
  split; [rewrite Hf4; simpl; by rewrite Hf3 | by rewrite (availabilityAnswered_array _ _ lv)].
Qed.


Definition node_free : json := JObj [("result", JArr [])].

Lemma stale_availability_shown_witness :
  isValid (validateHiveUsername (Some "alice")) = true /\
  isValid (validateHiveUsername (Some "alicex")) = true /\
  member (Val node_free) "result" = Ok (Val (JArr [])) /\
  member (Val node_free) "result" = Ok (Val (JArr [])) /\
  let s := app_run (initialApp None form0)
             [NameInput "alice"; DebounceFires; NameInput "alicex"; DebounceFires;
              NodeAnswer 1 (Ok node_free); NodeAnswer 0 (Ok node_free)] in
  fi_requestedUsername (form s) = Some "alicex"%string /\
  fv_success_text (usernameField s) = ("Username " ++ dq ++ "alice" ++ dq ++ " is available")%string.
Proof.
  split_and!; try reflexivity.
  apply (stale_availability_shown None form0 "alice" "alicex" node_free node_free [] []);
    reflexivity.
Defined.

(** C33: a submission that passes the page's checks broadcasts the name as
    typed, not the trimmed, lower-cased name the validator checked: the
    payload's [requested_username] is the raw field, so ["Alice"], which
    the validator accepts, is requested as ["Alice"]. *)
Theorem submit_sends_raw_name fd ts s u m :
  isProcessing s = false ->
  fi_requestedUsername fd = Some u -> u <> ""%string ->
  fi_deliveryMethod fd = Some m -> m <> ""%string -> m <> "email"%string ->
  isValid (validateHiveUsername (Some u)) = true ->
  pending (handleFormSubmit fd true ts s) =
    pending s ++ [CustomJsonReq (currentUser s) FAUCET_ID "Posting"
                    (appCustomJson (currentUser s) u m (fi_email fd) (fi_notes fd) ts)
                    "Account Creation Request"] /\
  isProcessing (handleFormSubmit fd true ts s) = true.
Proof.
  intros Hp Hu Hne Hm Hmne Hme Hv. unfold handleFormSubmit.
  rewrite Hp, Hu, Hm, Hv. apply String.eqb_neq in Hne, Hmne.
  rewrite Hne, Hmne. rewrite bool_decide_eq_false_2 by congruence. done.
Qed.

Definition form_Alice : FormInput := mkForm (Some "Alice") (Some "hive_memo") None None.

Lemma submit_sends_raw_name_witness :
  pending (handleFormSubmit form_Alice true "t" page0) =
    [CustomJsonReq (Some "alice") FAUCET_ID "Posting"
       (appCustomJson (Some "alice") "Alice" "hive_memo" None None "t")
       "Account Creation Request"] /\
  isProcessing (handleFormSubmit form_Alice true "t" page0) = true.
Proof.
  apply (submit_sends_raw_name form_Alice "t" page0 "Alice" "hive_memo");
    try reflexivity; discriminate.
Defined.
