(* ===== verification/Keychain.v ===== *)
(** * The Keychain request page ([src/scripts/keychain.js])

    The file holds two classes that run in the same page (and, through
    [setupRealtimeValidation], the listeners of [FieldValidation] on the
    name field):
    - [KeychainManager] (lines 5-264): finds the Hive Keychain extension
      ([checkKeychainAvailability], retried every second up to
      [maxRetries]), connects to it ([connectKeychain], whose handshake the
      extension answers later through a callback), disconnects, and
      broadcasts the account request as a [custom_json]
      ([submitAccountRequest], [createAccountRequestJson],
      [generateRequestId], [broadcastCustomJson]);
    - [HiveAccountApp] (lines 272-651): the request form
      ([handleFormSubmit], [getFormData]), the debounced check of the typed
      name ([checkUsernameAvailability], [checkHiveAccountAvailability]),
      the Ctrl+Enter shortcut, and the display helpers
      ([setProcessingState], [showStatusMessage], [hideStatusMessage]).

    [Page] is the state of both objects together with what the page shows
    (the Keychain status line, which of the login section and the form is
    visible, the status message, the errors [displayErrors] put under the
    fields, the messages of the requested-name field), the content of the
    form, what is pending (the 1 s debounce timer of the name field, the
    availability checks waiting for the node, the extension requests whose
    callback has not run yet), and, as ghost state, the list of payloads
    handed to [requestCustomJson].  [page_step] is one event, [page_run] a
    sequence of them; the answers of the extension and of the node are
    events that may come in any order.

    [checkHiveAccountAvailability] is split at its [await] on the node
    ([checkHiveAccountAvailability], [hiveAvailabilityAnswered]), so the
    blur and focus listeners and other checks can run in between.  The
    retry timer of [checkKeychainAvailability] is taken as one step, run
    by [init]: it changes only the manager's retry count and [keychain],
    and the model does not let a click on Connect fall inside the few
    seconds the search may take (the code would then report the extension
    as missing).  The awaits on the extension are
    events of their own.  Icons, console output and scrolling are not
    modelled; the [<br>] of the success message is kept. *)

From S2P Require Import Prelude Json Validation FieldValidation Api.
From Stdlib Require Import DecimalString.

(** ** State *)

(** The [type] argument of [showKeychainStatus] and of
    [showStatusMessage]. *)
Inductive ks_type : Type := KSError | KSWarning | KSConnected.
Inductive msg_type : Type := MSuccess | MError | MWarning | MInfo.

(** The fields of [KeychainManager]: [connectedUser] is [null] or what the
    extension answered as [response.data.username]; [keychain] records
    whether [this.keychain] holds [window.hive_keychain]. *)
Record Manager : Type := mkManager {
  isConnected : bool;
  connectedUser : jsv;
  keychain : bool;
  retryAttempts : Z;
  maxRetries : Z
}.

(** The constructor (lines 6-12). *)
Definition newManager : Manager := mkManager false (Val JNull) false 0 3.

Definition set_connected (b : bool) (m : Manager) : Manager :=
  mkManager b (connectedUser m) (keychain m) (retryAttempts m) (maxRetries m).
Definition set_user (u : jsv) (m : Manager) : Manager :=
  mkManager (isConnected m) u (keychain m) (retryAttempts m) (maxRetries m).
Definition found_keychain (m : Manager) : Manager :=
  mkManager (isConnected m) (connectedUser m) true (retryAttempts m) (maxRetries m).
Definition incr_retry (m : Manager) : Manager :=
  mkManager (isConnected m) (connectedUser m) (keychain m) (retryAttempts m + 1) (maxRetries m).

(** The error and success elements of the requested-name field ([None]:
    hidden) and its [error] class. *)
Record NameView : Type := mkNameView {
  nv_error : option string;
  nv_success : option string;
  nv_error_class : bool
}.

Definition clearedName : NameView := mkNameView None None false.

(** What [FormData.get] returns for the fields of the form. *)
Record FormFields : Type := mkFormFields {
  ff_requestedUsername : option string;
  ff_deliveryMethod : option string;
  ff_notes : option string;
  ff_termsAccepted : option string
}.

(** The form as [form.reset()] leaves it: the fields back at their
    defaults, an unchecked box. *)
Definition defaultForm : FormFields := mkFormFields (Some "") (Some "") (Some "") None.

(** A request handed to the extension whose callback has not run: the
    handshake of [connectKeychain], or the [requestCustomJson] of
    [broadcastCustomJson] with the request id its caller will report. *)
Inductive kc_call : Type :=
| HandshakeCall
| CustomJsonCall (account : jsv) (id keyType : string) (payload : json) (title : string)
    (requestId : string).

Record Page : Type := mkPage {
  km : Manager;
  keychainStatus : option (ks_type * string);
  loginVisible : bool;
  formVisible : bool;
  connectedLabel : string;
  isProcessing : bool;
  currentRequestId : option string;
  statusMessage : option (msg_type * string * string);
  fieldErrors : list (string * string);
  nameView : NameView;
  form : FormFields;
  nameTimeout : bool;
  checks : list string;
  outstanding : list kc_call;
  (** ghost: the payloads passed to [requestCustomJson], in order *)
  broadcasts : list json
}.

Definition initialPage : Page :=
  mkPage newManager None true false "" false None None [] clearedName defaultForm false [] [] [].

(** ** Field updates *)

Definition set_km (m : Manager) (p : Page) : Page :=
  mkPage m (keychainStatus p) (loginVisible p) (formVisible p) (connectedLabel p)
    (isProcessing p) (currentRequestId p) (statusMessage p) (fieldErrors p) (nameView p)
    (form p) (nameTimeout p) (checks p) (outstanding p) (broadcasts p).
Definition set_kstatus (o : option (ks_type * string)) (p : Page) : Page :=
  mkPage (km p) o (loginVisible p) (formVisible p) (connectedLabel p)
    (isProcessing p) (currentRequestId p) (statusMessage p) (fieldErrors p) (nameView p)
    (form p) (nameTimeout p) (checks p) (outstanding p) (broadcasts p).
Definition set_sections (login formv : bool) (label : string) (p : Page) : Page :=
  mkPage (km p) (keychainStatus p) login formv label
    (isProcessing p) (currentRequestId p) (statusMessage p) (fieldErrors p) (nameView p)
    (form p) (nameTimeout p) (checks p) (outstanding p) (broadcasts p).
Definition set_request_id (r : option string) (p : Page) : Page :=
  mkPage (km p) (keychainStatus p) (loginVisible p) (formVisible p) (connectedLabel p)
    (isProcessing p) r (statusMessage p) (fieldErrors p) (nameView p)
    (form p) (nameTimeout p) (checks p) (outstanding p) (broadcasts p).
Definition set_status (o : option (msg_type * string * string)) (p : Page) : Page :=
  mkPage (km p) (keychainStatus p) (loginVisible p) (formVisible p) (connectedLabel p)
    (isProcessing p) (currentRequestId p) o (fieldErrors p) (nameView p)
    (form p) (nameTimeout p) (checks p) (outstanding p) (broadcasts p).
Definition set_field_errors (l : list (string * string)) (p : Page) : Page :=
  mkPage (km p) (keychainStatus p) (loginVisible p) (formVisible p) (connectedLabel p)
    (isProcessing p) (currentRequestId p) (statusMessage p) l (nameView p)
    (form p) (nameTimeout p) (checks p) (outstanding p) (broadcasts p).
Definition set_name_view (v : NameView) (p : Page) : Page :=
  mkPage (km p) (keychainStatus p) (loginVisible p) (formVisible p) (connectedLabel p)
    (isProcessing p) (currentRequestId p) (statusMessage p) (fieldErrors p) v
    (form p) (nameTimeout p) (checks p) (outstanding p) (broadcasts p).
Definition set_form (f : FormFields) (p : Page) : Page :=
  mkPage (km p) (keychainStatus p) (loginVisible p) (formVisible p) (connectedLabel p)
    (isProcessing p) (currentRequestId p) (statusMessage p) (fieldErrors p) (nameView p)
    f (nameTimeout p) (checks p) (outstanding p) (broadcasts p).
Definition set_outstanding (q : list kc_call) (p : Page) : Page :=
  mkPage (km p) (keychainStatus p) (loginVisible p) (formVisible p) (connectedLabel p)
    (isProcessing p) (currentRequestId p) (statusMessage p) (fieldErrors p) (nameView p)
    (form p) (nameTimeout p) (checks p) q (broadcasts p).
Definition set_nameTimeout (b : bool) (p : Page) : Page :=
  mkPage (km p) (keychainStatus p) (loginVisible p) (formVisible p) (connectedLabel p)
    (isProcessing p) (currentRequestId p) (statusMessage p) (fieldErrors p) (nameView p)
    (form p) b (checks p) (outstanding p) (broadcasts p).
Definition set_name_checks (q : list string) (p : Page) : Page :=
  mkPage (km p) (keychainStatus p) (loginVisible p) (formVisible p) (connectedLabel p)
    (isProcessing p) (currentRequestId p) (statusMessage p) (fieldErrors p) (nameView p)
    (form p) (nameTimeout p) q (outstanding p) (broadcasts p).

(** [setProcessingState(processing)]: the flag, and the submit button's
    [disabled] with it. *)
Definition setProcessingState (b : bool) (p : Page) : Page :=
  mkPage (km p) (keychainStatus p) (loginVisible p) (formVisible p) (connectedLabel p)
    b (currentRequestId p) (statusMessage p) (fieldErrors p) (nameView p)
    (form p) (nameTimeout p) (checks p) (outstanding p) (broadcasts p).

(** Hands a request to the extension; a [requestCustomJson] is logged. *)
Definition send_call (c : kc_call) (p : Page) : Page :=
  mkPage (km p) (keychainStatus p) (loginVisible p) (formVisible p) (connectedLabel p)
    (isProcessing p) (currentRequestId p) (statusMessage p) (fieldErrors p) (nameView p)
    (form p) (nameTimeout p) (checks p) (outstanding p ++ [c])
    (match c with CustomJsonCall _ _ _ j _ _ => broadcasts p ++ [j] | HandshakeCall => broadcasts p end).

(** ** [KeychainManager] *)

Module KeychainManager.

(** [showKeychainStatus(type, icon, message)] *)
Definition showKeychainStatus (t : ks_type) (msg : string) (p : Page) : Page :=
  set_kstatus (Some (t, msg)) p.

(** [checkKeychainAvailability()]: the [k]-th run of [checkKeychain] sees
    [window.hive_keychain] set exactly when [present k]; a failed look
    counts a retry and, below [maxRetries], is tried again one second
    later.  The code has no bound of its own; [fuel] is one run. *)
Fixpoint checkKeychain (fuel : nat) (present : nat -> bool) (k : nat) (p : Page)
    : option bool * Page :=
  match fuel with
  | O => (None, p)
  | S f =>
      if present k then (Some true, set_km (found_keychain (km p)) p)
      else
        let p := set_km (incr_retry (km p)) p in
        if (retryAttempts (km p) <? maxRetries (km p))%Z then checkKeychain f present (S k) p
        else (Some false,
              showKeychainStatus KSError "Hive Keychain not detected. Please install Keychain extension." p)
  end.

(** The fuel: one run more than the retries left, at least one. *)
Definition check_fuel (m : Manager) : nat := Z.to_nat (Z.max 1 (maxRetries m - retryAttempts m)).

Definition checkKeychainAvailability (present : nat -> bool) (p : Page) : option bool * Page :=
  checkKeychain (check_fuel (km p)) present 0 p.

(** [init()]: the listeners of [setupEventListeners] are the events of
    [page_step]. *)
Definition init (present : nat -> bool) (p : Page) : Page :=
  snd (checkKeychainAvailability present p).

(** [connectKeychain()]: the handshake's callback runs later. *)
Definition connectKeychain (p : Page) : Page :=
  if negb (keychain (km p)) then
    showKeychainStatus KSError "Keychain not available. Please install Hive Keychain extension." p
  else send_call HandshakeCall (showKeychainStatus KSWarning "Requesting account access..." p).

(** [showConnectedState()] *)
Definition showConnectedState (p : Page) : Page :=
  let u := jsv_to_string (connectedUser (km p)) in
  set_sections false true ("@" ++ u)%string
    (showKeychainStatus KSConnected ("Connected as @" ++ u)%string p).

(** The callback of [requestHandshake]: the statements run in order, and a
    member access that throws ends the callback where it stands (the
    promise of [connectKeychain] then never settles). *)
Definition handshake_callback (response : json) (p : Page) : Page :=
  match member (Val response) "success" with
  | Err _ => p
  | Ok s =>
      if truthy s then
        let p := set_km (set_connected true (km p)) p in
        match (d <- member (Val response) "data" ;; member d "username") with
        | Err _ => p
        | Ok u => showConnectedState (set_km (set_user u (km p)) p)
        end
      else
        match member (Val response) "error" with
        | Ok e => showKeychainStatus KSError
                    ("Failed to connect to Keychain: " ++ message_or e "Unknown error")%string p
        | Err _ => p
        end
  end.

(** [disconnect()] *)
Definition disconnect (p : Page) : Page :=
  let p := set_km (set_user (Val JNull) (set_connected false (km p))) p in
  set_kstatus None (set_sections true false (connectedLabel p) p).

(** [isUserConnected()]: [this.isConnected && this.connectedUser], used as
    a boolean. *)
Definition isUserConnected (m : Manager) : bool := isConnected m && truthy (connectedUser m).

(** [generateRequestId()], with [Date.now()] and the six characters of
    [Math.random().toString(36).substring(2, 8)] as arguments. *)
Definition generateRequestId (now : Z) (random : string) : string :=
  ("req_" ++ NilZero.string_of_int (Z.to_int now) ++ "_" ++ random)%string.

(** The object [getFormData] builds. *)
Record SubmitData : Type := mkSubmitData {
  sd_requestingUsername : jsv;
  sd_requestedUsername : json;
  sd_deliveryMethod : json;
  sd_notes : json;
  sd_termsAccepted : json
}.

(** [broadcastCustomJson(id, json, requiredPostingAuths)] up to the
    extension call: the request to send, or the message of the rejection.
    [requiredPostingAuths] is not used by the code. *)
Definition broadcastCustomJson (m : Manager) (id : string) (j : json) (requestId : string)
    : result kc_call :=
  if negb (isConnected m) || negb (truthy (connectedUser m)) then Err "Keychain not connected"
  else if negb (keychain m) then Err "Keychain not available"
  else Ok (CustomJsonCall (connectedUser m) id "Posting" j "Account Creation Request" requestId).

(** [submitAccountRequest(formData)] up to the extension call. *)
Definition submitAccountRequest (m : Manager) (fd : SubmitData) (now : Z) (random timestamp : string)
    : result kc_call :=
  if negb (isConnected m) then Err "Please connect your Keychain first"
  else
    let requestId := generateRequestId now random in
    let customJson := createAccountRequestJson (sd_requestedUsername fd) (sd_deliveryMethod fd)
                        (sd_notes fd) timestamp requestId in
    broadcastCustomJson m FAUCET_ID customJson requestId.

End KeychainManager.
Import KeychainManager.

(** ** [HiveAccountApp] *)

Module HiveAccountApp.

(** [showStatusMessage(type, title, description = '')] *)
Definition showStatusMessage (t : msg_type) (title description : string) (p : Page) : Page :=
  set_status (Some (t, title, description)) p.

(** [hideStatusMessage()] *)
Definition hideStatusMessage (p : Page) : Page := set_status None p.

(** [formValidator.displayErrors(errors)] and [clearErrors()]: the
    messages shown under the fields. *)
Definition displayErrors (errs : list (string * string)) (p : Page) : Page := set_field_errors errs p.
Definition clearErrors (p : Page) : Page := set_field_errors [] p.

(** [connectedUser.username] where the code calls [toLowerCase] on it. *)
Definition username_str (v : jsv) : option string :=
  match v with Val (JStr s) => Some s | _ => None end.

(** [getFormData()] *)
Definition getFormData (p : Page) : SubmitData :=
  let f := form p in
  mkSubmitData (connectedUser (km p)) (opt_str (ff_requestedUsername f))
    (opt_str (ff_deliveryMethod f))
    (JStr (match ff_notes f with Some s => s | None => "" end))
    (opt_str (ff_termsAccepted f)).

(** The [catch] of [handleFormSubmit]: two messages of the extension are
    rephrased. *)
Definition friendlyError (msg : string) : string :=
  if str_includes msg "User denied" then "Transaction was cancelled by user."
  else if str_includes msg "Insufficient Resource Credits" then
    "Insufficient Resource Credits to broadcast transaction."
  else msg.

(** The [catch] and the [finally] of [handleFormSubmit]. *)
Definition submit_failed (msg : string) (p : Page) : Page :=
  setProcessingState false (showStatusMessage MError "Failed to submit request" (friendlyError msg) p).

(** [handleFormSubmit(event)] up to the extension call; [now], [random]
    and [timestamp] are [Date.now()], the random digits of the request id
    and [new Date().toISOString()]. *)
Definition handleFormSubmit (now : Z) (random timestamp : string) (p : Page) : Page :=
  if isProcessing p then p
  else if negb (isUserConnected (km p)) then
    showStatusMessage MError "Not Connected" "Please connect your Keychain first." p
  else
    let p := hideStatusMessage p in
    let f := form p in
    let validation := validateForm (ff_requestedUsername f) (username_str (connectedUser (km p)))
                        (ff_termsAccepted f) in
    if negb (form_isValid validation) then
      showStatusMessage MError "Please fix the errors below and try again." ""
        (displayErrors (errors validation) p)
    else
      let p := clearErrors p in
      let fd := getFormData p in
      let p := showStatusMessage MInfo "Broadcasting to Hive blockchain..."
                 "Please confirm the transaction in Keychain." (setProcessingState true p) in
      match submitAccountRequest (km p) fd now random timestamp with
      | Ok c => send_call c p
      | Err msg => submit_failed msg p
      end.

Definition SUBMITTED : string := "Account creation request submitted to Hive blockchain".

(** The callback of [requestCustomJson] and the rest of [handleFormSubmit]
    after its [await]: on success the promise resolves with the
    transaction id and block number of [response.result] (a missing
    [result] throws inside the callback, and the promise never settles);
    otherwise it rejects with [response.message]. *)
Definition customjson_callback (requestId : string) (response : json) (p : Page) : Page :=
  match member (Val response) "success" with
  | Err _ => p
  | Ok s =>
      if truthy s then
        match (r <- member (Val response) "result" ;; txid <- member r "id" ;;
               _ <- member r "block_num" ;; Ok txid) with
        | Err _ => p
        | Ok txid =>
            let msg := ("Transaction ID: " ++ jsv_to_string txid ++ "<br>" ++
                        "Request ID: " ++ requestId ++ "<br>" ++ SUBMITTED)%string in
            setProcessingState false
              (set_form defaultForm
                 (showStatusMessage MSuccess "Request submitted to blockchain!" msg
                    (set_request_id (Some requestId) p)))
        end
      else
        match member (Val response) "message" with
        | Ok m => submit_failed (message_or m "Failed to broadcast custom JSON") p
        | Err _ => p
        end
  end.

(** [checkHiveAccountAvailability(username, ...)] up to its [await]: the
    "Checking availability" message is shown and the name is sent to the
    node ([apiClient.checkAccountAvailability]). *)
Definition checkHiveAccountAvailability (username : string) (p : Page) : Page :=
  let nv := nameView p in
  let p := set_name_view (mkNameView (nv_error nv) (Some "Checking availability on Hive blockchain...")
                            (nv_error_class nv)) p in
  set_name_checks (checks p ++ [username]) p.

(** The rest of [checkHiveAccountAvailability], when the node's [reply] to
    the check of [username] arrives. *)
Definition hiveAvailabilityAnswered (username : string) (reply : result json) (p : Page) : Page :=
  let nv := nameView p in
  let could_not := mkNameView (nv_error nv) (Some "Could not check availability - please verify manually")
                     (nv_error_class nv) in
  match checkAccountAvailability (fun _ => reply) username with
  | Ok availability =>
      match member (Val availability) "available" with
      | Ok a =>
          if truthy a then
            set_name_view (mkNameView (nv_error nv) (Some "Username is available on Hive!")
                             (nv_error_class nv)) p
          else set_name_view (mkNameView (Some "This username is already taken on Hive.") None true) p
      | Err _ => set_name_view could_not p
      end
  | Err _ => set_name_view could_not p
  end.

(** [checkUsernameAvailability(username, 'requested')]; a connected name
    that is truthy but not a string makes [toLowerCase] throw, which ends
    the handler. *)
Definition checkUsernameAvailability (username : string) (p : Page) : Page :=
  let validation := validateHiveUsername (Some username) in
  let p := set_name_view clearedName p in
  if String.eqb username "" || (String.length username <? 3)%nat then p
  else if negb (isValid validation) then
    set_name_view (mkNameView (Some (message validation)) None true) p
  else
    let same := mkNameView (Some "The new account name cannot be the same as your connected username.")
                  None true in
    match connectedUser (km p) with
    | Val (JStr u) =>
        if negb (String.eqb u "") && String.eqb (toLowerCase username) (toLowerCase u)
        then set_name_view same p
        else checkHiveAccountAvailability username p
    | cu => if truthy cu then p else checkHiveAccountAvailability username p
    end.

(** [setupRealtimeValidation()] (lines 360-365), run by [init]: the name
    field is validated with ['hiveUsername'] when it loses focus and
    cleared when it gets it, through [FormValidator.setupRealtimeValidation].
    Its listeners write the same error element, [requestedUsernameError],
    and the same [error] class as [checkUsernameAvailability]. *)
Definition realtimeName : option validator_type := FieldValidation.setupRealtimeValidation true "hiveUsername".

(** The name field as the listeners see it, and back; [aria-invalid] is
    not part of the page's state. *)
Definition name_field (nv : NameView) : FieldErrors := mkFieldErrors (nv_error nv) (nv_error_class nv) false.
Definition with_field (fv : FieldErrors) (nv : NameView) : NameView :=
  mkNameView (fv_error fv) (nv_success nv) (fv_error_class fv).

(** A [blur] or [focus] of the name field; the field has no
    [data-field-name], and the username validator does not consult the URL
    parser. *)
Definition name_event (e : field_event) (p : Page) : Page :=
  let nv := nameView p in
  set_name_view (with_field (field_step (fun _ => false) realtimeName true None (name_field nv) e) nv) p.

End HiveAccountApp.
Import HiveAccountApp.

(** ** Events *)

Inductive page_event : Type :=
| PageInit (present : nat -> bool)
| ClickConnect
| ClickDisconnect
| KeychainAnswer (i : nat) (response : json)
| FillForm (f : FormFields)
| SubmitForm (now : Z) (random timestamp : string)
(** The [keydown] listener: Ctrl+Enter calls [form.requestSubmit()] when
    not processing *)
| CtrlEnter (now : Z) (random timestamp : string)
(** The name field's [input] listener: the field's value, and the 1 s
    debounce timer re-armed ([clearTimeout], [setTimeout]) *)
| NameInput (value : string)
(** The debounce timer fires: the field's value at that time is checked *)
| NameDebounce
(** The node answers the [i]-th availability check still waiting *)
| NodeAnswer (i : nat) (reply : result json)
(** The name field loses focus (with the value of the form) or gets it *)
| NameBlur
| NameFocus.

(** The extension answers the [i]-th request still waiting. *)
Definition keychainAnswer (i : nat) (response : json) (p : Page) : Page :=
  match outstanding p !! i with
  | Some c =>
      let p := set_outstanding (delete i (outstanding p)) p in
      match c with
      | HandshakeCall => handshake_callback response p
      | CustomJsonCall _ _ _ _ _ rid => customjson_callback rid response p
      end
  | None => p
  end.

Definition page_step (p : Page) (e : page_event) : Page :=
  match e with
  | PageInit present => init present p
  | ClickConnect => connectKeychain p
  | ClickDisconnect => disconnect p
  | KeychainAnswer i r => keychainAnswer i r p
  | FillForm f => set_form f p
  | SubmitForm now rnd ts => handleFormSubmit now rnd ts p
  | CtrlEnter now rnd ts => if isProcessing p then p else handleFormSubmit now rnd ts p
  | NameInput v =>
      let f := form p in
      set_nameTimeout true
        (set_form (mkFormFields (Some v) (ff_deliveryMethod f) (ff_notes f) (ff_termsAccepted f)) p)
  | NameDebounce =>
      if nameTimeout p then
        checkUsernameAvailability (default "" (ff_requestedUsername (form p))) (set_nameTimeout false p)
      else p
  | NodeAnswer i reply =>
      match checks p !! i with
      | Some v => hiveAvailabilityAnswered v reply (set_name_checks (delete i (checks p)) p)
      | None => p
      end
  | NameBlur => name_event (Blur (default "" (ff_requestedUsername (form p)))) p
  | NameFocus => name_event Focus p
  end.

Definition page_run (p : Page) (es : list page_event) : Page := fold_left page_step es p.

(** ** Invariants *)

Definition is_cj (c : kc_call) : bool :=
  match c with CustomJsonCall _ _ _ _ _ _ => true | HandshakeCall => false end.

(** The account requests waiting for the extension. *)
Definition in_flight (p : Page) : nat := length (List.filter is_cj (outstanding p)).

(** At most one account request waits for the extension, and only while
    [isProcessing] is set. *)
Definition kc_inv (p : Page) : Prop := in_flight p <= (if isProcessing p then 1 else 0).

Lemma kc_inv_initial : kc_inv initialPage.
Proof. unfold kc_inv, in_flight. simpl. lia. Qed.

(** The request [submitAccountRequest] hands to the extension carries a
    payload built by [createAccountRequestJson]. *)
Lemma submitAccountRequest_payload m fd now r ts c :
  submitAccountRequest m fd now r ts = Ok c ->
  exists a rid, c = CustomJsonCall a FAUCET_ID "Posting"
    (createAccountRequestJson (sd_requestedUsername fd) (sd_deliveryMethod fd) (sd_notes fd) ts rid)
    "Account Creation Request" rid.
Proof.
  unfold submitAccountRequest, broadcastCustomJson. repeat case_match; intros; simplify_eq; eauto.
Qed.



(** What the availability check leaves alone: the extension's requests,
    [isProcessing], the broadcasts and the form. *)
Definition name_frame (p' p : Page) : Prop :=
  outstanding p' = outstanding p /\ isProcessing p' = isProcessing p /\
  broadcasts p' = broadcasts p /\ form p' = form p.

Lemma checkUsernameAvailability_frame v p : name_frame (checkUsernameAvailability v p) p.
Proof.
  unfold name_frame, checkUsernameAvailability, checkHiveAccountAvailability.
  by repeat case_match.
Qed.

Lemma hiveAvailabilityAnswered_frame v r p : name_frame (hiveAvailabilityAnswered v r p) p.
Proof. unfold name_frame, hiveAvailabilityAnswered. by repeat case_match. Qed.

(** The three events of the name field, in a proof by cases on the event:
    rewrite with the frame and close the goal on the page before. *)
Ltac name_event_frame :=
  repeat case_match; try done;
  let Ho := fresh "Ho" in let Hq := fresh "Hq" in let Hb := fresh "Hb" in
  match goal with
  | |- context [checkUsernameAvailability ?v ?p] =>
      destruct (checkUsernameAvailability_frame v p) as (Ho & Hq & Hb & _)
  | |- context [hiveAvailabilityAnswered ?v ?r ?p] =>
      destruct (hiveAvailabilityAnswered_frame v r p) as (Ho & Hq & Hb & _)
  end;
  unfold kc_inv, in_flight in *; rewrite ?Ho, ?Hq, ?Hb; simpl; auto.

Ltac kc_simpl :=
  unfold kc_inv, in_flight in *; simpl in *; rewrite ?length_filter_app; simpl in *;
  repeat match goal with |- context [is_cj ?c] => destruct (is_cj c); simpl end.

Lemma kc_handleFormSubmit_inv now r ts p : kc_inv p -> kc_inv (handleFormSubmit now r ts p).
Proof.
  unfold handleFormSubmit. destruct (isProcessing p) eqn:Hp; [done|].
  intros Hi. repeat case_match; kc_simpl; rewrite ?Hp in *; lia.
Qed.

Lemma keychainAnswer_inv i r p : kc_inv p -> kc_inv (keychainAnswer i r p).
Proof.
  unfold keychainAnswer. destruct (outstanding p !! i) as [c|] eqn:Hc; [|done].
  pose proof (length_filter_delete is_cj _ _ _ Hc) as Hd.
  unfold handshake_callback, customjson_callback, submit_failed.
  intros Hi. destruct c; repeat case_match; kc_simpl; rewrite Hd in Hi; simpl in Hi;
    try lia; destruct (isProcessing p); lia.
Qed.

(** The look for the extension changes only the manager and the Keychain
    status line. *)
Lemma checkKeychain_frame fuel present k p :
  outstanding (snd (checkKeychain fuel present k p)) = outstanding p /\
  isProcessing (snd (checkKeychain fuel present k p)) = isProcessing p /\
  broadcasts (snd (checkKeychain fuel present k p)) = broadcasts p.
Proof.
  revert k p. induction fuel as [|fuel IH]; intros k p; simpl; [done|].
  repeat case_match; simpl; try done. apply (IH (S k) (set_km _ p)).
Qed.

Lemma init_inv present p : kc_inv p -> kc_inv (init present p).
Proof.
  unfold init, checkKeychainAvailability, kc_inv, in_flight.
  destruct (checkKeychain_frame (check_fuel (km p)) present 0 p) as (-> & -> & _). done.
Qed.

Lemma page_step_inv p e : kc_inv p -> kc_inv (page_step p e).
Proof.
  destruct e; simpl; intros Hi.
  - by apply init_inv.
  - unfold connectKeychain. case_match; kc_simpl; lia.
  - done.
  - by apply keychainAnswer_inv.
  - done.
  - by apply kc_handleFormSubmit_inv.
  - case_match; [done|]. by apply kc_handleFormSubmit_inv.
  - done.
  - name_event_frame.
  - name_event_frame.
  - done.
  - done.
Qed.

Lemma page_run_inv p es : kc_inv p -> kc_inv (page_run p es).
Proof.
  unfold page_run. revert p. induction es as [|e es IH]; intros p Hp; simpl; [done|].
  apply IH, page_step_inv, Hp.
Qed.

(** A payload of the [keychain.js] request format. *)
Definition keychain_payload (j : json) : Prop :=
  exists u d n ts rid, j = createAccountRequestJson u d n ts rid.

(** An event adds to the log of broadcasts only payloads of that format. *)
Lemma page_step_broadcasts p e :
  exists l, broadcasts (page_step p e) = broadcasts p ++ l /\ Forall keychain_payload l.
Proof.
  assert (Hnil : forall q, broadcasts q = broadcasts p -> exists l,
             broadcasts q = broadcasts p ++ l /\ Forall keychain_payload l).
  { intros q ->. exists []. by rewrite app_nil_r. }
  destruct e; simpl.
  - apply Hnil. apply checkKeychain_frame.
  - apply Hnil. unfold connectKeychain. by case_match.
  - by apply Hnil.
  - apply Hnil. unfold keychainAnswer, handshake_callback, customjson_callback, submit_failed.
    by repeat case_match.
  - by apply Hnil.
  - unfold handleFormSubmit. repeat case_match; try by apply Hnil.
    match goal with H : submitAccountRequest _ _ _ _ _ = Ok _ |- _ =>
      apply submitAccountRequest_payload in H as (? & ? & ->) end.
    eexists; split; [reflexivity|]. repeat constructor. do 5 eexists. reflexivity.
  - unfold handleFormSubmit. repeat case_match; try by apply Hnil.
    match goal with H : submitAccountRequest _ _ _ _ _ = Ok _ |- _ =>
      apply submitAccountRequest_payload in H as (? & ? & ->) end.
    eexists; split; [reflexivity|]. repeat constructor. do 5 eexists. reflexivity.
  - by apply Hnil.
  - apply Hnil. name_event_frame.
  - apply Hnil. name_event_frame.
  - by apply Hnil.
  - by apply Hnil.
Qed.

Lemma page_run_broadcasts p es :
  exists l, broadcasts (page_run p es) = broadcasts p ++ l /\ Forall keychain_payload l.
Proof.
  unfold page_run. revert p. induction es as [|e es IH]; intros p; simpl.
  - exists []. by rewrite app_nil_r.
  - destruct (page_step_broadcasts p e) as (l1 & H1 & F1).
    destruct (IH (page_step p e)) as (l2 & H2 & F2).
    exists (l1 ++ l2). rewrite H2, H1, app_assoc. split; [done|]. by apply Forall_app.
Qed.

(** The look for the extension, run by run: it answers whether one of the
    runs left found it. *)
Lemma checkKeychain_spec present n : forall fuel k p,
  (maxRetries (km p) - retryAttempts (km p))%Z = Z.of_nat (S n) -> n < fuel ->
  fst (checkKeychain fuel present k p) = Some (existsb present (seq k (S n))).
Proof.
  induction n as [|n IH]; intros [|fuel] k p Hn Hf; try lia; simpl.
  - destruct (present k); [done|]. simpl.
    destruct (Z.ltb_spec (retryAttempts (km p) + 1) (maxRetries (km p))); [lia|done].
  - destruct (present k); [done|]. simpl.
    destruct (Z.ltb_spec (retryAttempts (km p) + 1) (maxRetries (km p))); [|lia].
    apply IH; simpl; lia.
Qed.

(** With no account request waiting, nothing ever clears [isProcessing]:
    every event keeps it, sends no account request and leaves none
    waiting. *)
Lemma stuck_step p e :
  isProcessing p = true -> in_flight p = 0 ->
  isProcessing (page_step p e) = true /\ in_flight (page_step p e) = 0 /\
  broadcasts (page_step p e) = broadcasts p.
Proof.
  unfold in_flight. intros Hp Hf. destruct e; simpl.
  - unfold init, checkKeychainAvailability.
    destruct (checkKeychain_frame (check_fuel (km p)) present 0 p) as (-> & -> & ->). done.
  - unfold connectKeychain. case_match; simpl; rewrite ?length_filter_app; simpl;
      split_and!; try done; lia.
  - done.
  - unfold keychainAnswer. destruct (outstanding p !! i) as [c|] eqn:Hc; [|done].
    pose proof (length_filter_delete is_cj _ _ _ Hc) as Hd.
    destruct c; simpl in Hd; [|lia].
    unfold handshake_callback. repeat case_match; simpl; auto with lia.
  - done.
  - unfold handleFormSubmit. by rewrite Hp.
  - by rewrite Hp.
  - done.
  - name_event_frame.
  - name_event_frame.
  - done.
  - done.
Qed.

(** The node's answer to a check leaves the form alone. *)
Lemma nodeAnswer_form p i r : form (page_step p (NodeAnswer i r)) = form p.
Proof.
  simpl. destruct (checks p !! i); [|done].
  by destruct (hiveAvailabilityAnswered_frame s r (set_name_checks (delete i (checks p)) p)) as (_&_&_&->).
Qed.

(** ** Properties *)

(** Whatever the events and whatever order the extension answers in,
    the page never has more than one account request waiting for the
    extension, and one waits only while [isProcessing] is set (so the
    submit button is disabled). *)
Theorem at_most_one_broadcast es :
  in_flight (page_run initialPage es) <= 1 /\
  (in_flight (page_run initialPage es) = 1 -> isProcessing (page_run initialPage es) = true).
Proof.
  pose proof (page_run_inv initialPage es kc_inv_initial) as Hi. unfold kc_inv in Hi.
  destruct (isProcessing _); split; intros; lia.
Qed.

(** C13: the two parts compose badly: every account request the
    [keychain.js] page ever hands to the extension, under any events, is
    one the monitor's [validateRequest] rejects, so no request made from
    this page can lead to an account. *)
Theorem keychain_page_requests_rejected es :
  Forall (fun j => validateRequest (Val j) = Ok false) (broadcasts (page_run initialPage es)).
Proof.
  destruct (page_run_broadcasts initialPage es) as (l & -> & F). simpl.
  eapply Forall_impl; [exact F|]. intros j (u & d & n & ts & rid & ->).
  apply keychain_request_rejected.
Qed.

(** C35: the look for the extension always ends: from a manager with
    retries left, [checkKeychainAvailability] settles after at most
    [maxRetries - retryAttempts] looks, with [true] exactly when one of
    them found [window.hive_keychain]. *)
Theorem checkKeychainAvailability_settles present p :
  (0 <= retryAttempts (km p) < maxRetries (km p))%Z ->
  fst (checkKeychainAvailability present p) =
    Some (existsb present (seq 0 (Z.to_nat (maxRetries (km p) - retryAttempts (km p))))).
Proof.
  intros Hr. unfold checkKeychainAvailability, check_fuel.
  replace (Z.to_nat (maxRetries (km p) - retryAttempts (km p)))
    with (S (Z.to_nat (maxRetries (km p) - retryAttempts (km p)) - 1)) by lia.
  apply checkKeychain_spec; lia.
Qed.

Lemma checkKeychainAvailability_settles_witness :
  fst (checkKeychainAvailability (fun k => Nat.eqb k 2) initialPage) =
    Some (existsb (fun k => Nat.eqb k 2) (seq 0 (Z.to_nat (maxRetries (km initialPage) -
                                                            retryAttempts (km initialPage))))).
Proof. apply checkKeychainAvailability_settles. simpl. lia. Defined.

(** When the extension confirms the broadcast with its transaction,
    the page clears [isProcessing], records the request id, shows the
    transaction and request ids, resets the form and drops the request
    from the waiting ones. *)
Theorem broadcast_confirmed i p a id kt j t rid txid bn :
  outstanding p !! i = Some (CustomJsonCall a id kt j t rid) ->
  let p' := keychainAnswer i (JObj [("success", JBool true);
                                    ("result", JObj [("id", JStr txid); ("block_num", JNum bn)])]) p in
  isProcessing p' = false /\ currentRequestId p' = Some rid /\ form p' = defaultForm /\
  statusMessage p' = Some (MSuccess, "Request submitted to blockchain!",
                           ("Transaction ID: " ++ txid ++ "<br>" ++ "Request ID: " ++ rid ++ "<br>" ++
                            SUBMITTED)%string) /\
  outstanding p' = delete i (outstanding p).
Proof. intros Hi. unfold keychainAnswer. rewrite Hi. done. Qed.

(** When the user denies the transaction in the extension, the page
    shows "Transaction was cancelled by user." as the reason, clears
    [isProcessing] and broadcasts nothing more. *)
Theorem broadcast_denied i p a id kt j t rid msg :
  outstanding p !! i = Some (CustomJsonCall a id kt j t rid) ->
  str_includes msg "User denied" = true ->
  let p' := keychainAnswer i (JObj [("success", JBool false); ("message", JStr msg)]) p in
  isProcessing p' = false /\
  statusMessage p' = Some (MError, "Failed to submit request", "Transaction was cancelled by user.") /\
  outstanding p' = delete i (outstanding p) /\ broadcasts p' = broadcasts p.
Proof.
  intros Hi Hm. unfold keychainAnswer. rewrite Hi.
  destruct msg as [|c msg]; [discriminate|]. unfold submit_failed.
  cbn -[str_includes friendlyError]. unfold friendlyError. rewrite Hm. done.
Qed.

(** C36: [isProcessing] is only cleared by the callback of the account
    request: once it is set while no account request waits (the callback
    threw on an answer without [result]), every later submission is
    ignored, for ever. *)
Theorem processing_stuck p es :
  isProcessing p = true -> in_flight p = 0 ->
  isProcessing (page_run p es) = true /\ broadcasts (page_run p es) = broadcasts p.
Proof.
  unfold page_run. revert p. induction es as [|e es IH]; intros p Hp Hf; simpl; [done|].
  destruct (stuck_step p e Hp Hf) as (H1 & H2 & H3).
  destruct (IH _ H1 H2) as [-> ->]. auto.
Qed.

(** C18: the real-time validation of the name field and the
    availability check write the same error element: once the node says a
    name the validator accepts is taken, the field losing focus (the user
    clicking anywhere else) erases the "already taken" message and the
    field's error styling, and the form can be submitted for a name that
    cannot be created. *)
Theorem blur_erases_taken_warning p i reply u :
  ff_requestedUsername (form p) = Some u ->
  isValid (validateHiveUsername (Some u)) = true ->
  nv_error (nameView (page_step p (NodeAnswer i reply))) =
    Some "This username is already taken on Hive."%string ->
  nv_error (nameView (page_run p [NodeAnswer i reply; NameBlur])) = None /\
  nv_error_class (nameView (page_run p [NodeAnswer i reply; NameBlur])) = false.
Proof.
  intros Hf Hv _. change (page_run p [NodeAnswer i reply; NameBlur])
    with (page_step (page_step p (NodeAnswer i reply)) NameBlur).
  pose proof (nodeAnswer_form p i reply) as Hform.
  generalize dependent (page_step p (NodeAnswer i reply)). intros p' Hform.
  cbn [page_step]. unfold name_event. rewrite Hform, Hf.
  cbn -[validateHiveUsername]. unfold on_blur. cbn -[validateHiveUsername]. by rewrite Hv.
Qed.

(** A session: the extension is found on the first look, the handshake
    answers [alice], the form is filled and submitted. *)
Definition form1 : FormFields := mkFormFields (Some "newuser1") (Some "email") (Some "") (Some "on").

Definition pg_sent : Page :=
  page_run initialPage
    [PageInit (fun k => Nat.eqb k 0); ClickConnect;
     KeychainAnswer 0 (JObj [("success", JBool true); ("data", JObj [("username", JStr "alice")])]);
     FillForm form1; SubmitForm 1700 "abc123" "2024"].

Definition payload1 : json :=
  createAccountRequestJson (JStr "newuser1") (JStr "email") (JStr "") "2024" "req_1700_abc123".

Lemma pg_sent_outstanding :
  outstanding pg_sent !! 0%nat =
    Some (CustomJsonCall (Val (JStr "alice")) FAUCET_ID "Posting" payload1 "Account Creation Request"
            "req_1700_abc123").
Proof. vm_compute. reflexivity. Qed.

Lemma broadcast_confirmed_witness :
  let p' := keychainAnswer 0 (JObj [("success", JBool true);
              ("result", JObj [("id", JStr "tx9"); ("block_num", JNum 5)])]) pg_sent in
  isProcessing p' = false /\ currentRequestId p' = Some "req_1700_abc123" /\ form p' = defaultForm /\
  statusMessage p' = Some (MSuccess, "Request submitted to blockchain!",
                           ("Transaction ID: " ++ "tx9" ++ "<br>" ++ "Request ID: " ++ "req_1700_abc123" ++
                            "<br>" ++ SUBMITTED)%string) /\
  outstanding p' = delete 0 (outstanding pg_sent).
Proof.
  apply (broadcast_confirmed 0 pg_sent (Val (JStr "alice")) FAUCET_ID "Posting" payload1
           "Account Creation Request" "req_1700_abc123" "tx9" 5).
  apply pg_sent_outstanding.
Defined.

Lemma broadcast_denied_witness :
  let p' := keychainAnswer 0 (JObj [("success", JBool false);
              ("message", JStr "User denied the request")]) pg_sent in
  isProcessing p' = false /\
  statusMessage p' = Some (MError, "Failed to submit request", "Transaction was cancelled by user.") /\
  outstanding p' = delete 0 (outstanding pg_sent) /\ broadcasts p' = broadcasts pg_sent.
Proof.
  apply (broadcast_denied 0 pg_sent (Val (JStr "alice")) FAUCET_ID "Posting" payload1
           "Account Creation Request" "req_1700_abc123" "User denied the request");
    [apply pg_sent_outstanding|].
  vm_compute. reflexivity.
Defined.

(** The extension confirms without a [result]: the callback throws. *)
Definition pg_stuck : Page := keychainAnswer 0 (JObj [("success", JBool true)]) pg_sent.

Lemma processing_stuck_witness :
  isProcessing (page_run pg_stuck [FillForm form1; SubmitForm 1800 "def456" "2025"]) = true /\
  broadcasts (page_run pg_stuck [FillForm form1; SubmitForm 1800 "def456" "2025"]) = broadcasts pg_stuck.
Proof. apply processing_stuck; vm_compute; reflexivity. Defined.

(** The node knows [alice]: the name is taken. *)
Definition node_taken : json := JObj [("result", JArr [JObj [("name", JStr "alice")]])].

(** [alice] is typed, the debounce fires, and the check waits for the node. *)
Definition pg_alice : Page :=
  page_run (set_form (mkFormFields (Some "") (Some "email") None (Some "on")) initialPage)
    [NameInput "alice"; NameDebounce].

Lemma blur_erases_taken_warning_witness :
  ff_requestedUsername (form pg_alice) = Some "alice"%string /\
  isValid (validateHiveUsername (Some "alice")) = true /\
  nv_error (nameView (page_step pg_alice (NodeAnswer 0 (Ok node_taken)))) =
    Some "This username is already taken on Hive."%string /\
  nv_error (nameView (page_run pg_alice [NodeAnswer 0 (Ok node_taken); NameBlur])) = None /\
  nv_error_class (nameView (page_run pg_alice [NodeAnswer 0 (Ok node_taken); NameBlur])) = false.
Proof.
  assert (Ht : nv_error (nameView (page_step pg_alice (NodeAnswer 0 (Ok node_taken)))) =
                 Some "This username is already taken on Hive."%string) by (vm_compute; reflexivity).
  split_and!; [reflexivity|reflexivity|exact Ht|..];
    apply (blur_erases_taken_warning pg_alice 0 (Ok node_taken) "alice"); try reflexivity; exact Ht.
Defined.
