(* ===== verification/Network.v ===== *)
(** * The external services the monitor calls

    The monitor talks to a Hive node through two client libraries
    ([@hiveio/dhive]: [client.database.getAccounts],
    [client.broadcast.sendOperations]; [@hiveio/hive-js]:
    [hive.api.getAccounts], [hive.broadcast.transfer], [hive.memo.encode])
    and to a mail transport ([nodemailer] in [EmailService]). They are not
    part of the repository; each is a type class here:

    - [Ledger C]: the node, over a state [C] of the chain; every call may
      fail ([result]), as a network call can;
    - [LedgerLaws]: the three facts about the node the pipeline relies on
      (a lookup that finds no account means the account does not exist; a
      creation succeeds only for a fresh name and then the account exists;
      no call deletes an account);
    - [Mailer M]: [transporter.sendMail] over a mailbox state [M];
    - [MemoCodec]: [hive.memo.encode].

    [SimpleChain] is an executable model of the node (accounts with memo
    keys and HBD balances, signing keys, claimed-account tokens) that
    satisfies [LedgerLaws]; [Outbox] and [OpaqueCodec] / [LeakyCodec] are
    executable instances of the other two. They are used by the concrete
    runs of [Pipeline]. *)

From S2P Require Import Prelude.
From Stdlib Require Import DecimalString.

(** ** Interfaces *)

(** The fields of an account object the code reads: [name], [memo_key],
    and [hbd_balance] (in thousandths of HBD). *)
Record Account : Type := mkAccount {
  acc_name : string;
  acc_memo_key : string;
  hbd_balance : Z
}.

Class Ledger (C : Type) : Type := {
  (** [getAccounts([name])]: the account if any. *)
  getAccount : C -> string -> result (option Account);
  (** [sendOperations([['create_claimed_account', {creator, new_account_name,
      owner, active, posting, memo_key, ...}]], PrivateKey.fromString(key))]:
      the new state and the transaction id. *)
  createClaimedAccount : C -> forall (creator activeKey name owner active posting memo : string),
      result (C * string);
  (** [transfer(activeKey, from, to, amount, memo)], the amount in
      thousandths of HBD. *)
  transfer : C -> forall (activeKey from to : string) (amount : Z) (memo : string),
      result (C * string);
  (** Whether an account of that name exists on the chain. *)
  account_exists : C -> string -> bool
}.

Class LedgerLaws (C : Type) `{Ledger C} : Prop := {
  getAccount_none c n : getAccount c n = Ok None -> account_exists c n = false;
  create_fresh c cr k n o a p m c' tx :
    createClaimedAccount c cr k n o a p m = Ok (c', tx) ->
    account_exists c n = false /\ account_exists c' n = true;
  create_keeps c cr k n o a p m c' tx x :
    createClaimedAccount c cr k n o a p m = Ok (c', tx) ->
    account_exists c x = true -> account_exists c' x = true;
  transfer_keeps c k f t amt memo c' tx x :
    transfer c k f t amt memo = Ok (c', tx) ->
    account_exists c x = true -> account_exists c' x = true
}.

Class Mailer (M : Type) : Type := {
  (** [transporter.sendMail({to, text})]: the new mailbox and the message id. *)
  sendMail : M -> forall (to text : string), result (M * string)
}.

Class MemoCodec : Type := {
  (** [hive.memo.encode(privateKey, publicKey, message)], which may throw. *)
  memo_encode : forall (privateKey publicKey message : string), result string
}.

(** ** An executable model of the node *)

Record Chain : Type := mkChain {
  ch_accounts : gmap string Account;
  (** The active key that signs for an account *)
  ch_keys : gmap string string;
  (** Pending claimed accounts (ACTs) of each creator *)
  ch_acts : gmap string Z;
  (** The number of transactions so far, for transaction ids *)
  ch_txs : Z
}.

Definition txid_of (n : Z) : string := ("tx" ++ NilZero.string_of_int (Z.to_int n))%string.

Definition chain_create (c : Chain) (creator key name owner active posting memo : string)
    : result (Chain * string) :=
  match ch_accounts c !! name with
  | Some _ => Err "could not insert object, most likely a uniqueness constraint was violated"
  | None =>
      if negb (bool_decide (ch_keys c !! creator = Some key)) then Err "missing required active authority"
      else
        let n := default 0%Z (ch_acts c !! creator) in
        if (n <=? 0)%Z then Err "creator has no pending claimed accounts"
        else Ok (mkChain (<[name := mkAccount name memo 0]> (ch_accounts c)) (ch_keys c)
                   (<[creator := (n - 1)%Z]> (ch_acts c)) (ch_txs c + 1),
                 txid_of (ch_txs c))
  end.

Definition set_hbd (a : Account) (b : Z) : Account := mkAccount (acc_name a) (acc_memo_key a) b.

Definition chain_transfer (c : Chain) (key from to : string) (amount : Z) (memo : string)
    : result (Chain * string) :=
  if negb (bool_decide (ch_keys c !! from = Some key)) then Err "missing required active authority"
  else
    match ch_accounts c !! from, ch_accounts c !! to with
    | Some af, Some at_ =>
        if (hbd_balance af <? amount)%Z then Err "Account does not have sufficient funds"
        else
          let accs := <[from := set_hbd af (hbd_balance af - amount)]> (ch_accounts c) in
          let at' := default at_ (accs !! to) in
          Ok (mkChain (<[to := set_hbd at' (hbd_balance at' + amount)]> accs) (ch_keys c)
                (ch_acts c) (ch_txs c + 1), txid_of (ch_txs c))
    | _, _ => Err "unknown account"
    end.

#[export] Instance SimpleChain : Ledger Chain := {
  getAccount c n := Ok (ch_accounts c !! n);
  createClaimedAccount := chain_create;
  transfer := chain_transfer;
  account_exists c n := bool_decide (is_Some (ch_accounts c !! n))
}.

Lemma exists_insert (m : gmap string Account) k v x :
  bool_decide (is_Some (m !! x)) = true -> bool_decide (is_Some (<[k:=v]> m !! x)) = true.
Proof.
  rewrite !bool_decide_eq_true. intros Hx.
  destruct (decide (k = x)) as [->|Hne]; [rewrite lookup_insert_eq; eauto|by rewrite lookup_insert_ne].
Qed.

Lemma chain_create_fresh c cr k n o a p m c' tx :
  chain_create c cr k n o a p m = Ok (c', tx) ->
  ch_accounts c !! n = None /\ is_Some (ch_accounts c' !! n).
Proof.
  unfold chain_create. destruct (ch_accounts c !! n) eqn:Hn; [done|].
  case_match; [done|]. case_match; [done|]. intros [= <- _]. simpl.
  rewrite lookup_insert_eq. eauto.
Qed.

Lemma chain_create_keeps c cr k n o a p m c' tx x :
  chain_create c cr k n o a p m = Ok (c', tx) ->
  bool_decide (is_Some (ch_accounts c !! x)) = true ->
  bool_decide (is_Some (ch_accounts c' !! x)) = true.
Proof.
  unfold chain_create. destruct (ch_accounts c !! n); [done|].
  case_match; [done|]. case_match; [done|]. intros [= <- _]. simpl. apply exists_insert.
Qed.

Lemma chain_transfer_keeps c k f t amt memo c' tx x :
  chain_transfer c k f t amt memo = Ok (c', tx) ->
  bool_decide (is_Some (ch_accounts c !! x)) = true ->
  bool_decide (is_Some (ch_accounts c' !! x)) = true.
Proof.
  unfold chain_transfer. case_match; [done|].
  destruct (ch_accounts c !! f), (ch_accounts c !! t); try done.
  case_match; [done|]. intros [= <- _]. simpl. intros Hx. by do 2 apply exists_insert.
Qed.

#[export] Instance SimpleChain_laws : LedgerLaws Chain.
Proof.
  split.
  - intros c n [= Hn]. cbn. by rewrite Hn.
  - intros c cr k n o a p m c' tx H. apply chain_create_fresh in H as [H1 H2]. cbn.
    rewrite H1. split; [done|]. by apply bool_decide_eq_true.
  - exact chain_create_keeps.
  - exact chain_transfer_keeps.
Qed.

(** A mailbox that keeps what was sent; sending fails on an empty address. *)
Definition Outbox : Type := list (string * string).

#[export] Instance OutboxMailer : Mailer Outbox := {
  sendMail box to text :=
    if String.eqb to "" then Err "No recipients defined"
    else Ok (box ++ [(to, text)], ("msg" ++ NilZero.string_of_int (Z.to_int (Z.of_nat (length box))))%string)
}.

(** A codec whose output is ["#"] followed by one ['~'] per character of
    the message: it reveals nothing of the text. *)
#[export] Instance OpaqueCodec : MemoCodec := {
  memo_encode _ _ msg := Ok (String "#" (string_of_list_ascii (repeat "~"%char (String.length msg))))
}.

(** A codec that returns the message itself, to exercise the leak check. *)
Definition LeakyCodec : MemoCodec := {|
  memo_encode _ _ msg := Ok msg
|}.
