(* ===== verification/Delivery.v ===== *)
(** * Credential delivery: the email and memo channels

    - [EmailService.sendAccountCredentials] ([src/unnamed/part_001],
      lines 278-320): mails the username and the four private keys when the
      transport is configured;
    - [checkHBDBalance], [canSendMemo] and [sendAccountMemo]
      ([src/backend/services/blockchain-monitor.js], lines 449-565): checks
      that the faucet holds at least 0.001 HBD, encrypts the username and
      master password to the requester's memo key, refuses to send a memo
      that still contains either in clear, and transfers 0.001 HBD with the
      memo to the requester;
    - the delivery block of [processAccountRequest] (lines 376-420): which
      channels the delivery method asks for, and the overall-success rule
      (both channels for ["both"], either channel otherwise).

    The services are the type classes of [Network]. *)

From S2P Require Import Prelude Json Network.

(** ** Configuration and data *)

(** The operator settings read from the environment in the monitor's
    constructor (lines 27-30; an unset variable is [""], which is what the
    code's truthiness tests see) and [EmailService.isConfigured]. *)
Record Config : Type := mkConfig {
  creatingAccount : string;
  creatingActiveKey : string;
  creatingMemoKey : string;
  email_configured : bool
}.

(** The [accountData] object of [processAccountRequest] (lines 352-361). *)
Record AccountData : Type := mkAccountData {
  ad_username : string;
  ad_masterPassword : string;
  ad_ownerKey : string;
  ad_activeKey : string;
  ad_postingKey : string;
  ad_memoKey : string;
  ad_transactionId : string;
  ad_requester : string
}.

(** The result objects of the two channels: [{success: true, ...}], a
    failure with its [error] or [reason], or the initial
    [{success: false}] of a channel that was not requested. *)
Inductive channel_result : Type :=
| ChannelOk (id : string)
| ChannelFail (error : string)
| ChannelSkipped.

Definition success (r : channel_result) : bool :=
  match r with ChannelOk _ => true | _ => false end.

(** ** The email channel *)

(** The [text] of the mail (the decorative emoji of the source are left
    out); it carries the username and the four private keys, not the master
    password. *)
Definition mail_text (ad : AccountData) : string :=
  ("THIS IS AN AUTOMATED MESSAGE - DO NOT REPLY" ++
   " Your Hive Account Has Been Created!" ++
   " Username: " ++ ad_username ad ++
   " Owner Key: " ++ ad_ownerKey ad ++
   " Active Key: " ++ ad_activeKey ad ++
   " Posting Key: " ++ ad_postingKey ad ++
   " Memo Key: " ++ ad_memoKey ad ++
   " IMPORTANT: Save these keys securely! Created by: @" ++ ad_requester ad ++
   " Contact: @meno on Hive DO NOT REPLY TO THIS EMAIL")%string.

Section Channels.
Context {C M : Type} `{Ledger C} `{Mailer M} `{MemoCodec}.

(** [sendAccountCredentials(userEmail, accountData)] *)
Definition sendAccountCredentials (cfg : Config) (box : M) (userEmail : string)
    (ad : AccountData) : channel_result * M :=
  if email_configured cfg then
    match sendMail box userEmail (mail_text ad) with
    | Ok (box', messageId) => (ChannelOk messageId, box')
    | Err e => (ChannelFail e, box)
    end
  else (ChannelFail "Email not configured", box).

(** ** The memo channel *)

(** [checkHBDBalance(username)]: [0] when the lookup fails or finds
    nothing. *)
Definition checkHBDBalance (c : C) (username : string) : Z :=
  match getAccount c username with
  | Ok (Some a) => hbd_balance a
  | _ => 0%Z
  end.

(** [canSendMemo(username)]: [balance >= 0.001]. *)
Definition MEMO_MINIMUM : Z := 1.

Definition canSendMemo (c : C) (username : string) : bool :=
  (MEMO_MINIMUM <=? checkHBDBalance c username)%Z.

Definition memoMessage (ad : AccountData) : string :=
  ("Account created: " ++ ad_username ad ++ String "010" (
   "Master Password: " ++ ad_masterPassword ad ++ String "010" (String "010"
   "Import this to Keychain to access your account.")))%string.

(** [sendAccountMemo(recipientUsername, accountData)] *)
Definition sendAccountMemo (cfg : Config) (c : C) (recipient : string) (ad : AccountData)
    : channel_result * C :=
  match getAccount c recipient with
  | Err e => (ChannelFail e, c)
  | Ok None => (ChannelFail ("Recipient account @" ++ recipient ++ " not found")%string, c)
  | Ok (Some a) =>
      match memo_encode (creatingMemoKey cfg) (acc_memo_key a) (String "#" (memoMessage ad)) with
      | Err e => (ChannelFail e, c)
      | Ok encryptedMemo =>
          if str_includes encryptedMemo (ad_username ad)
             || str_includes encryptedMemo (ad_masterPassword ad)
          then (ChannelFail "Memo encryption failed - security risk detected", c)
          else
            match transfer c (creatingActiveKey cfg) (creatingAccount cfg) recipient
                    MEMO_MINIMUM encryptedMemo with
            | Err e => (ChannelFail e, c)
            | Ok (c', txid) => (ChannelOk txid, c')
            end
      end
  end.

(** ** The delivery block *)

(** The outcome of the delivery block: both channel results, the overall
    flag, and the chain and mailbox after it. *)
Record delivery : Type := mkDelivery {
  emailResult : channel_result;
  memoResult : channel_result;
  overallSuccess : bool;
  dl_chain : C;
  dl_mail : M
}.

(** The [// EMAIL] block (lines 388-399). *)
Definition email_channel (cfg : Config) (box : M) (deliveryMethod : jsv)
    (requesterEmail : option string) (ad : AccountData) : channel_result * M :=
  if strict_eq_str deliveryMethod "email" || strict_eq_str deliveryMethod "both" then
    match requesterEmail with
    | Some e => if negb (js_blank e) then sendAccountCredentials cfg box e ad
                else (ChannelFail "No registered email", box)
    | None => (ChannelFail "No registered email", box)
    end
  else (ChannelSkipped, box).

(** The [// MEMO] block (lines 401-416). *)
Definition memo_channel (cfg : Config) (c : C) (deliveryMethod : jsv) (requester : string)
    (ad : AccountData) : channel_result * C :=
  if strict_eq_str deliveryMethod "hive_memo" || strict_eq_str deliveryMethod "both" then
    if negb (canSendMemo c (creatingAccount cfg)) then
      (ChannelFail "Insufficient HBD for memo transfer", c)
    else if String.eqb (creatingMemoKey cfg) "" then
      (ChannelFail "Missing faucet memo key", c)
    else sendAccountMemo cfg c requester ad
  else (ChannelSkipped, c).

(** Lines 377-420: email first, then memo, then the overall rule. *)
Definition deliver (cfg : Config) (c : C) (box : M) (deliveryMethod : jsv)
    (requesterEmail : option string) (ad : AccountData) (requester : string) : delivery :=
  let '(emailResult, box') := email_channel cfg box deliveryMethod requesterEmail ad in
  let '(memoResult, c') := memo_channel cfg c deliveryMethod requester ad in
  let overallSuccess :=
    if strict_eq_str deliveryMethod "both"
    then success emailResult && success memoResult
    else success emailResult || success memoResult in
  mkDelivery emailResult memoResult overallSuccess c' box'.

(** ** Lemmas *)

(** The delivery block never removes an account from the chain. *)
Lemma sendAccountMemo_keeps `{!LedgerLaws C} cfg c r ad x :
  account_exists c x = true -> account_exists (snd (sendAccountMemo cfg c r ad)) x = true.
Proof.
  intros Hx. unfold sendAccountMemo.
  repeat case_match; simpl; try done. eapply transfer_keeps; eauto.
Qed.

Lemma deliver_keeps `{!LedgerLaws C} cfg c box m e ad r x :
  account_exists c x = true -> account_exists (dl_chain (deliver cfg c box m e ad r)) x = true.
Proof.
  intros Hx. unfold deliver.
  destruct (email_channel cfg box m e ad) as [er box'].
  destruct (memo_channel cfg c m r ad) as [mr c'] eqn:Hm. simpl.
  unfold memo_channel in Hm. repeat case_match; simplify_eq; try done.
  pose proof (sendAccountMemo_keeps cfg c r ad x Hx) as Hk. by rewrite Hm in Hk.
Qed.

(** A channel that was not asked for is skipped, so a method other than
    the three the code knows makes both results [ChannelSkipped] and the
    delivery fails without touching the chain or the mailbox. *)
Lemma deliver_unknown_method cfg c box m e ad r :
  strict_eq_str m "email" = false -> strict_eq_str m "hive_memo" = false ->
  strict_eq_str m "both" = false ->
  deliver cfg c box m e ad r = mkDelivery ChannelSkipped ChannelSkipped false c box.
Proof. intros He Hm Hb. unfold deliver, email_channel, memo_channel. by rewrite He, Hm, Hb. Qed.

(** ** Properties *)

(** C10: a memo leaves the faucet only if its encrypted payload contains
    neither the new account's name nor its master password: whenever the
    memo channel reports success, the transfer it broadcast carried an
    encoding of the message in which neither string occurs, sent to the
    requester for the minimum amount. *)
Theorem sendAccountMemo_no_leak cfg c recipient ad id c' :
  sendAccountMemo cfg c recipient ad = (ChannelOk id, c') ->
  exists a enc,
    getAccount c recipient = Ok (Some a) /\
    memo_encode (creatingMemoKey cfg) (acc_memo_key a) (String "#" (memoMessage ad)) = Ok enc /\
    str_includes enc (ad_username ad) = false /\
    str_includes enc (ad_masterPassword ad) = false /\
    transfer c (creatingActiveKey cfg) (creatingAccount cfg) recipient MEMO_MINIMUM enc
      = Ok (c', id).
Proof.
  unfold sendAccountMemo.
  destruct (getAccount c recipient) as [[a|]|e] eqn:Hg; try discriminate.
  destruct (memo_encode _ _ _) as [enc|e] eqn:He; try discriminate.
  destruct (str_includes enc (ad_username ad)) eqn:Hu; [discriminate|].
  destruct (str_includes enc (ad_masterPassword ad)) eqn:Hp; [discriminate|]. simpl.
  destruct (transfer _ _ _ _ _ _) as [[c1 t]|e] eqn:Ht; [|discriminate].
  intros [= -> ->]. exists a, enc. auto.
Qed.

End Channels.

(** A faucet holding 1 HBD and its requester, on the executable chain. *)
Definition memo_cfg : Config := mkConfig "faucet" "5Kfaucet" "5Kmemo" false.
Definition memo_chain : Chain :=
  mkChain {[ "faucet" := mkAccount "faucet" "STMfaucet" 1000;
             "alice" := mkAccount "alice" "STMalice" 0 ]} {[ "faucet" := "5Kfaucet" ]} ∅ 0.
Definition memo_ad : AccountData :=
  mkAccountData "newuser1" "P5Kq3" "o" "a" "p" "m" "tx0" "alice".

Lemma sendAccountMemo_no_leak_witness :
  exists a enc,
    getAccount memo_chain "alice" = Ok (Some a) /\
    memo_encode (creatingMemoKey memo_cfg) (acc_memo_key a) (String "#" (memoMessage memo_ad)) = Ok enc /\
    str_includes enc (ad_username memo_ad) = false /\
    str_includes enc (ad_masterPassword memo_ad) = false /\
    transfer memo_chain (creatingActiveKey memo_cfg) (creatingAccount memo_cfg) "alice" MEMO_MINIMUM enc
      = Ok (snd (sendAccountMemo memo_cfg memo_chain "alice" memo_ad), "tx0").
Proof.
  apply (sendAccountMemo_no_leak memo_cfg memo_chain "alice" memo_ad "tx0"). vm_compute. reflexivity.
Defined.

(** With a codec that leaves the text in clear, the check refuses to send
    and the chain is unchanged. *)
Lemma leaky_codec_refused :
  sendAccountMemo (H1 := LeakyCodec) memo_cfg memo_chain "alice" memo_ad =
    (ChannelFail "Memo encryption failed - security risk detected", memo_chain).
Proof. vm_compute. reflexivity. Qed.

