(* ===== verification/Email.v ===== *)
(** * The mail service ([EmailService]) and the email test script

    - [EmailService] ([src/unnamed/part_001], lines 247-338): the
      constructor and [initializeTransporter] read [EMAIL_USER] and
      [EMAIL_APP_PASSWORD] and build a [nodemailer] transport, which
      makes the service configured; [sendAccountCredentials] mails the
      username and the four private keys, or, when the service is not
      configured, writes the same text to the console; [testConnection]
      asks the transport to verify its login.
    - The monitor's constructor ([blockchain-monitor.js], lines 10-30)
      builds one [EmailService] and reads the operator settings: together
      they are the [Config] of [Delivery] ([monitor_config]).
    - The email test script ([src/unnamed/part_000]): checks that a
      recipient is set, verifies the connection, and mails placeholder
      credentials.

    The process environment is a [gmap] ([Env]); an unset variable and the
    empty string are both falsy.  [nodemailer.createTransport] and
    [transporter.verify] are libraries: their outcome is an argument (a
    value, or the message of what they threw); [transporter.sendMail] is
    the [Mailer] class of [Network].  Console output is a [Logged] program
    of [Console] over the lines below; the emoji of the messages are left
    out. *)

From S2P Require Import Prelude Console Json Network Delivery.

(** ** Environment and console lines *)

Definition Env : Type := gmap string string.

(** [process.env.K], as the string the code sees ([undefined] read as the
    empty string by the code's truthiness tests). *)
Definition env_str (env : Env) (k : string) : string := default "" (env !! k).

(** [!process.env.K] *)
Definition env_unset (env : Env) (k : string) : bool := String.eqb (env_str env k) "".

(** The result objects of [testConnection]:
    [{success, message}] or [{success: false, error}]. *)
Record TestResult : Type := mkTestResult {
  tr_success : bool;
  tr_message : option string;
  tr_error : option string
}.

(** A line on the console: [console.log] or [console.error] of a text,
    and the two objects the test script prints. *)
Inductive line : Type :=
| Out (s : string)
| ErrOut (s : string)
| OutConn (c : TestResult)
| OutResult (r : channel_result).

(** ** [EmailService] *)

(** [this.transporter] (whether it is an object or [null]) and
    [this.isConfigured]. *)
Record EmailServiceState : Type := mkEmailService {
  es_transporter : bool;
  isConfigured : bool
}.

Module EmailService.

(** [initializeTransporter()]; [created] is what [createTransport] did. *)
Definition initializeTransporter (env : Env) (created : result unit) (es : EmailServiceState)
    : Logged line EmailServiceState :=
  if env_unset env "EMAIL_USER" || env_unset env "EMAIL_APP_PASSWORD" then
    tell (Out "Email service not configured - credentials will only be logged") ;;
    mret es
  else
    try_catch
      (_ ← lift created;
       tell (Out "Email service initialized successfully") ;;
       mret (mkEmailService true true))
      (fun e => tell (ErrOut ("Failed to initialize email service: " ++ e)) ;; mret es).

(** [new EmailService()] *)
Definition constructor (env : Env) (created : result unit) : Logged line EmailServiceState :=
  initializeTransporter env created (mkEmailService false false).

Section Send.
Context {M : Type} `{Mailer M}.

(** [sendAccountCredentials(userEmail, accountData)]: the channel result
    and the mailbox. *)
Definition sendAccountCredentials (es : EmailServiceState) (box : M) (userEmail : string)
    (ad : AccountData) : Logged line (channel_result * M) :=
  let text := mail_text ad in
  try_catch
    (if isConfigured es then
       tell (Out ("Sending credentials to: " ++ userEmail)) ;;
       '(box', messageId) ← lift (sendMail box userEmail text);
       tell (Out "Email sent successfully") ;;
       mret (ChannelOk messageId, box')
     else
       tell (Out "Email not configured - logging credentials:") ;;
       tell (Out ("To: " ++ userEmail)) ;;
       tell (Out text) ;;
       mret (ChannelFail "Email not configured", box))
    (fun e => tell (ErrOut ("Failed to send email: " ++ e)) ;; mret (ChannelFail e, box)).

End Send.

(** [testConnection()]; [verified] is what [transporter.verify()] did. *)
Definition testConnection (verified : result unit) (es : EmailServiceState) : Logged line TestResult :=
  if negb (isConfigured es) then
    mret (mkTestResult false (Some "Email service not configured") None)
  else
    try_catch
      (_ ← lift verified;
       tell (Out "Email connection verified") ;;
       mret (mkTestResult true (Some "Connection verified") None))
      (fun e => tell (ErrOut ("Email connection failed: " ++ e)) ;;
                mret (mkTestResult false None (Some e))).

End EmailService.

(** ** The monitor's settings *)

(** The constructor of [BlockchainMonitor], lines 20-30: the operator
    account and keys from the environment, and the [EmailService] it
    builds. *)
Definition monitor_config (env : Env) (es : EmailServiceState) : Config :=
  mkConfig (env_str env "CREATING_ACCOUNT_USERNAME") (env_str env "CREATING_ACCOUNT_ACTIVE_KEY")
    (env_str env "CREATING_ACCOUNT_MEMO_KEY") (isConfigured es).

(** ** The email test script *)

Section TestScript.
Context {M : Type} `{Mailer M}.

(** The [fakeAccount] of the script; it has no master password and no
    transaction id, which the mail does not read. *)
Definition fakeAccount (now : Z) : AccountData :=
  mkAccountData ("sample" ++ js_to_string (JNum now)) ""
    "OWNER_PRIVATE_KEY_PLACEHOLDER" "ACTIVE_PRIVATE_KEY_PLACEHOLDER"
    "POSTING_PRIVATE_KEY_PLACEHOLDER" "MEMO_PRIVATE_KEY_PLACEHOLDER" "" "tester".

(** [run()]: the exit code and the mailbox.  [process.exit(1)] ends the
    process; a [run] that returns lets it exit with [0]. *)
Definition run (env : Env) (created verified : result unit) (now : Z) (box : M)
    : Logged line (Z * M) :=
  let recipient := env_str env "TEST_RECIPIENT_EMAIL" in
  if String.eqb recipient "" then
    tell (ErrOut "TEST_RECIPIENT_EMAIL not set. Aborting.") ;; mret (1%Z, box)
  else
    es ← EmailService.constructor env created;
    tell (Out "Verifying transporter...") ;;
    conn ← EmailService.testConnection verified es;
    tell (OutConn conn) ;;
    if negb (tr_success conn) then mret (0%Z, box)
    else
      tell (Out ("Sending test credentials to " ++ recipient ++ " ...")) ;;
      '(r, box') ← EmailService.sendAccountCredentials es box recipient (fakeAccount now);
      tell (OutResult r) ;;
      mret (0%Z, box').

(** [run().catch(e => { console.error(e); process.exit(1); })] *)
Definition email_test (env : Env) (created verified : result unit) (now : Z) (box : M)
    : Logged line (Z * M) :=
  try_catch (run env created verified now box) (fun e => tell (ErrOut e) ;; mret (1%Z, box)).

End TestScript.

(** ** Lemmas *)

(** The service is configured exactly when both variables are set and
    [createTransport] returned. *)
Lemma constructor_spec env created :
  lg_res (EmailService.constructor env created) =
    Ok (if env_unset env "EMAIL_USER" || env_unset env "EMAIL_APP_PASSWORD" then mkEmailService false false
        else if is_ok created then mkEmailService true true else mkEmailService false false).
Proof.
  unfold EmailService.constructor, EmailService.initializeTransporter.
  destruct (_ || _); [done|]. by destruct created as [[]|].
Qed.

(** The mail text carries the username and the four private keys. *)
Lemma mail_text_keys ad :
  str_includes (mail_text ad) (ad_username ad) = true /\
  str_includes (mail_text ad) (ad_ownerKey ad) = true /\
  str_includes (mail_text ad) (ad_activeKey ad) = true /\
  str_includes (mail_text ad) (ad_postingKey ad) = true /\
  str_includes (mail_text ad) (ad_memoKey ad) = true.
Proof. unfold mail_text. split_and!; str_found. Qed.

Section SendProofs.
Context {M : Type} `{Mailer M}.

(** The logged [sendAccountCredentials] of [EmailService] returns
    what the [sendAccountCredentials] of [Delivery], which the pipeline
    calls, returns, for the [Config] whose [email_configured] is the
    service's [isConfigured]: the console lines are all the
    [Delivery] model leaves out. *)
Theorem sendAccountCredentials_equiv (es : EmailServiceState) (cfg : Config) (box : M) to ad :
  email_configured cfg = isConfigured es ->
  lg_res (EmailService.sendAccountCredentials es box to ad) =
    Ok (Delivery.sendAccountCredentials cfg box to ad).
Proof.
  intros Hc. unfold EmailService.sendAccountCredentials, Delivery.sendAccountCredentials.
  rewrite Hc. destruct (isConfigured es); [|done].
  by destruct (sendMail box to (mail_text ad)) as [[box' id]|e].
Qed.

(** C17: when [EMAIL_USER] or [EMAIL_APP_PASSWORD] is unset, the service
    the constructor builds is not configured, and every
    [sendAccountCredentials] on it reports failure and writes the mail
    text, with the four private keys of the new account, to the console:
    the keys end up in the server's log. *)
Theorem unconfigured_service_logs_keys env created (box : M) to ad :
  env_unset env "EMAIL_USER" = true \/ env_unset env "EMAIL_APP_PASSWORD" = true ->
  exists es, lg_res (EmailService.constructor env created) = Ok es /\ isConfigured es = false /\
    lg_res (EmailService.sendAccountCredentials es box to ad) = Ok (ChannelFail "Email not configured", box) /\
    exists s, In (Out s) (lg_out (EmailService.sendAccountCredentials es box to ad)) /\
      str_includes s (ad_ownerKey ad) = true /\ str_includes s (ad_activeKey ad) = true /\
      str_includes s (ad_postingKey ad) = true /\ str_includes s (ad_memoKey ad) = true.
Proof.
  intros Hu. rewrite constructor_spec.
  assert (Hor : (env_unset env "EMAIL_USER" || env_unset env "EMAIL_APP_PASSWORD") = true)
    by (destruct Hu as [-> | ->]; [done|apply orb_true_r]).
  rewrite Hor. eexists; split_and!; [done|done|done|].
  exists (mail_text ad). destruct (mail_text_keys ad) as (_ & ? & ? & ? & ?).
  split_and!; [|done..]. simpl. tauto.
Qed.

End SendProofs.

(** ** The email test script, on the mailbox of [Network] *)

(** Without [TEST_RECIPIENT_EMAIL] the test script writes its error
    and exits with status 1, before it builds the service or sends
    anything. *)
Theorem email_test_no_recipient env created verified now (box : Outbox) :
  env_unset env "TEST_RECIPIENT_EMAIL" = true ->
  email_test env created verified now box =
    mkLogged [ErrOut "TEST_RECIPIENT_EMAIL not set. Aborting."] (Ok (1%Z, box)).
Proof. unfold env_unset. intros Hu. unfold email_test, run. by rewrite Hu. Qed.

(** With a recipient set, the test script exits with status 0 (its
    [catch] is never reached) and sends exactly one mail, the placeholder
    credentials to the recipient, when the service is configured and the
    transport verifies; otherwise it sends nothing. *)
Theorem email_test_mailbox env created verified now (box : Outbox) :
  env_unset env "TEST_RECIPIENT_EMAIL" = false ->
  lg_res (email_test env created verified now box) =
    Ok (0%Z,
        if negb (env_unset env "EMAIL_USER" || env_unset env "EMAIL_APP_PASSWORD")
           && is_ok created && is_ok verified
        then box ++ [(env_str env "TEST_RECIPIENT_EMAIL", mail_text (fakeAccount now))]
        else box).
Proof.
  unfold env_unset. intros Hr. unfold email_test, run. rewrite Hr.
  pose proof (constructor_spec env created) as Hc. unfold env_unset in Hc.
  destruct (EmailService.constructor env created) as [o [es|e]]; simpl in Hc; [|done].
  injection Hc as ->. logged_simpl.
  destruct (_ || _); simpl; [done|]. destruct created as [[]|]; simpl; [|done].
  destruct verified as [[]|]; simpl; [|done].
  unfold EmailService.sendAccountCredentials. logged_simpl. by rewrite Hr.
Qed.

(** ** Concrete runs *)

Definition env_mail : Env :=
  {[ "EMAIL_USER" := "faucet@example.com"; "EMAIL_APP_PASSWORD" := "app-password";
     "TEST_RECIPIENT_EMAIL" := "ops@example.com" ]}.

Lemma sendAccountCredentials_equiv_witness :
  email_configured (mkConfig "faucet" "" "" true) = isConfigured (mkEmailService true true) /\
  lg_res (EmailService.sendAccountCredentials (mkEmailService true true) ([] : Outbox)
            "ops@example.com" (fakeAccount 5)) =
    Ok (Delivery.sendAccountCredentials (mkConfig "faucet" "" "" true) ([] : Outbox)
          "ops@example.com" (fakeAccount 5)).
Proof. split; [reflexivity|]. apply sendAccountCredentials_equiv. reflexivity. Defined.

Lemma unconfigured_service_logs_keys_witness :
  (env_unset ∅ "EMAIL_USER" = true \/ env_unset ∅ "EMAIL_APP_PASSWORD" = true) /\
  exists es, lg_res (EmailService.constructor ∅ (Ok tt)) = Ok es /\ isConfigured es = false /\
    lg_res (EmailService.sendAccountCredentials es ([] : Outbox) "ops@example.com" (fakeAccount 5)) =
      Ok (ChannelFail "Email not configured", []) /\
    exists s, In (Out s) (lg_out (EmailService.sendAccountCredentials es ([] : Outbox)
                                    "ops@example.com" (fakeAccount 5))) /\
      str_includes s (ad_ownerKey (fakeAccount 5)) = true /\
      str_includes s (ad_activeKey (fakeAccount 5)) = true /\
      str_includes s (ad_postingKey (fakeAccount 5)) = true /\
      str_includes s (ad_memoKey (fakeAccount 5)) = true.
Proof. split; [left; reflexivity|]. apply unconfigured_service_logs_keys. left. reflexivity. Defined.

Lemma email_test_no_recipient_witness :
  env_unset ∅ "TEST_RECIPIENT_EMAIL" = true /\
  email_test ∅ (Ok tt) (Ok tt) 5 ([] : Outbox) =
    mkLogged [ErrOut "TEST_RECIPIENT_EMAIL not set. Aborting."] (Ok (1%Z, [])).
Proof. split; [reflexivity|]. apply email_test_no_recipient. reflexivity. Defined.

Lemma email_test_mailbox_witness :
  env_unset env_mail "TEST_RECIPIENT_EMAIL" = false /\
  lg_res (email_test env_mail (Ok tt) (Ok tt) 5 ([] : Outbox)) =
    Ok (0%Z,
        if negb (env_unset env_mail "EMAIL_USER" || env_unset env_mail "EMAIL_APP_PASSWORD")
           && is_ok (Ok tt) && is_ok (Ok tt)
        then [] ++ [(env_str env_mail "TEST_RECIPIENT_EMAIL", mail_text (fakeAccount 5))]
        else []).
Proof. split; [reflexivity|]. apply email_test_mailbox. reflexivity. Defined.
