(* ===== verification/ActChecker.v ===== *)
(** * The Account Creation Token checker script

    [src/unnamed/part_001], lines 339-425: a stand-alone script that asks
    the Hive node for the faucet account ([CREATING_ACCOUNT_USERNAME], or
    [thelittlebank]) and prints its pending Account Creation Tokens, its
    balances and details, and a verdict: whether the account can create
    accounts.  Its only effects are the lines it prints and its exit
    status, so it is modelled as a [Logged] program of [Console].

    The node's answer to [client.database.getAccounts([username])] is an
    argument: the parsed JSON it returned, or the message of the error it
    threw.  Each line is the text of the template literal without its
    emoji; the voting-power line, which prints [voting_power / 100] as a
    JavaScript number, is kept as the value it shows. *)

From S2P Require Import Prelude Console Json UserManager Validation Admin Network Delivery Email.

(** ** JavaScript access to the reply *)

(** [v.length]: the length of an array or string, else the property. *)
Definition length_of (v : jsv) : result jsv :=
  match v with
  | Val (JArr l) => Ok (Val (JNum (Z.of_nat (length l))))
  | Val (JStr s) => Ok (Val (JNum (Z.of_nat (String.length s))))
  | _ => member v "length"
  end.

(** [v[0]] *)
Definition index0 (v : jsv) : result jsv :=
  match v with
  | Val (JArr (x :: _)) => Ok (Val x)
  | Val (JArr []) => Ok Undef
  | Val (JStr (String c _)) => Ok (Val (JStr (String c EmptyString)))
  | Val (JStr EmptyString) => Ok Undef
  | _ => member v "0"
  end.

(** [v === 0] *)
Definition is_zero (v : jsv) : bool :=
  match v with Val (JNum n) => Z.eqb n 0 | _ => false end.

(** [v || 0] *)
Definition or_zero (v : jsv) : jsv := if truthy v then v else Val (JNum 0).

(** [parseInt(v) || 0]: [parseInt] reads [String(v)]; [NaN] and [0] give
    [0]. *)
Definition parseInt_or_zero (v : jsv) : Z := default 0%Z (parseInt (jsv_to_string v)).

(** ['=' .repeat(n)] *)
Definition rule (n : nat) : string := string_of_list_ascii (repeat "="%char n).

Definition num (n : Z) : string := js_to_string (JNum n).

(** ** The script *)

Inductive act_line : Type :=
| Log (s : string)
| LogErr (s : string)
| LogVotingPower (v : jsv).

(** [console.log(`label: ${account.key}`)] *)
Definition show_field (account : jsv) (label key : string) : Logged act_line unit :=
  v ← lift (member account key); tell (Log (label ++ ": " ++ jsv_to_string v)).

Definition success_line (username : string) (n : Z) : string :=
  "SUCCESS: @" ++ username ++ " has " ++ num n ++ " Account Creation Tokens!".

Definition warning_line (username : string) : string :=
  "WARNING: @" ++ username ++ " has no Account Creation Tokens!".

(** [checkAccountCreationTokens(username)]; [reply] is the outcome of
    [getAccounts]. *)
Definition checkAccountCreationTokens (username : string) (reply : result json)
    : Logged act_line unit :=
  try_catch
    (tell (Log ("Checking Account Creation Tokens for @" ++ username ++ "...")) ;;
     tell (Log "") ;;
     accounts ← lift reply;
     len ← lift (length_of (Val accounts));
     if is_zero len then tell (Log ("Account @" ++ username ++ " not found!"))
     else
       account ← lift (index0 (Val accounts));
       tell (Log "ACCOUNT CREATION TOKEN STATUS:") ;;
       tell (Log (rule 50)) ;;
       tell (Log ("Account: @" ++ username)) ;;
       pca ← lift (member account "pending_claimed_accounts");
       tell (Log ("Pending ACTs: " ++ jsv_to_string (or_zero pca))) ;;
       canVote ← lift (member account "can_vote");
       tell (Log ("Can claim free account: " ++ if truthy canVote then "Yes" else "No")) ;;
       tell (Log "") ;;
       tell (Log "ACCOUNT BALANCES:") ;;
       tell (Log (rule 50)) ;;
       show_field account "HIVE" "balance" ;;
       show_field account "HBD" "hbd_balance" ;;
       show_field account "Hive Power" "vesting_shares" ;;
       tell (Log "") ;;
       tell (Log "ACCOUNT DETAILS:") ;;
       tell (Log (rule 50)) ;;
       show_field account "Created" "created" ;;
       vp ← lift (member account "voting_power");
       tell (LogVotingPower vp) ;;
       show_field account "Reputation" "reputation" ;;
       tell (Log "") ;;
       pca' ← lift (member account "pending_claimed_accounts");
       let pendingACTs := parseInt_or_zero pca' in
       if (0 <? pendingACTs)%Z then
         tell (Log (success_line username pendingACTs)) ;;
         tell (Log ("Ready to create " ++ num pendingACTs ++ " new accounts!"))
       else
         tell (Log (warning_line username)) ;;
         tell (Log "To get ACTs: Need to claim them or receive delegation"))
    (fun e => tell (LogErr ("Error checking account: " ++ e))).

(** [process.env.CREATING_ACCOUNT_USERNAME || 'thelittlebank'] *)
Definition accountToCheck (env : Env) : string :=
  if env_unset env "CREATING_ACCOUNT_USERNAME" then "thelittlebank"
  else env_str env "CREATING_ACCOUNT_USERNAME".

(** [main()]: its exit status. *)
Definition main (env : Env) (reply : result json) : Logged act_line Z :=
  tell (Log "HIVE ACCOUNT CREATION TOKEN CHECKER") ;;
  tell (Log (rule 60)) ;;
  tell (Log "") ;;
  checkAccountCreationTokens (accountToCheck env) reply ;;
  tell (Log "") ;;
  tell (Log "Check complete!") ;;
  mret 0%Z.

(** [main().catch(error => { console.error(...); process.exit(1); })] *)
Definition act_script (env : Env) (reply : result json) : Logged act_line Z :=
  try_catch (main env reply) (fun e => tell (LogErr ("Script failed: " ++ e)) ;; mret 1%Z).

(** ** Lemmas *)

(** The checker catches everything its body throws. *)
Lemma checkAccountCreationTokens_returns u reply :
  lg_res (checkAccountCreationTokens u reply) = Ok tt.
Proof.
  unfold checkAccountCreationTokens. rewrite lg_res_try_catch.
  by destruct (lg_res _) as [[]|].
Qed.

(** What [main] prints: its banner, the checker's lines, its closing
    lines. *)
Lemma act_script_out env reply :
  act_script env reply =
    mkLogged ([Log "HIVE ACCOUNT CREATION TOKEN CHECKER"; Log (rule 60); Log ""] ++
              lg_out (checkAccountCreationTokens (accountToCheck env) reply) ++
              [Log ""; Log "Check complete!"]) (Ok 0%Z).
Proof.
  unfold act_script, main. pose proof (checkAccountCreationTokens_returns (accountToCheck env) reply) as Hr.
  destruct (checkAccountCreationTokens _ _) as [o r]. simpl in Hr. subst r. logged_simpl.
  f_equal.
Qed.

(** [parseInt(n) || 0] of a number is the number. *)
Lemma parseInt_or_zero_num n : parseInt_or_zero (Val (JNum n)) = n.
Proof.
  unfold parseInt_or_zero. cbn [jsv_to_string].
  destruct n as [|p|p]; [reflexivity|..]; destruct (parseInt_String_pos p) as [Hp Hn];
    by rewrite ?Hp, ?Hn.
Qed.

(** A disjunct of a computed [In]. *)
Ltac in_list := solve [simpl; repeat first [left; reflexivity | right]].

(** ** Properties *)

(** C37: the script always exits with status 0: [checkAccountCreationTokens]
    catches every error, so the [catch] of [main] that would exit with 1
    is never reached; a node that fails or an account that cannot be read
    is only reported on the console. *)
Theorem act_script_exits_zero env reply :
  lg_res (act_script env reply) = Ok 0%Z /\
  forall e, reply = Err e ->
    In (LogErr ("Error checking account: " ++ e)) (lg_out (act_script env reply)).
Proof.
  rewrite act_script_out. split; [done|]. intros e ->. in_list.
Qed.

(** On an answer whose first account has [pending_claimed_accounts]
    equal to the number [n], the verdict is the node's figure, read back by
    [parseInt]: ["SUCCESS: ... has n Account Creation Tokens!"] when
    [n > 0], the warning otherwise. *)
Theorem act_checker_verdict env fs rest n :
  assoc_last "pending_claimed_accounts" fs = Some (JNum n) ->
  let out := lg_out (act_script env (Ok (JArr (JObj fs :: rest)))) in
  ((0 < n)%Z -> In (Log (success_line (accountToCheck env) n)) out) /\
  ((n <= 0)%Z -> In (Log (warning_line (accountToCheck env))) out).
Proof.
  intros Hp. rewrite act_script_out. unfold checkAccountCreationTokens, show_field.
  cbn -[member parseInt_or_zero]. rewrite !member_obj, Hp, parseInt_or_zero_num. logged_simpl.
  destruct (Z.ltb_spec 0 n); simpl; split; intros; (in_list || lia).
Qed.

(** ** Concrete runs *)

Definition account0 : list (string * json) :=
  [("name", JStr "thelittlebank"); ("pending_claimed_accounts", JNum 12); ("can_vote", JBool true);
   ("balance", JStr "1.000 HIVE"); ("voting_power", JNum 9850)].

Lemma act_script_exits_zero_witness :
  lg_res (act_script ∅ (Err "timeout")) = Ok 0%Z /\
  (forall e, (Err "timeout" : result json) = Err e ->
     In (LogErr ("Error checking account: " ++ e)) (lg_out (act_script ∅ (Err "timeout")))).
Proof. apply act_script_exits_zero. Defined.

Lemma act_checker_verdict_witness :
  assoc_last "pending_claimed_accounts" account0 = Some (JNum 12) /\
  ((0 < 12)%Z -> In (Log (success_line (accountToCheck ∅) 12))
                    (lg_out (act_script ∅ (Ok (JArr [JObj account0]))))) /\
  ((12 <= 0)%Z -> In (Log (warning_line (accountToCheck ∅)))
                     (lg_out (act_script ∅ (Ok (JArr [JObj account0]))))).
Proof. split; [reflexivity|]. apply (act_checker_verdict ∅ account0 [] 12). reflexivity. Defined.
