(* ===== verification/Pipeline.v ===== *)
(** * The request pipeline of the monitor

    [src/backend/services/blockchain-monitor.js]:
    - [checkUsernameAvailability] and [createHiveAccount] (lines 593-671);
    - [processAccountRequest] (lines 294-444): authorization, password and
      keys, account creation, the recovery record written before delivery,
      delivery, and on overall success [useToken] then [removePending];
    - [processCustomJson] (lines 206-240) and [processBlock]
      (lines 186-201): which operations of a block reach the pipeline, in
      which order;
    - how the requests the [app.js] page ([App]) hands the extension
      arrive at [processAccountRequest].

    The state the pipeline changes is a [World]: the quota file, the
    recovery file, the chain and the mailbox. The random bytes of each
    password and the clock are arguments; [JSON.parse] is the parameter
    [JSON_parse] (a library function the code calls). *)

From S2P Require Import Prelude Json UserManager PendingStore Credentials App Network Delivery.

Section Pipeline.
Context {C M : Type} `{Ledger C} `{Mailer M} `{MemoCodec} `{KeyDerivation}.

(** ** State and data *)

Record World : Type := mkWorld {
  w_users : store Db;
  w_pending : PendingFile;
  w_chain : C;
  w_mail : M
}.

(** The fields of the [request] object [processAccountRequest] reads:
    [request.data.requested_username], [request.data.delivery_method],
    [request.requester], [blockNumber], [transactionId]. *)
Record Request : Type := mkRequest {
  rq_username : string;
  rq_method : jsv;
  rq_requester : string;
  rq_block : Z;
  rq_tx : string
}.

(** How [processAccountRequest] ends: rejected at authorization, account
    creation failed, delivered (with the result of [useToken]), or
    delivery failed with the credentials left in the recovery store. *)
Inductive Outcome : Type :=
| Rejected (reason : string)
| ProvisionFailed (error : string)
| Fulfilled (tokenUsed : bool) (email memo : channel_result)
| Stranded (email memo : channel_result).

(** ** Account creation *)

(** [checkUsernameAvailability(username)]: available only when the lookup
    succeeds and finds nothing; a failed lookup counts as taken. *)
Definition checkUsernameAvailability (c : C) (username : string) : bool :=
  match getAccount c username with
  | Ok None => true
  | _ => false
  end.

(** [createHiveAccount(username, keys, creatorAccount, creatorActiveKey)] *)
Definition createHiveAccount (cfg : Config) (c : C) (username : string) (keys : AccountKeys)
    : result (C * string) :=
  if negb (checkUsernameAvailability c username) then
    Err ("Username @" ++ username ++ " is already taken")%string
  else
    createClaimedAccount c (creatingAccount cfg) (creatingActiveKey cfg) username
      (ownerPublic keys) (activePublic keys) (postingPublic keys) (memoPublic keys).

(** [generateAccountKeys(request.data.requested_username, masterPassword)]
    for the password drawn from [bytes]. *)
Definition keys_of (req : Request) (bytes : list Byte.byte) : AccountKeys :=
  generateAccountKeys (rq_username req) (generateMasterPassword bytes).

(** The [accountData] object (lines 352-361). *)
Definition account_data (req : Request) (bytes : list Byte.byte) (txid : string) : AccountData :=
  let keys := keys_of req bytes in
  mkAccountData (rq_username req) (ak_masterPassword keys) (ownerKey keys) (activeKey keys)
    (postingKey keys) (memoKey keys) txid (rq_requester req).

(** The record passed to [addPending] (lines 364-374). *)
Definition pending_record (now : Z) (ad : AccountData) : PendingRecord :=
  mkPending (ad_username ad) now (ad_requester ad) (ad_masterPassword ad) (ad_ownerKey ad)
    (ad_activeKey ad) (ad_postingKey ad) (ad_memoKey ad) (ad_transactionId ad).

(** ** The request handler *)

Definition processAccountRequest (cfg : Config) (now : Z) (bytes : list Byte.byte)
    (req : Request) (w : World) : Outcome * World :=
  match checkAuthorization (w_users w) (rq_requester req) with
  | NotAuthorized reason _ => (Rejected reason, w)
  | Authorized u =>
      match createHiveAccount cfg (w_chain w) (rq_username req) (keys_of req bytes) with
      | Err e => (ProvisionFailed e, w)
      | Ok (c1, txid) =>
          let ad := account_data req bytes txid in
          let pending1 := addPending (pending_record now ad) (w_pending w) in
          let d := deliver cfg c1 (w_mail w) (rq_method req) (email u) ad (rq_requester req) in
          if overallSuccess d then
            let '(tokenUsed, users') := useToken now (rq_requester req) (w_users w) in
            (Fulfilled tokenUsed (emailResult d) (memoResult d),
             mkWorld users' (removePending (ad_username ad) pending1) (dl_chain d) (dl_mail d))
          else
            (Stranded (emailResult d) (memoResult d),
             mkWorld (w_users w) pending1 (dl_chain d) (dl_mail d))
      end
  end.

(** ** From operations to requests *)

(** The payload of a [custom_json] operation. *)
Record CustomJsonOp : Type := mkCustomJson {
  cj_id : string;
  cj_json : string;
  required_posting_auths : list string;
  required_auths : list string
}.

(** [required_posting_auths[0] || required_auths[0]]; a missing value is
    [undefined], which the quota lookup turns into the key ["undefined"]. *)
Definition requester_of (op : CustomJsonOp) : string :=
  let fallback := match required_auths op with a :: _ => a | [] => "undefined" end in
  match required_posting_auths op with
  | a :: _ => if String.eqb a "" then fallback else a
  | [] => fallback
  end%string.

Context (JSON_parse : string -> result json).

(** The two fields of [request.data] the handler reads; a non-string
    username is turned into a string as the template strings and the
    JSON-RPC encoding of the code do ([String(v)]). *)
Definition request_of (data : json) (requester : string) (blockNumber : Z) (txid : string)
    : Request :=
  let d := match member (Val data) "data" with Ok v => v | Err _ => Undef end in
  let u := match member d "requested_username" with Ok (Val j) => js_to_string j | _ => "" end in
  let m := match member d "delivery_method" with Ok v => v | Err _ => Undef end in
  mkRequest u m requester blockNumber txid.

(** [processCustomJson(operation, blockNumber, transactionId)]: [None] when
    the operation is ignored, does not parse, or fails validation (all
    caught and logged). *)
Definition processCustomJson (cfg : Config) (now : Z) (bytes : list Byte.byte)
    (op : CustomJsonOp) (blockNumber : Z) (txid : string) (w : World)
    : option Outcome * World :=
  if negb (String.eqb (cj_id op) FAUCET_ID) then (None, w)
  else
    match JSON_parse (cj_json op) with
    | Err _ => (None, w)
    | Ok requestData =>
        match validateRequest (Val requestData) with
        | Ok true =>
            let '(o, w') := processAccountRequest cfg now bytes
                              (request_of requestData (requester_of op) blockNumber txid) w in
            (Some o, w')
        | _ => (None, w)
        end
    end.

(** An operation of a transaction: [['custom_json', {...}]] or any other. *)
Inductive Operation : Type :=
| OpCustomJson (c : CustomJsonOp)
| OpOther (name : string).

Record Transaction : Type := mkTransaction {
  transaction_id : string;
  operations : list Operation
}.

(** The random bytes drawn for the [k]-th operation of block [n]. *)
Context (randomBytes : Z -> nat -> list Byte.byte).

(** The inner loop of [processBlock] over the operations of one
    transaction; [k] numbers the operations of the block. *)
Fixpoint process_ops (cfg : Config) (now : Z) (blockNumber : Z) (txid : string) (k : nat)
    (ops : list Operation) (w : World) : list Outcome * World * nat :=
  match ops with
  | [] => ([], w, k)
  | OpCustomJson c :: t =>
      let '(o, w1) := processCustomJson cfg now (randomBytes blockNumber k) c blockNumber txid w in
      let '(os, w2, k') := process_ops cfg now blockNumber txid (S k) t w1 in
      (match o with Some o => o :: os | None => os end, w2, k')
  | OpOther _ :: t => process_ops cfg now blockNumber txid (S k) t w
  end.

Fixpoint process_txs (cfg : Config) (now : Z) (blockNumber : Z) (k : nat)
    (txs : list Transaction) (w : World) : list Outcome * World :=
  match txs with
  | [] => ([], w)
  | tx :: t =>
      let '(os1, w1, k') := process_ops cfg now blockNumber (transaction_id tx) k (operations tx) w in
      let '(os2, w2) := process_txs cfg now blockNumber k' t w1 in
      (os1 ++ os2, w2)
  end.

(** [processBlock(block, blockNumber)]: transactions in block order,
    operations in transaction order. *)
Definition processBlock (cfg : Config) (now : Z) (txs : list Transaction) (blockNumber : Z)
    (w : World) : list Outcome * World :=
  match txs with
  | [] => ([], w)
  | _ => process_txs cfg now blockNumber 0 txs w
  end.

(** ** The shape of a run of [processAccountRequest] *)

(** Every run ends in one of four ways, with the world the code leaves. *)
Lemma processAccountRequest_inv cfg now bytes req w o w' :
  processAccountRequest cfg now bytes req w = (o, w') ->
  (exists reason usage, checkAuthorization (w_users w) (rq_requester req) = NotAuthorized reason usage /\
     o = Rejected reason /\ w' = w) \/
  (exists u, checkAuthorization (w_users w) (rq_requester req) = Authorized u /\
   ((exists e, createHiveAccount cfg (w_chain w) (rq_username req) (keys_of req bytes) = Err e /\
      o = ProvisionFailed e /\ w' = w) \/
    (exists c1 txid, createHiveAccount cfg (w_chain w) (rq_username req) (keys_of req bytes) = Ok (c1, txid) /\
      let ad := account_data req bytes txid in
      let pending1 := addPending (pending_record now ad) (w_pending w) in
      let d := deliver cfg c1 (w_mail w) (rq_method req) (email u) ad (rq_requester req) in
      ((overallSuccess d = true /\
        o = Fulfilled (fst (useToken now (rq_requester req) (w_users w))) (emailResult d) (memoResult d) /\
        w' = mkWorld (snd (useToken now (rq_requester req) (w_users w)))
               (removePending (rq_username req) pending1) (dl_chain d) (dl_mail d)) \/
       (overallSuccess d = false /\ o = Stranded (emailResult d) (memoResult d) /\
        w' = mkWorld (w_users w) pending1 (dl_chain d) (dl_mail d)))))).
Proof.
  unfold processAccountRequest. intros Hrun.
  destruct (checkAuthorization (w_users w) (rq_requester req)) as [u|reason usage] eqn:Ha.
  2: { injection Hrun as <- <-. left. eauto. }
  right. exists u. split; [done|].
  destruct (createHiveAccount _ _ _ _) as [[c1 txid]|e] eqn:Hc.
  2: { injection Hrun as <- <-. left. eauto. }
  right. exists c1, txid. split; [done|]. cbv zeta in Hrun |- *.
  set (d := deliver cfg c1 (w_mail w) (rq_method req) (email u) (account_data req bytes txid)
              (rq_requester req)) in *.
  destruct (overallSuccess d) eqn:Hs.
  - case_eq (useToken now (rq_requester req) (w_users w)). intros tk users' Hu.
    rewrite Hu in Hrun. injection Hrun as <- <-. left. simpl. auto.
  - injection Hrun as <- <-. right. auto.
Qed.

(** A successful creation needs the name to be free. *)
Lemma createHiveAccount_ok cfg c n keys c1 txid :
  createHiveAccount cfg c n keys = Ok (c1, txid) -> getAccount c n = Ok None.
Proof.
  unfold createHiveAccount, checkUsernameAvailability.
  destruct (getAccount c n) as [[a|]|e]; simpl; done.
Qed.

(** ** Properties *)

(** C1: when delivery fails after the account was created, the requester
    is not charged (the quota file is untouched) and the recovery store
    holds, after everything it held before, a record with the account's
    name, master password, four private keys and creation transaction. *)
Theorem stranded_keeps_credentials cfg now bytes req w er mr w' :
  processAccountRequest cfg now bytes req w = (Stranded er mr, w') ->
  st_writable (w_pending w) = true ->
  w_users w' = w_users w /\
  exists txid, loadPending (w_pending w') =
    loadPending (w_pending w) ++ [pending_record now (account_data req bytes txid)].
Proof.
  intros Hrun Hw. apply processAccountRequest_inv in Hrun
    as [(?&?&?&?&?)|(u&_&[(?&?&?&?)|(c1&txid&_&[(?&?&?)|(_&_&->)])])]; try done.
  split; [done|]. exists txid. simpl. by apply addPending_appends.
Qed.

(** C11: on a full disk the recovery store destroys what it is there
    to keep: when the write of the recovery file fails after Node
    truncated it and delivery then fails, the account has been created on
    the chain, no token is charged, and the recovery file holds no record
    at all, neither the new account's keys nor any stranded before. *)
Theorem stranded_disk_full_loses_credentials cfg now bytes req w er mr w' :
  processAccountRequest cfg now bytes req w = (Stranded er mr, w') ->
  st_write (w_pending w) = WriteFails ->
  (exists c1 txid,
     createHiveAccount cfg (w_chain w) (rq_username req) (keys_of req bytes) = Ok (c1, txid)) /\
  w_users w' = w_users w /\ loadPending (w_pending w') = [].
Proof.
  intros Hrun Hm. apply processAccountRequest_inv in Hrun
    as [(?&?&?&?&?)|(u&_&[(?&?&?&?)|(c1&txid&Hc&[(?&?&?)|(_&_&->)])])]; try done.
  split_and!; [eauto|done|]. simpl. by rewrite addPending_write_fails.
Qed.

(** C7: a request that is rejected at authorization or whose account
    creation fails leaves the whole world as it was: no token charged, no
    recovery record, no chain operation, no mail. *)
Theorem no_account_no_effect cfg now bytes req w o w' :
  processAccountRequest cfg now bytes req w = (o, w') ->
  (exists r, o = Rejected r) \/ (exists e, o = ProvisionFailed e) ->
  w' = w.
Proof.
  intros Hrun Ho. apply processAccountRequest_inv in Hrun
    as [(?&?&?&?&?)|(u&_&[(?&?&?&?)|(c1&txid&_&[(?&->&?)|(?&->&?)])])]; try done;
    destruct Ho as [[? ?]|[? ?]]; discriminate.
Qed.

(** C8: the quota file changes only on a fulfilled request, and then by
    exactly one [useToken] of the requester: a request is never charged
    twice, and never charged when delivery failed. *)
Theorem quota_changes_only_by_one_useToken cfg now bytes req w o w' :
  processAccountRequest cfg now bytes req w = (o, w') ->
  w_users w' = w_users w \/
  (exists er mr, o = Fulfilled (fst (useToken now (rq_requester req) (w_users w))) er mr /\
     w_users w' = snd (useToken now (rq_requester req) (w_users w))).
Proof.
  intros Hrun. apply processAccountRequest_inv in Hrun
    as [(?&?&?&?&->)|(u&_&[(?&?&?&->)|(c1&txid&_&[(?&->&->)|(?&?&->)])])]; auto.
  right. eauto.
Qed.

(** C9: a delivered request whose requester still has a token and whose
    files are writable is charged exactly one token, and the recovery
    store no longer holds any record of the new account. *)
Theorem fulfilled_charges_and_clears cfg now bytes req w tk er mr w' d u :
  processAccountRequest cfg now bytes req w = (Fulfilled tk er mr, w') ->
  loadData (w_users w) = Some d -> authorized_users d !! rq_requester req = Some u ->
  st_writable (w_users w) = true -> st_writable (w_pending w) = true ->
  tk = true /\
  (exists d', w_users w' = mkStore (FPresent d') WriteOk /\
     authorized_users d' !! rq_requester req = Some (charge now u)) /\
  (forall r, In r (loadPending (w_pending w')) -> pr_username r <> rq_username req).
Proof.
  intros Hrun Hd Hu Hwu Hwp. apply processAccountRequest_inv in Hrun
    as [(?&?&?&?&?)|(u0&Ha&[(?&?&?&?)|(c1&txid&_&[(_&Ho&->)|(?&?&?)])])]; try done.
  assert (0 < tokens_remaining u)%Z as Hpos.
  { unfold checkAuthorization in Ha. rewrite Hd, Hu in Ha.
    destruct (is_active u); [|done]. simpl in Ha.
    destruct (Z.leb_spec (tokens_remaining u) 0); [done|lia]. }
  rewrite (useToken_write now _ _ _ _ Hd Hu Hpos Hwu) in Ho |- *. simplify_eq/=.
  split_and!; [done|eexists; split; [reflexivity|]; apply lookup_insert_eq|].
  intros r Hr. unfold removePending in Hr.
  rewrite loadPending_save in Hr by (unfold addPending; by rewrite savePending_writable).
  by apply in_filter_username in Hr as [_ ?].
Qed.

(** For the method ["both"], a single successful channel is not
    enough: the request ends stranded, uncharged, with its credentials in
    the recovery store. *)
Theorem both_needs_both cfg now bytes req w o w' u c1 txid :
  processAccountRequest cfg now bytes req w = (o, w') ->
  rq_method req = Val (JStr "both") ->
  checkAuthorization (w_users w) (rq_requester req) = Authorized u ->
  createHiveAccount cfg (w_chain w) (rq_username req) (keys_of req bytes) = Ok (c1, txid) ->
  let d := deliver cfg c1 (w_mail w) (rq_method req) (email u)
             (account_data req bytes txid) (rq_requester req) in
  success (emailResult d) <> success (memoResult d) ->
  o = Stranded (emailResult d) (memoResult d) /\ w_users w' = w_users w /\
  w_pending w' = addPending (pending_record now (account_data req bytes txid)) (w_pending w).
Proof.
  intros Hrun Hm Ha Hc d Hne.
  assert (overallSuccess d = false) as Hs.
  { revert Hne. subst d. unfold deliver. rewrite Hm.
    destruct (email_channel _ _ _ _ _) as [er box'], (memo_channel _ _ _ _ _) as [mr c']. simpl.
    destruct (success er), (success mr); simpl; congruence. }
  subst d. apply processAccountRequest_inv in Hrun
    as [(?&?&Ha'&?&?)|(u0&Ha'&[(?&Hc'&?&?)|(c2&txid2&Hc'&[(Hs'&?&?)|(?&->&->)])])];
    rewrite Ha in Ha'; simplify_eq; rewrite ?Hc in Hc'; simplify_eq; try congruence.
  split_and!; reflexivity.
Qed.

(** C24: replaying a request whose account already exists on the chain
    (as after a restart from an older persisted block height) changes
    nothing: the name check rejects it before any password is used, any
    token is charged or any recovery record is written. *)
Theorem replay_existing_account_no_effect `{!LedgerLaws C} cfg now bytes req w o w' :
  account_exists (w_chain w) (rq_username req) = true ->
  processAccountRequest cfg now bytes req w = (o, w') ->
  w' = w /\ ((exists r, o = Rejected r) \/ (exists e, o = ProvisionFailed e)).
Proof.
  intros Hex Hrun. apply processAccountRequest_inv in Hrun
    as [(r&?&?&->&->)|(u&_&[(e&?&->&->)|(c1&txid&Hc&_)])]; eauto.
  apply createHiveAccount_ok, getAccount_none in Hc. congruence.
Qed.

(** C25: a validated request whose delivery method is not one the code
    knows (validation only asks it to be truthy) still gets its account
    created, with neither channel attempted: it always ends stranded and
    uncharged, so the requester's tokens do not bound the number of
    accounts created for them. *)
Theorem unknown_method_creates_uncharged `{!LedgerLaws C} cfg now bytes req w u c1 txid :
  strict_eq_str (rq_method req) "email" = false ->
  strict_eq_str (rq_method req) "hive_memo" = false ->
  strict_eq_str (rq_method req) "both" = false ->
  checkAuthorization (w_users w) (rq_requester req) = Authorized u ->
  createHiveAccount cfg (w_chain w) (rq_username req) (keys_of req bytes) = Ok (c1, txid) ->
  processAccountRequest cfg now bytes req w =
    (Stranded ChannelSkipped ChannelSkipped,
     mkWorld (w_users w) (addPending (pending_record now (account_data req bytes txid)) (w_pending w))
       c1 (w_mail w)) /\
  account_exists c1 (rq_username req) = true.
Proof.
  intros He Hm Hb Ha Hc. split.
  - unfold processAccountRequest. rewrite Ha, Hc. simpl.
    by rewrite deliver_unknown_method.
  - unfold createHiveAccount in Hc. destruct (negb _); [done|].
    by apply create_fresh in Hc as [_ ?].
Qed.

(** The request the handler reads from a payload of the request page. *)
Lemma request_of_appCustomJson a u m e n ts requester blockNumber txid :
  request_of (appCustomJson a u m e n ts) requester blockNumber txid =
    mkRequest u (Val (JStr m)) requester blockNumber txid.
Proof. reflexivity. Qed.

(** C14: the request page and the monitor compose: under any events of
    the [app.js] page, every account request it hands the extension is,
    once the monitor reads it back from the [custom_json] operation that
    carries it, accepted by [processCustomJson] and handed to
    [processAccountRequest] for the name and delivery method of the form,
    the name non-empty. *)
Theorem app_requests_reach_pipeline stored defaults es i a id t p ti cfg now bytes op blockNumber txid w :
  pending (app_run (initialApp stored defaults) es) !! i = Some (CustomJsonReq a id t p ti) ->
  cj_id op = id -> JSON_parse (cj_json op) = Ok p ->
  exists u m e n ts, p = appCustomJson a u m e n ts /\ u <> ""%string /\
    processCustomJson cfg now bytes op blockNumber txid w =
      (let r := processAccountRequest cfg now bytes
                  (mkRequest u (Val (JStr m)) (requester_of op) blockNumber txid) w in
       (Some (fst r), snd r)).
Proof.
  intros Hi Hid Hp.
  pose proof (Forall_lookup_1 _ _ _ _ (app_run_requests_ok (initialApp stored defaults) es (Forall_nil_2 _)) Hi)
    as (-> & _ & u & m & e & n & ts & -> & Hu & Hm).
  exists u, m, e, n, ts. split_and!; [done|done|].
  unfold processCustomJson. rewrite Hid, String.eqb_refl, Hp. simpl negb. cbv zeta.
  rewrite app_request_accepted by done. rewrite request_of_appCustomJson.
  by destruct (processAccountRequest _ _ _ _ _).
Qed.

End Pipeline.

(** ** Concrete runs on the executable models of [Network] *)

(** A stand-in for the dhive key derivation: the seed behind a prefix. *)
Definition toy_keys : KeyDerivation :=
  {| fromSeed_wif s := ("5K" ++ s)%string; fromSeed_public s := ("STM" ++ s)%string |}.
#[local] Existing Instance toy_keys.

Definition cfg0 : Config := mkConfig "faucet" "5Kfaucet" "5Kmemo" true.

Definition chain0 : Chain :=
  mkChain {[ "faucet" := mkAccount "faucet" "STMfaucet" 1000;
             "alice" := mkAccount "alice" "STMalice" 0;
             "bob" := mkAccount "bob" "STMbob" 0 ]}
          {[ "faucet" := "5Kfaucet" ]} {[ "faucet" := 5%Z ]} 0.

(** [alice] has one token and a registered email; [bob] has two tokens and
    no email. *)
Definition users0 : store Db :=
  mkStore (FPresent (mkDb {[ "alice" := mkUser 1 0 1 (Some "alice@example.com") 0 None true "";
                              "bob" := mkUser 2 0 2 None 0 None true "" ]}
                          (mkMeta 0 0 2 3 0))) WriteOk.

Definition world0 : World (C:=Chain) (M:=Outbox) :=
  mkWorld users0 (mkStore (FPresent []) WriteOk) chain0 [].

Definition bytes0 : list Byte.byte := repeat Byte.x2a 32.

Definition req_of (user method requester : string) : Request :=
  mkRequest user (Val (JStr method)) requester 100 "T".

(** Spec scenario 1: [alice] asks for [newuser1] by email. *)
Definition run1 := processAccountRequest cfg0 5 bytes0 (req_of "newuser1" "email" "alice") world0.
(** Spec scenario 2: the same requester, now without tokens. *)
Definition run2 := processAccountRequest cfg0 6 bytes0 (req_of "newuser2" "email" "alice") (snd run1).
(** Spec scenario 3: [bob] (no email) asks for [newuser3] by email. *)
Definition run3 := processAccountRequest cfg0 7 bytes0 (req_of "newuser3" "email" "bob") world0.

Lemma run1_outcome : fst run1 = Fulfilled true (ChannelOk "msg0") ChannelSkipped.
Proof. vm_compute. reflexivity. Qed.

Lemma stranded_keeps_credentials_witness :
  w_users (snd run3) = w_users world0 /\
  exists txid, loadPending (w_pending (snd run3)) =
    loadPending (w_pending world0) ++
    [pending_record 7 (account_data (req_of "newuser3" "email" "bob") bytes0 txid)].
Proof.
  apply (stranded_keeps_credentials cfg0 7 bytes0 (req_of "newuser3" "email" "bob") world0
           (ChannelFail "No registered email") ChannelSkipped (snd run3)); vm_compute; reflexivity.
Defined.

Lemma no_account_no_effect_witness : snd run2 = snd run1.
Proof.
  apply (no_account_no_effect cfg0 6 bytes0 (req_of "newuser2" "email" "alice") (snd run1)
           (Rejected "No tokens remaining")).
  - vm_compute. reflexivity.
  - left. eauto.
Defined.

Lemma quota_changes_only_by_one_useToken_witness :
  w_users (snd run1) = w_users world0 \/
  (exists er mr, fst run1 = Fulfilled (fst (useToken 5 "alice" (w_users world0))) er mr /\
     w_users (snd run1) = snd (useToken 5 "alice" (w_users world0))).
Proof.
  apply (quota_changes_only_by_one_useToken cfg0 5 bytes0 (req_of "newuser1" "email" "alice")).
  vm_compute. reflexivity.
Defined.

Lemma fulfilled_charges_and_clears_witness :
  true = true /\
  (exists d', w_users (snd run1) = mkStore (FPresent d') WriteOk /\
     authorized_users d' !! "alice" = Some (charge 5 (mkUser 1 0 1 (Some "alice@example.com") 0 None true ""))) /\
  (forall r, In r (loadPending (w_pending (snd run1))) -> pr_username r <> "newuser1"%string).
Proof.
  apply (fulfilled_charges_and_clears cfg0 5 bytes0 (req_of "newuser1" "email" "alice") world0
           true (ChannelOk "msg0") ChannelSkipped (snd run1)
           (mkDb {[ "alice" := mkUser 1 0 1 (Some "alice@example.com") 0 None true "";
                    "bob" := mkUser 2 0 2 None 0 None true "" ]} (mkMeta 0 0 2 3 0)));
    vm_compute; reflexivity.
Defined.

(** The chain and transaction id of a creation that succeeds. *)
Definition created (cfg : Config) (req : Request) : Chain * string :=
  match createHiveAccount cfg chain0 (rq_username req) (keys_of req bytes0) with
  | Ok p => p
  | Err _ => (chain0, "")
  end.

(** The faucet without a memo key. *)
Definition cfg1 : Config := mkConfig "faucet" "5Kfaucet" "" true.

Definition alice0 : User := mkUser 1 0 1 (Some "alice@example.com") 0 None true "".

Lemma both_needs_both_witness :
  let req := req_of "newuser4" "both" "alice" in
  let d := deliver cfg1 (fst (created cfg1 req)) (w_mail world0) (rq_method req) (email alice0)
             (account_data req bytes0 (snd (created cfg1 req))) (rq_requester req) in
  fst (processAccountRequest cfg1 8 bytes0 req world0) = Stranded (emailResult d) (memoResult d) /\
  w_users (snd (processAccountRequest cfg1 8 bytes0 req world0)) = w_users world0 /\
  w_pending (snd (processAccountRequest cfg1 8 bytes0 req world0)) =
    addPending (pending_record 8 (account_data req bytes0 (snd (created cfg1 req)))) (w_pending world0).
Proof.
  apply (both_needs_both cfg1 8 bytes0 (req_of "newuser4" "both" "alice") world0
           (fst (processAccountRequest cfg1 8 bytes0 (req_of "newuser4" "both" "alice") world0))
           (snd (processAccountRequest cfg1 8 bytes0 (req_of "newuser4" "both" "alice") world0))
           alice0 (fst (created cfg1 (req_of "newuser4" "both" "alice")))
           (snd (created cfg1 (req_of "newuser4" "both" "alice"))));
    vm_compute; try reflexivity. discriminate.
Defined.

Lemma replay_existing_account_no_effect_witness :
  snd (processAccountRequest cfg0 9 bytes0 (req_of "newuser1" "email" "alice") (snd run1)) = snd run1 /\
  ((exists r, fst (processAccountRequest cfg0 9 bytes0 (req_of "newuser1" "email" "alice") (snd run1))
              = Rejected r) \/
   (exists e, fst (processAccountRequest cfg0 9 bytes0 (req_of "newuser1" "email" "alice") (snd run1))
              = ProvisionFailed e)).
Proof.
  pose proof (replay_existing_account_no_effect cfg0 9 bytes0 (req_of "newuser1" "email" "alice")
                (snd run1)
                (fst (processAccountRequest cfg0 9 bytes0 (req_of "newuser1" "email" "alice") (snd run1)))
                (snd (processAccountRequest cfg0 9 bytes0 (req_of "newuser1" "email" "alice") (snd run1))))
    as Hr.
  destruct Hr as [Hw Ho]; [vm_compute; reflexivity | by rewrite <- surjective_pairing |].
  split; [exact Hw | exact Ho].
Defined.

Lemma unknown_method_creates_uncharged_witness :
  let req := req_of "newuser5" "sms" "alice" in
  processAccountRequest cfg0 10 bytes0 req world0 =
    (Stranded ChannelSkipped ChannelSkipped,
     mkWorld (w_users world0)
       (addPending (pending_record 10 (account_data req bytes0 (snd (created cfg0 req)))) (w_pending world0))
       (fst (created cfg0 req)) (w_mail world0)) /\
  account_exists (fst (created cfg0 req)) (rq_username req) = true.
Proof.
  apply (unknown_method_creates_uncharged cfg0 10 bytes0 (req_of "newuser5" "sms" "alice") world0
           alice0); vm_compute; reflexivity.
Defined.

(** Spec scenario 1 from the request page: [alice], logged in, asks for
    [Alice] by memo. *)
Definition payload_alice : json := appCustomJson (Some "alice") "Alice" "hive_memo" None None "t".

Definition op_alice : CustomJsonOp := mkCustomJson FAUCET_ID "payload" ["alice"] [].

Definition parse_alice (_ : string) : result json := Ok payload_alice.

Lemma app_requests_reach_pipeline_witness :
  let es := [DOMContentLoaded; NameInput "Alice"; EditForm (Some "hive_memo") None None;
             SubmitForm true "t"] in
  pending (app_run (initialApp (Some "alice") form0) es) !! 0 =
    Some (CustomJsonReq (Some "alice") FAUCET_ID "Posting" payload_alice "Account Creation Request") /\
  cj_id op_alice = FAUCET_ID /\ parse_alice (cj_json op_alice) = Ok payload_alice /\
  exists u m e n ts, payload_alice = appCustomJson (Some "alice") u m e n ts /\ u <> ""%string /\
    processCustomJson parse_alice cfg0 11 bytes0 op_alice 100 "T" world0 =
      (let r := processAccountRequest cfg0 11 bytes0
                  (mkRequest u (Val (JStr m)) (requester_of op_alice) 100 "T") world0 in
       (Some (fst r), snd r)).
Proof.
  split_and!; try reflexivity.
  apply (app_requests_reach_pipeline parse_alice (Some "alice") form0
           [DOMContentLoaded; NameInput "Alice"; EditForm (Some "hive_memo") None None;
            SubmitForm true "t"] 0 (Some "alice") FAUCET_ID "Posting"
           payload_alice "Account Creation Request"); reflexivity.
Defined.

(** The recovery file holds the keys of an earlier stranded account, and
    the disk is full. *)
Definition world_full : World (C:=Chain) (M:=Outbox) :=
  mkWorld users0 (mkStore (FPresent [mkPending "old1" 1 "alice" "P5old" "o" "a" "p" "m" "T0"]) WriteFails)
    chain0 [].

Definition run_full := processAccountRequest cfg0 7 bytes0 (req_of "newuser3" "email" "bob") world_full.

Lemma stranded_disk_full_loses_credentials_witness :
  processAccountRequest cfg0 7 bytes0 (req_of "newuser3" "email" "bob") world_full =
    (Stranded (ChannelFail "No registered email") ChannelSkipped, snd run_full) /\
  st_write (w_pending world_full) = WriteFails /\
  (exists c1 txid, createHiveAccount cfg0 (w_chain world_full) "newuser3"
                     (keys_of (req_of "newuser3" "email" "bob") bytes0) = Ok (c1, txid)) /\
  w_users (snd run_full) = w_users world_full /\ loadPending (w_pending (snd run_full)) = [].
Proof.
  assert (Hr : processAccountRequest cfg0 7 bytes0 (req_of "newuser3" "email" "bob") world_full =
                 (Stranded (ChannelFail "No registered email") ChannelSkipped, snd run_full))
    by (vm_compute; reflexivity).
  split_and!; [exact Hr|reflexivity|..];
    apply (stranded_disk_full_loses_credentials cfg0 7 bytes0 (req_of "newuser3" "email" "bob")
             world_full _ _ _ Hr); reflexivity.
Defined.
