(* ===== verification/Monitor.v ===== *)
(** * The block pump and its persisted cursor

    [src/backend/services/blockchain-monitor.js]:
    - the constructor's cursor set-up (lines 20-24 and 43-54) with
      [loadLastBlock] (lines 97-109): the height in [data/last_block.json],
      else [LAST_PROCESSED_BLOCK] from the environment;
    - [saveLastBlock(force)] (lines 111-123): writes the height through a
      temporary file and a rename ([write_atomic]), unless it is not positive or (without
      [force]) already saved;
    - [start] (lines 128-151): from the head block when there is no height;
    - [streamBlocks] (lines 156-181): fetch block [last + 1]; on a block,
      process it, advance, and save at multiples of [blockSaveInterval]; on
      no block or a fetch error, wait and retry the same height;
    - [stop] (lines 724-729): force-save, then clear the run flag.

    [Sys] is the monitor object, the cursor file, the world of [Pipeline]
    and, as ghost state, the list of heights processed so far. [pump_step]
    is the relation of everything that can happen next: one iteration of
    the loop (with whatever the node answers), [stop], [start] (the HTTP
    endpoints), and a crash followed by a restart of the process. *)

From S2P Require Import Prelude Json UserManager PendingStore Credentials Network Delivery Pipeline.

(** ** The monitor object *)

Record Monitor : Type := mkMon {
  isRunning : bool;
  lastProcessedBlock : Z;
  (** [this._lastSavedBlock], [undefined] until the first save *)
  lastSavedBlock : option Z;
  blockSaveInterval : Z
}.

Definition set_running (b : bool) (m : Monitor) : Monitor :=
  mkMon b (lastProcessedBlock m) (lastSavedBlock m) (blockSaveInterval m).
Definition set_last (n : Z) (m : Monitor) : Monitor :=
  mkMon (isRunning m) n (lastSavedBlock m) (blockSaveInterval m).
Definition set_saved (n : Z) (m : Monitor) : Monitor :=
  mkMon (isRunning m) (lastProcessedBlock m) (Some n) (blockSaveInterval m).

(** [loadLastBlock()]: a readable file holding a number sets the height. *)
Definition loadLastBlock (f : store Z) (m : Monitor) : Monitor :=
  match st_file f with
  | FPresent n => set_last n m
  | _ => m
  end.

(** The constructor: [interval] is [parseInt(BLOCK_SAVE_INTERVAL) || 20],
    [envBlock] is [parseInt(LAST_PROCESSED_BLOCK) || 0]. *)
Definition initMonitor (interval envBlock : Z) (f : store Z) : Monitor :=
  let m := loadLastBlock f (mkMon false 0 None interval) in
  if (lastProcessedBlock m =? 0)%Z then
    if (0 <? envBlock)%Z then set_last envBlock m else m
  else m.

(** [saveLastBlock(force)] *)
Definition saveLastBlock (force : bool) (m : Monitor) (f : store Z) : Monitor * store Z :=
  let n := lastProcessedBlock m in
  if (n <=? 0)%Z then (m, f)
  else if negb force && bool_decide (lastSavedBlock m = Some n) then (m, f)
  else
    match write_atomic n f with
    | (true, f') => (set_saved n m, f')
    | (false, f') => (m, f')
    end.

(** [start()]: [head] is [getDynamicGlobalProperties().head_block_number],
    a call that may fail (then the run flag is cleared again). *)
Definition start (head : result Z) (m : Monitor) : Monitor :=
  if isRunning m then m
  else
    let m1 := set_running true m in
    if (lastProcessedBlock m1 =? 0)%Z then
      match head with
      | Ok h => set_last (h - 1) m1
      | Err _ => set_running false m1
      end
    else m1.

(** [stop()] *)
Definition stop (m : Monitor) (f : store Z) : Monitor * store Z :=
  let '(m', f') := saveLastBlock true m f in (set_running false m', f').

(** ** The loop *)

(** What [client.database.getBlock(n)] gives. *)
Inductive fetch_result : Type :=
| Fetched (txs : list Transaction)
| NoBlock
| FetchError.

Section Pump.
Context {C M : Type} `{Ledger C} `{Mailer M} `{MemoCodec} `{KeyDerivation}.
Context (JSON_parse : string -> result json) (randomBytes : Z -> nat -> list Byte.byte).
Context (cfg : Config).

Record Sys : Type := mkSys {
  s_mon : Monitor;
  s_file : store Z;
  s_world : World (C:=C) (M:=M);
  (** ghost: the heights processed, in order *)
  s_done : list Z
}.

(** The body of the loop once [getBlock(nextBlock)] returned a block:
    [processBlock], the new height, and the save at a multiple of
    [blockSaveInterval] (lines 165-171). *)
Definition block_done (now : Z) (nextBlock : Z) (txs : list Transaction) (s : Sys) : Sys :=
  let m := s_mon s in
  let w' := snd (processBlock JSON_parse randomBytes cfg now txs nextBlock (s_world s)) in
  let m1 := set_last nextBlock m in
  let '(m2, f2) :=
    if (nextBlock mod blockSaveInterval m =? 0)%Z then saveLastBlock false m1 (s_file s)
    else (m1, s_file s) in
  mkSys m2 f2 w' (s_done s ++ [nextBlock]).

(** One iteration of the [while (this.isRunning)] loop of [streamBlocks]. *)
Definition pump_iter (now : Z) (fr : fetch_result) (s : Sys) : Sys :=
  match fr with
  | Fetched txs => block_done now (lastProcessedBlock (s_mon s) + 1) txs s
  | NoBlock | FetchError => s
  end.

(** The loop run over the node's successive answers, while the run flag is
    set. *)
Fixpoint stream_run (now : Z) (answers : list fetch_result) (s : Sys) : Sys :=
  match answers with
  | [] => s
  | fr :: t => if isRunning (s_mon s) then stream_run now t (pump_iter now fr s) else s
  end.

(** A process restart: a new monitor object from the files, then
    [start()]. *)
Definition restart (interval envBlock : Z) (head : result Z) (s : Sys) : Sys :=
  mkSys (start head (initMonitor interval envBlock (s_file s))) (s_file s) (s_world s) (s_done s).

(** The canonical chain: [blocks n] is block [n] once it is produced. *)
Context (blocks : Z -> option (list Transaction)).

Definition answer_ok (n : Z) (fr : fetch_result) : Prop :=
  match fr with
  | Fetched txs => blocks n = Some txs
  | NoBlock | FetchError => True
  end.

(** A head block number the node can report. *)
Definition head_ok (head : result Z) : Prop :=
  match head with Ok h => (0 < h)%Z | Err _ => True end.

(** What can happen next.  An iteration is not conditioned on the run
    flag: besides those the loop runs while the flag is set, the iteration
    whose [getBlock] was in flight when [stop] cleared it still completes
    (the flag is tested at the top of the loop only).  With [lossy], a
    restart may find no readable cursor file; without it, every restart
    finds one. *)
Inductive pump_step (lossy : bool) : Sys -> Sys -> Prop :=
| PS_iter s now fr :
    answer_ok (lastProcessedBlock (s_mon s) + 1) fr ->
    pump_step lossy s (pump_iter now fr s)
| PS_stop s :
    pump_step lossy s (let '(m, f) := stop (s_mon s) (s_file s) in mkSys m f (s_world s) (s_done s))
| PS_start s head :
    head_ok head ->
    pump_step lossy s (mkSys (start head (s_mon s)) (s_file s) (s_world s) (s_done s))
| PS_restart s envBlock head :
    head_ok head -> (lossy = true \/ exists p, st_file (s_file s) = FPresent p) ->
    pump_step lossy s (restart (blockSaveInterval (s_mon s)) envBlock head s).

Inductive reachable (lossy : bool) (s0 : Sys) : Sys -> Prop :=
| reach_refl : reachable lossy s0 s0
| reach_step s s' : reachable lossy s0 s -> pump_step lossy s s' -> reachable lossy s0 s'.

(** ** The invariant *)

(** No height in [(p, l]] is a save point. *)
Definition no_save_point (I p l : Z) : Prop :=
  forall k, (p < k <= l)%Z -> (k mod I <> 0)%Z.

(** The cursor file never runs ahead of the height in memory, and when it
    can be written no save point lies between them; [_lastSavedBlock] is
    what the file holds. *)
Definition cursor_ok (I : Z) (m : Monitor) (f : store Z) : Prop :=
  (forall p, st_file f = FPresent p ->
     (0 < p <= lastProcessedBlock m)%Z /\
     (st_writable f = true -> no_save_point I p (lastProcessedBlock m))) /\
  (forall q, lastSavedBlock m = Some q -> st_file f = FPresent q).

(** What holds in every run. *)
Definition cursor_inv (I : Z) (s : Sys) : Prop :=
  blockSaveInterval (s_mon s) = I /\ (0 <= lastProcessedBlock (s_mon s))%Z /\
  cursor_ok I (s_mon s) (s_file s).

(** What holds in the runs whose restarts find the cursor file: besides,
    every height after [base] up to the current one has been processed. *)
Definition pump_inv (I base : Z) (s : Sys) : Prop :=
  cursor_inv I s /\ (0 < lastProcessedBlock (s_mon s))%Z /\
  (forall n, (base < n <= lastProcessedBlock (s_mon s))%Z -> In n (s_done s)).

End Pump.

(** ** Lemmas *)

Lemma no_save_point_gap I p l : (0 < I)%Z -> no_save_point I p l -> (l - p < I)%Z.
Proof.
  intros HI Hn. destruct (Z.lt_ge_cases (l - p) I) as [|Hge]; [done|exfalso].
  pose proof (Z.div_mod p I ltac:(lia)) as Hd. pose proof (Z.mod_pos_bound p I HI).
  apply (Hn (I * (p / I) + I)%Z); [lia|].
  replace (I * (p / I) + I)%Z with ((p / I + 1) * I)%Z by ring. apply Z.mod_mul. lia.
Qed.

Lemma no_save_point_step I p l :
  no_save_point I p l -> ((l + 1) mod I <> 0)%Z -> no_save_point I p (l + 1).
Proof.
  intros Hn Hm k Hk. destruct (Z.eq_dec k (l + 1)) as [->|]; [done|]. apply Hn. lia.
Qed.

Lemma no_save_point_refl I p : no_save_point I p p.
Proof. intros k Hk. lia. Qed.

#[export] Hint Resolve no_save_point_step no_save_point_refl : faucet.

Section PumpProofs.
Context {C M : Type} `{Ledger C} `{Mailer M} `{MemoCodec} `{KeyDerivation}.
Context (JSON_parse : string -> result json) (randomBytes : Z -> nat -> list Byte.byte).
Context (cfg : Config) (blocks : Z -> option (list Transaction)).

Lemma saveLastBlock_fields force m f :
  isRunning (fst (saveLastBlock force m f)) = isRunning m /\
  lastProcessedBlock (fst (saveLastBlock force m f)) = lastProcessedBlock m /\
  blockSaveInterval (fst (saveLastBlock force m f)) = blockSaveInterval m.
Proof. unfold saveLastBlock, write_atomic. repeat case_match; simplify_eq/=; done. Qed.

(** Whatever [saveLastBlock] does (skip, fail, write), the cursor is in
    order afterwards, as long as the file was not ahead of memory. *)
Lemma saveLastBlock_cursor_ok I force m f :
  (0 <= lastProcessedBlock m)%Z ->
  (forall p, st_file f = FPresent p -> (0 < p <= lastProcessedBlock m)%Z) ->
  (forall q, lastSavedBlock m = Some q -> st_file f = FPresent q) ->
  cursor_ok I (fst (saveLastBlock force m f)) (snd (saveLastBlock force m f)).
Proof.
  intros Hnn Hle Hsaved. unfold saveLastBlock.
  destruct (Z.leb_spec (lastProcessedBlock m) 0).
  { simpl. split; [|done]. intros p Hp. destruct (Hle p Hp). lia. }
  destruct (negb force && bool_decide (lastSavedBlock m = Some (lastProcessedBlock m))) eqn:Hskip.
  - apply andb_true_iff in Hskip as [_ Hb]. apply bool_decide_eq_true in Hb.
    simpl. split; [|done].
    intros p Hp. rewrite (Hsaved _ Hb) in Hp. simplify_eq. auto with faucet.
  - unfold write_atomic, set_saved, st_writable. destruct (st_write f) eqn:Hw; simpl.
    + split; intros x Hx; cbn in Hx |- *; simplify_eq; [split; [lia|auto with faucet]|done].
    + split; [|done]. intros x Hx. split; [by apply Hle|unfold st_writable; by rewrite Hw].
    + split; [|done]. intros x Hx. split; [by apply Hle|unfold st_writable; by rewrite Hw].
Qed.

Lemma cursor_ok_next I m f :
  cursor_ok I m f -> ((lastProcessedBlock m + 1) mod I <> 0)%Z ->
  cursor_ok I (set_last (lastProcessedBlock m + 1) m) f.
Proof.
  intros [Hf Hs] Hm. split; [|done]. intros p Hp. destruct (Hf p Hp) as [? Hn].
  simpl. split; [lia|]. auto with faucet.
Qed.

Lemma done_next base n l (d : list Z) :
  (forall k, (base < k <= n)%Z -> In k d) -> l = (n + 1)%Z ->
  forall k, (base < k <= l)%Z -> In k (d ++ [l]).
Proof.
  intros Hd -> k Hk. rewrite in_app_iff. destruct (Z.eq_dec k (n + 1)) as [->|]; [right; by left|].
  left. apply Hd. lia.
Qed.

(** While the monitor runs, the loop moves the height by exactly one per
    fetched block and processes the blocks in order. *)
Lemma pump_iter_fields now fr (s : Sys (C:=C) (M:=M)) :
  isRunning (s_mon (pump_iter JSON_parse randomBytes cfg now fr s)) = isRunning (s_mon s) /\
  lastProcessedBlock (s_mon (pump_iter JSON_parse randomBytes cfg now fr s)) =
    (lastProcessedBlock (s_mon s) + if fr is Fetched _ then 1 else 0)%Z /\
  s_done (pump_iter JSON_parse randomBytes cfg now fr s) =
    s_done s ++ (if fr is Fetched _ then [lastProcessedBlock (s_mon s) + 1]%Z else []).
Proof.
  destruct fr as [txs| |]; [|cbn; split_and!; [done|lia|by rewrite app_nil_r]..].
  unfold pump_iter, block_done. set (n := (lastProcessedBlock (s_mon s) + 1)%Z).
  destruct (n mod blockSaveInterval (s_mon s) =? 0)%Z.
  - destruct (saveLastBlock_fields false (set_last n (s_mon s)) (s_file s)) as (Hr & Hl & _).
    destruct (saveLastBlock false (set_last n (s_mon s)) (s_file s)) as [m2 f2].
    cbn in *. split_and!; [done|lia|done].
  - cbn. split_and!; [done|lia|done].
Qed.

(** ** The cursor in every run *)

Lemma cursor_iter I now fr (s : Sys (C:=C) (M:=M)) :
  cursor_inv I s -> cursor_inv I (pump_iter JSON_parse randomBytes cfg now fr s).
Proof.
  intros Hinv. destruct fr as [txs| |]; [|exact Hinv|exact Hinv].
  destruct Hinv as (HIv & Hnn & [Hf Hs]).
  unfold pump_iter, block_done. set (n := (lastProcessedBlock (s_mon s) + 1)%Z).
  set (w' := snd _).
  destruct (Z.eqb_spec (n mod blockSaveInterval (s_mon s)) 0) as [Hm|Hm].
  - pose proof (saveLastBlock_cursor_ok I false (set_last n (s_mon s)) (s_file s)) as Hok.
    destruct (saveLastBlock_fields false (set_last n (s_mon s)) (s_file s)) as (_ & Hl & Hi).
    destruct (saveLastBlock false (set_last n (s_mon s)) (s_file s)) as [m2 f2].
    cbn in Hok, Hl, Hi |- *. unfold cursor_inv. cbn. split_and!; [congruence|lia|].
    apply Hok; cbn; [lia| |exact Hs]. intros p Hp. destruct (Hf p Hp). lia.
  - unfold cursor_inv. cbn. split_and!; [done|lia|].
    apply cursor_ok_next; [split; done|]. rewrite HIv in Hm. exact Hm.
Qed.

Lemma cursor_stop I (s : Sys (C:=C) (M:=M)) :
  cursor_inv I s ->
  cursor_inv I (let '(m, f) := stop (s_mon s) (s_file s) in mkSys m f (s_world s) (s_done s)).
Proof.
  intros (HIv & Hnn & [Hf Hs]). unfold stop.
  pose proof (saveLastBlock_cursor_ok I true (s_mon s) (s_file s) Hnn) as Hok.
  destruct (saveLastBlock_fields true (s_mon s) (s_file s)) as (_ & Hl & Hi).
  destruct (saveLastBlock true (s_mon s) (s_file s)) as [m2 f2]. cbn in *.
  unfold cursor_inv, set_running. cbn. split_and!; [congruence|lia|].
  apply Hok; [|exact Hs]. intros p Hp. by destruct (Hf p Hp).
Qed.

(** [start] moves the height only from [0], where no cursor can be. *)
Lemma cursor_start I head (s : Sys (C:=C) (M:=M)) :
  head_ok head -> cursor_inv I s ->
  cursor_inv I (mkSys (start head (s_mon s)) (s_file s) (s_world s) (s_done s)).
Proof.
  intros Hh (HIv & Hnn & [Hf Hs]). unfold start.
  destruct (isRunning (s_mon s)); [split_and!; done|].
  destruct (Z.eqb_spec (lastProcessedBlock (set_running true (s_mon s))) 0) as [Hz|_];
    [|split_and!; done].
  cbn in Hz. destruct head as [h|e]; unfold cursor_inv; cbn; split_and!; try done;
    try (cbn in Hh; lia); split; cbn.
  all: try (intros p Hp; destruct (Hf p Hp); lia).
  all: intros q Hq; destruct (Hf q (Hs q Hq)); lia.
Qed.

(** A restart, whether or not it finds the cursor file. *)
Lemma cursor_restart I envBlock head (s : Sys (C:=C) (M:=M)) :
  head_ok head -> cursor_inv I s ->
  cursor_inv I (restart (blockSaveInterval (s_mon s)) envBlock head s).
Proof.
  intros Hh (HIv & Hnn & [Hf Hs]). unfold restart, initMonitor, loadLastBlock.
  destruct (st_file (s_file s)) as [| |p] eqn:Hp.
  1,2: unfold start; cbn; repeat case_match; destruct head as [h|err]; cbn in *; simplify_eq;
       unfold cursor_inv; cbn; split_and!; try done; try lia;
       split; intros ? Hx; try rewrite Hp in Hx; discriminate.
  destruct (Hf p eq_refl) as [Hle _]. cbn.
  destruct (Z.eqb_spec p 0) as [|_]; [lia|]. unfold start. cbn.
  destruct (Z.eqb_spec p 0) as [|_]; [lia|]. unfold cursor_inv. cbn. split_and!; [done|lia|].
  split; [|done]. intros x Hx. rewrite Hp in Hx. simplify_eq. cbn. split; [lia|auto with faucet].
Qed.

Lemma pump_step_cursor lossy I (s s' : Sys (C:=C) (M:=M)) :
  cursor_inv I s -> pump_step JSON_parse randomBytes cfg blocks lossy s s' -> cursor_inv I s'.
Proof.
  intros Hinv Hstep. destruct Hstep.
  - by apply cursor_iter.
  - by apply cursor_stop.
  - by apply cursor_start.
  - by apply cursor_restart.
Qed.

(** ** The processed heights in the runs that keep their cursor *)

Lemma pump_iter_inv I base now fr (s : Sys (C:=C) (M:=M)) :
  pump_inv I base s -> pump_inv I base (pump_iter JSON_parse randomBytes cfg now fr s).
Proof.
  intros Hinv. destruct fr as [txs| |]; [|exact Hinv|exact Hinv].
  destruct Hinv as (Hc & Hpos & Hdone). split; [by apply cursor_iter|].
  destruct (pump_iter_fields now (Fetched txs) s) as (_ & Hl & Hd). rewrite Hl, Hd.
  split; [lia|]. eapply done_next; [exact Hdone|reflexivity].
Qed.

Lemma pump_inv_restart I base envBlock head p (s : Sys (C:=C) (M:=M)) :
  head_ok head -> pump_inv I base s -> st_file (s_file s) = FPresent p ->
  pump_inv I base (restart (blockSaveInterval (s_mon s)) envBlock head s).
Proof.
  intros Hh (Hc & Hpos & Hdone) Hp. pose proof (cursor_restart I envBlock head s Hh Hc) as Hc'.
  destruct Hc as (_ & _ & [Hf _]). destruct (Hf p Hp) as [Hle _].
  split; [exact Hc'|]. unfold restart, initMonitor, loadLastBlock in *. rewrite Hp in *. cbn in *.
  destruct (Z.eqb_spec p 0) as [|_]; [lia|]. unfold start in *. cbn in *.
  destruct (Z.eqb_spec p 0) as [|_]; [lia|]. cbn. split; [lia|].
  intros n Hn. apply Hdone. lia.
Qed.

Lemma pump_step_inv I base (s s' : Sys (C:=C) (M:=M)) :
  pump_inv I base s -> pump_step JSON_parse randomBytes cfg blocks false s s' -> pump_inv I base s'.
Proof.
  intros Hinv Hstep. destruct Hstep as [s now fr _|s|s head Hh|s envBlock head Hh Hr].
  - by apply pump_iter_inv.
  - destruct Hinv as (Hc & Hpos & Hdone). pose proof (cursor_stop I s Hc) as Hc'. unfold stop in *.
    destruct (saveLastBlock_fields true (s_mon s) (s_file s)) as (_ & Hl & _).
    destruct (saveLastBlock true (s_mon s) (s_file s)) as [m2 f2]. cbn in *.
    split; [exact Hc'|]. cbn. rewrite Hl. by split.
  - destruct Hinv as (Hc & Hpos & Hdone). split; [by apply cursor_start|]. unfold start. cbn.
    destruct (isRunning (s_mon s)); [by split|].
    destruct (Z.eqb_spec (lastProcessedBlock (s_mon s)) 0); [lia|]. by split.
  - destruct Hr as [|[p Hp]]; [done|]. by eapply pump_inv_restart.
Qed.

(** What the loop adds to the processed heights lies above the height it
    started from. *)
Lemma stream_run_done_above now answers (s : Sys (C:=C) (M:=M)) k :
  In k (s_done (stream_run JSON_parse randomBytes cfg now answers s)) ->
  In k (s_done s) \/ (lastProcessedBlock (s_mon s) < k)%Z.
Proof.
  revert s. induction answers as [|fr t IH]; intros s Hk; cbn [stream_run] in Hk; [by left|].
  destruct (isRunning (s_mon s)); [|by left].
  destruct (pump_iter_fields now fr s) as (_ & Hl & Hd).
  destruct (IH _ Hk) as [Hin|Hlt].
  - rewrite Hd in Hin. apply in_app_iff in Hin as [|Hin]; [by left|].
    destruct fr; simpl in Hin; [|done..]. destruct Hin as [<-|[]]. right. lia.
  - right. rewrite Hl in Hlt. destruct fr; lia.
Qed.

(** ** Properties *)


(** C28: a restart that finds no readable cursor file, with
    [LAST_PROCESSED_BLOCK] unset (or not positive), starts again from the
    head block [h] reported by the node, whatever height the crashed
    process had reached: no later iteration of the loop processes a height
    between that height and [h], so the requests in those blocks are never
    handled. *)
Theorem restart_without_cursor_skips I envBlock h now answers (s : Sys (C:=C) (M:=M)) :
  (forall p, st_file (s_file s) <> FPresent p) -> (envBlock <= 0)%Z ->
  Forall (fun k => k <= lastProcessedBlock (s_mon s))%Z (s_done s) ->
  lastProcessedBlock (s_mon (restart I envBlock (Ok h) s)) = (h - 1)%Z /\
  forall n, (lastProcessedBlock (s_mon s) < n < h)%Z ->
    ~ In n (s_done (stream_run JSON_parse randomBytes cfg now answers (restart I envBlock (Ok h) s))).
Proof.
  intros Hf He Hd.
  assert (Hl : lastProcessedBlock (s_mon (restart I envBlock (Ok h) s)) = (h - 1)%Z).
  { unfold restart, initMonitor, loadLastBlock.
    destruct (st_file (s_file s)) as [| |p] eqn:Hp; [..|by destruct (Hf p)]; cbn;
      destruct (Z.ltb_spec 0 envBlock); try lia; done. }
  split; [exact Hl|]. intros n Hn Hin.
  apply stream_run_done_above in Hin as [Hin|Hlt]; [|lia].
  rewrite List.Forall_forall in Hd. specialize (Hd n Hin). lia.
Qed.

Definition fetched (fr : fetch_result) : bool := if fr is Fetched _ then true else false.

(** C27: the loop of [streamBlocks], run while the monitor is running on
    any sequence of answers of the node, advances the height by exactly the
    number of blocks it fetched and processes the heights [last + 1],
    [last + 2], ... in this order, none skipped or repeated; a missing
    block or a fetch error never advances it. *)
Theorem stream_run_progress now answers (s : Sys (C:=C) (M:=M)) :
  isRunning (s_mon s) = true ->
  let k := length (List.filter fetched answers) in
  lastProcessedBlock (s_mon (stream_run JSON_parse randomBytes cfg now answers s)) =
    (lastProcessedBlock (s_mon s) + Z.of_nat k)%Z /\
  s_done (stream_run JSON_parse randomBytes cfg now answers s) =
    s_done s ++ map (fun i => lastProcessedBlock (s_mon s) + 1 + Z.of_nat i)%Z (seq 0 k).
Proof.
  revert s. induction answers as [|fr t IH]; intros s Hrun; cbn [stream_run].
  - simpl. split; [lia|by rewrite app_nil_r].
  - rewrite Hrun. destruct (pump_iter_fields now fr s) as (Hr & Hl & Hd).
    destruct (IH (pump_iter JSON_parse randomBytes cfg now fr s)) as [Hl' Hd'];
      [by rewrite Hr|].
    rewrite Hl', Hd', Hl, Hd. destruct fr as [txs| |]; cbn [List.filter fetched length].
    + rewrite <- app_assoc. split; [lia|]. f_equal. cbn. f_equal; [lia|].
      rewrite <- seq_shift, map_map. apply map_ext. intros i. lia.
    + rewrite app_nil_r. split; [lia|]. f_equal. apply map_ext. intros i. lia.
    + rewrite app_nil_r. split; [lia|]. f_equal. apply map_ext. intros i. lia.
Qed.

End PumpProofs.

(** ** Concrete runs *)

#[local] Existing Instance toy_keys.

Definition parse0 (_ : string) : result json := Err "Unexpected token".
Definition rng0 (_ : Z) (_ : nat) : list Byte.byte := bytes0.
Definition blocks0 (_ : Z) : option (list Transaction) := Some [].

(** A monitor that started from head block 101 with no cursor file yet. *)
Definition sys0 : Sys (C:=Chain) (M:=Outbox) :=
  mkSys (mkMon true 100 None 20) (mkStore FMissing WriteOk) world0 [].

Lemma sys0_inv : pump_inv 20 100 sys0.
Proof.
  unfold pump_inv, cursor_ok. cbn. split_and!; try done; try lia; intros n Hn; lia.
Qed.

(** One iteration after the start from head block 101. *)
Definition sys1 : Sys (C:=Chain) (M:=Outbox) := pump_iter parse0 rng0 cfg0 5 (Fetched []) sys0.

Lemma sys1_reachable lossy : reachable parse0 rng0 cfg0 blocks0 lossy sys0 sys1.
Proof. eapply reach_step; [apply reach_refl|]. apply PS_iter; reflexivity. Defined.


Lemma stream_run_progress_witness :
  let k := length (List.filter fetched [Fetched []; NoBlock; FetchError; Fetched []]) in
  lastProcessedBlock (s_mon (stream_run parse0 rng0 cfg0 5
                               [Fetched []; NoBlock; FetchError; Fetched []] sys0)) =
    (lastProcessedBlock (s_mon sys0) + Z.of_nat k)%Z /\
  s_done (stream_run parse0 rng0 cfg0 5 [Fetched []; NoBlock; FetchError; Fetched []] sys0) =
    s_done sys0 ++ map (fun i => lastProcessedBlock (s_mon sys0) + 1 + Z.of_nat i)%Z (seq 0 k).
Proof. apply stream_run_progress. reflexivity. Defined.

(** Block 101 is processed (not a save point, so nothing is written),
    the process dies, and the restarted monitor finds no cursor file; the
    node reports head block 150. *)
Lemma restart_without_cursor_skips_witness :
  (forall p, st_file (s_file sys1) <> FPresent p) /\ (0 <= 0)%Z /\
  Forall (fun k => k <= lastProcessedBlock (s_mon sys1))%Z (s_done sys1) /\
  lastProcessedBlock (s_mon (restart 20 0 (Ok 150%Z) sys1)) = (150 - 1)%Z /\
  (forall n, (lastProcessedBlock (s_mon sys1) < n < 150)%Z ->
     ~ In n (s_done (stream_run parse0 rng0 cfg0 6 [Fetched []; Fetched []]
                       (restart 20 0 (Ok 150%Z) sys1)))).
Proof.
  assert (Hf : forall p, st_file (s_file sys1) <> FPresent p) by (intros p; vm_compute; discriminate).
  assert (Hd : Forall (fun k => k <= lastProcessedBlock (s_mon sys1))%Z (s_done sys1)).
  { vm_compute. repeat constructor; discriminate. }
  split_and!; [exact Hf|lia|exact Hd|..];
    apply (restart_without_cursor_skips parse0 rng0 cfg0 20 0 150 6 [Fetched []; Fetched []] sys1);
    (exact Hf || lia || exact Hd).
Defined.
