(* ===== verification/Server.v ===== *)
(** * The HTTP server and the block loops it runs

    [src/unnamed/part_001], lines 426-522: an Express application that
    builds one [BlockchainMonitor], answers [GET /health], [GET /status],
    [POST /monitor/start] and [POST /monitor/stop], and otherwise [404];
    at boot it calls [monitor.start()].  [start] ([blockchain-monitor.js]
    lines 128-151) sets the run flag and awaits [streamBlocks], whose
    [while (this.isRunning)] loop (lines 156-181) awaits the node between
    iterations; [stop] (lines 724-729) only clears the flag.

    - [handle] is the routing of one request, [backend_fetch] what the
      browser's [fetch] receives from this server, and
      [backend_api_mismatch] what the client of [src/scripts/api.js] gets
      from it.
    - [Srv] is the monitor's [Sys] of [Monitor] together with the loops
      alive: each is suspended at its next [await], the node's
      [getBlock] or the timer of [sleep].  [srv_step] is one event: an HTTP
      request to [start] or [stop], a process restart, or the resumption of
      one loop with the node's answer.  Several loops can be alive at once:
      [stop] does not end a loop that is suspended, and a later [start]
      starts another.

    The body of one iteration after [getBlock] answered ([processBlock],
    the new height, the save) is one step, as in [Monitor].  A restart
    runs [start] to its first [await] in one step. *)

From S2P Require Import Prelude Json UserManager PendingStore Credentials Validation Api Network Delivery Pipeline Monitor.

(** ** Routes *)

Record HttpResponse : Type := mkResp {
  resp_status : Z;
  resp_body : json
}.

(** Express matches paths without case and with an optional trailing
    slash. *)
Fixpoint strip_slash (p : string) : string :=
  match p with
  | EmptyString => EmptyString
  | String c EmptyString => if Ascii.eqb c "/" then EmptyString else String c EmptyString
  | String c t => String c (strip_slash t)
  end.

Definition normalize_path (p : string) : string := toLowerCase (strip_slash p).

(** [app.get] also answers [HEAD]. *)
Definition route_is (meth route : string) (m p : string) : bool :=
  (String.eqb m meth || (String.eqb meth "GET" && String.eqb m "HEAD")) &&
  String.eqb (normalize_path p) route.

(** What [process.uptime()], [process.memoryUsage()] and
    [new Date().toISOString()] give at the time of the request. *)
Record ProcInfo : Type := mkProcInfo {
  pi_uptime : json;
  pi_memory : json;
  pi_timestamp : string
}.

Definition healthBody (m : Monitor) (pi : ProcInfo) : json :=
  JObj [("status", JStr "ok"); ("service", JStr "hive-account-faucet-backend");
        ("version", JStr "1.0.0"); ("monitoring", JBool (isRunning m));
        ("lastBlock", JNum (lastProcessedBlock m)); ("timestamp", JStr (pi_timestamp pi))].

Definition statusBody (m : Monitor) (pi : ProcInfo) : json :=
  JObj [("monitoring", JBool (isRunning m)); ("lastProcessedBlock", JNum (lastProcessedBlock m));
        ("uptime", pi_uptime pi); ("memoryUsage", pi_memory pi);
        ("timestamp", JStr (pi_timestamp pi))].

(** What a route does to the monitor besides answering. *)
Inductive route_action : Type := NoAction | DoStart | DoStop.

Definition message_body (msg : string) : json := JObj [("message", JStr msg)].

(** The middleware and the routes, in the order the application registers
    them; [bodyParses] is whether [express.json()] could parse the body
    (a parse error goes to the error middleware). *)
Definition handle (m : Monitor) (meth path : string) (bodyParses : bool) (pi : ProcInfo)
    : HttpResponse * route_action :=
  if negb bodyParses then (mkResp 500 (JObj [("error", JStr "Internal server error")]), NoAction)
  else if route_is "GET" "/health" meth path then (mkResp 200 (healthBody m pi), NoAction)
  else if route_is "GET" "/status" meth path then (mkResp 200 (statusBody m pi), NoAction)
  else if route_is "POST" "/monitor/start" meth path then
    if isRunning m then (mkResp 200 (message_body "Monitor already running"), NoAction)
    else (mkResp 200 (message_body "Monitor started"), DoStart)
  else if route_is "POST" "/monitor/stop" meth path then
    (mkResp 200 (message_body "Monitor stopped"), DoStop)
  else (mkResp 404 (JObj [("error", JStr "Endpoint not found")]), NoAction).

(** The rest of [s] after the prefix [p]. *)
Fixpoint strip_prefix (p s : string) : option string :=
  match p, s with
  | EmptyString, _ => Some s
  | String a p', String b s' => if Ascii.eqb a b then strip_prefix p' s' else None
  | String _ _, EmptyString => None
  end.

(** What [fetch] gets from this server when the client's base URL points
    at it: the response, [ok] for a 2xx status; any other URL is not this
    server and is left out ([Failed to fetch]). *)
Definition backend_fetch (m : Monitor) (pi : ProcInfo) (base : string) (rq : FetchRequest) : fetch_outcome :=
  match strip_prefix base (req_url rq) with
  | Some path =>
      let r := fst (handle m (req_method rq) path true pi) in
      FResponse ((200 <=? resp_status r) && (resp_status r <? 300))%Z (resp_status r) (Ok (resp_body r))
  | None => FThrow "TypeError" "Failed to fetch"
  end.

(** ** Lemmas on routing *)

Lemma strip_prefix_app base p : strip_prefix base (base ++ p) = Some p.
Proof. induction base as [|a base IH]; simpl; [done|]. by rewrite Ascii.eqb_refl. Qed.

(** A path under [/api] keeps its first two characters when normalised. *)
Lemma normalize_api t : exists r, normalize_path (String "/" (String "a" t)) = String "/" (String "a" r).
Proof. unfold normalize_path. destruct t; simpl; eexists; reflexivity. Qed.

Definition NOT_FOUND : HttpResponse := mkResp 404 (JObj [("error", JStr "Endpoint not found")]).

(** Every path under [/api] is answered [404]. *)
Lemma handle_api m meth t pi : fst (handle m meth (String "/" (String "a" t)) true pi) = NOT_FOUND.
Proof.
  destruct (normalize_api t) as [r Hr]. unfold handle, route_is. rewrite Hr.
  simpl. by rewrite !andb_false_r.
Qed.

Definition HTTP_404 : string := "HTTP error! status: 404".

(** What [makeRequest] makes of a request to an [/api] path of this
    server. *)
Lemma makeRequest_api m pi base meth p body :
  String.prefix "/a" p = true ->
  makeRequest (backend_fetch m pi base) (mkFetchRequest (base ++ p) meth body) = Err HTTP_404.
Proof.
  intros Hp. destruct p as [|c1 [|c2 t]]; cbn [String.prefix] in Hp;
    [discriminate|destruct (ascii_dec "/" c1); discriminate|].
  destruct (ascii_dec "/" c1) as [<-|]; [|discriminate].
  destruct (ascii_dec "a" c2) as [<-|]; [|discriminate].
  unfold makeRequest, backend_fetch. simpl. rewrite strip_prefix_app, handle_api. done.
Qed.

(** ** The browser's client against this server *)

(** C15: the API client of [src/scripts/api.js] and this server do not
    fit together: the client asks for [/api/create-account],
    [/api/status/<id>], [/api/check-authorization/<name>] and
    [/api/health], which this server answers with [404]; so, whatever the
    monitor's state, a request submission and a status check reject with
    [HTTP error! status: 404], polling ends with its catch block's
    message, the authorization check rejects, and the health check
    reports the backend as unhealthy. *)
Theorem backend_api_mismatch m pi c fd rid u maxAttempts :
  isRequesting c = false ->
  let mk := makeRequest (backend_fetch m pi (baseUrl c)) in
  fst (submitAccountRequest mk fd c) = Err HTTP_404 /\
  checkRequestStatus mk c rid = Err HTTP_404 /\
  fst (fst (pollRequestStatusClient (fun _ => mk) c rid maxAttempts)) = PollRejected UNABLE /\
  checkUserAuthorization mk c u = Err "Unable to verify authorization" /\
  checkHealth mk c =
    JObj [("healthy", JBool false); ("error", JStr HTTP_404); ("suggestion", JStr HEALTH_SUGGESTION)].
Proof.
  intros Hr mk.
  assert (Hst : checkRequestStatus mk c rid = Err HTTP_404) by (apply makeRequest_api; done).
  split_and!.
  - unfold submitAccountRequest, submit_begin. rewrite Hr. cbn [fst snd].
    unfold mk. by rewrite makeRequest_api.
  - exact Hst.
  - unfold pollRequestStatusClient, pollRequestStatus. apply poll_all_err; [|lia].
    intros k. exists HTTP_404. exact Hst.
  - unfold checkUserAuthorization, mk. by rewrite makeRequest_api.
  - unfold checkHealth, mk. by rewrite makeRequest_api.
Qed.

Definition mon0 : Monitor := mkMon true 100 None 20.
Definition proc0 : ProcInfo := mkProcInfo (JNum 5) (JObj []) "2024-01-01T00:00:00.000Z".

Lemma backend_api_mismatch_witness :
  let mk := makeRequest (backend_fetch mon0 proc0 (baseUrl (newApiClient "localhost"))) in
  fst (submitAccountRequest mk form_a (newApiClient "localhost")) = Err HTTP_404 /\
  checkRequestStatus mk (newApiClient "localhost") "req_1" = Err HTTP_404 /\
  fst (fst (pollRequestStatusClient (fun _ => mk) (newApiClient "localhost") "req_1" 60)) =
    PollRejected UNABLE /\
  checkUserAuthorization mk (newApiClient "localhost") "alice" = Err "Unable to verify authorization" /\
  checkHealth mk (newApiClient "localhost") =
    JObj [("healthy", JBool false); ("error", JStr HTTP_404); ("suggestion", JStr HEALTH_SUGGESTION)].
Proof. apply backend_api_mismatch. reflexivity. Defined.

(** ** The loops of [streamBlocks] *)

(** Where a loop is suspended: [start] awaiting the head block
    ([getDynamicGlobalProperties], when there is no height yet), the loop
    awaiting [getBlock(n)], or awaiting [sleep]. *)
Inductive loop_pc : Type :=
| LAwaitHead
| LFetching (n : Z)
| LSleeping.

Section Loops.
Context {C M : Type} `{Ledger C} `{Mailer M} `{MemoCodec} `{KeyDerivation}.
Context (JSON_parse : string -> result json) (randomBytes : Z -> nat -> list Byte.byte).
Context (cfg : Config).

Record Srv : Type := mkSrv {
  sv_sys : Sys (C:=C) (M:=M);
  sv_loops : list loop_pc
}.

(** An HTTP request to [POST /monitor/start] (or the boot call of
    [start]) or to [POST /monitor/stop]; the [i]-th loop resuming with the
    node's answer to [getBlock], with its timer, or with the head block;
    the process dying and starting again. *)
Inductive srv_event : Type :=
| HttpStart
| HttpStop
| Resume (i : nat) (now : Z) (fr : fetch_result)
| ResumeHead (i : nat) (head : result Z)
| Restart (envBlock : Z) (head : result Z).

(** A loop that resumed runs to its next [await]: the test of the run
    flag, then [getBlock(lastProcessedBlock + 1)]; [None] when it left
    the [while]. *)
Definition loop_next (s : Sys (C:=C) (M:=M)) : option loop_pc :=
  if isRunning (s_mon s) then Some (LFetching (lastProcessedBlock (s_mon s) + 1)) else None.

Definition set_mon (m : Monitor) (s : Sys (C:=C) (M:=M)) : Sys :=
  mkSys m (s_file s) (s_world s) (s_done s).

(** The loop [pc] resumed. *)
Definition resume (now : Z) (fr : fetch_result) (pc : loop_pc) (s : Sys (C:=C) (M:=M))
    : Sys * option loop_pc :=
  match pc with
  | LFetching n =>
      match fr with
      | Fetched txs =>
          let s' := block_done JSON_parse randomBytes cfg now n txs s in (s', loop_next s')
      | NoBlock | FetchError => (s, Some LSleeping)
      end
  | LSleeping => (s, loop_next s)
  | LAwaitHead => (s, Some LAwaitHead)
  end.

(** [start()] resumed with the head block: the height, then the loop;
    a failure is caught and clears the run flag. *)
Definition resume_head (head : result Z) (s : Sys (C:=C) (M:=M)) : Sys * option loop_pc :=
  match head with
  | Ok h => let s' := set_mon (set_last (h - 1) (s_mon s)) s in (s', loop_next s')
  | Err _ => (set_mon (set_running false (s_mon s)) s, None)
  end.

Definition update_loop (i : nat) (o : option loop_pc) (l : list loop_pc) : list loop_pc :=
  match o with Some pc => <[i := pc]> l | None => delete i l end.

Definition srv_step (s : Srv) (e : srv_event) : Srv :=
  let sy := sv_sys s in
  let m := s_mon sy in
  match e with
  | HttpStart =>
      if isRunning m then s
      else
        let m1 := set_running true m in
        mkSrv (set_mon m1 sy)
          (sv_loops s ++ [if (lastProcessedBlock m1 =? 0)%Z then LAwaitHead
                          else LFetching (lastProcessedBlock m1 + 1)])
  | HttpStop =>
      let '(m', f') := stop m (s_file sy) in mkSrv (mkSys m' f' (s_world sy) (s_done sy)) (sv_loops s)
  | Resume i now fr =>
      match sv_loops s !! i with
      | Some (LFetching n) =>
          let '(sy', o) := resume now fr (LFetching n) sy in mkSrv sy' (update_loop i o (sv_loops s))
      | Some LSleeping =>
          let '(sy', o) := resume now fr LSleeping sy in mkSrv sy' (update_loop i o (sv_loops s))
      | _ => s
      end
  | ResumeHead i head =>
      match sv_loops s !! i with
      | Some LAwaitHead =>
          let '(sy', o) := resume_head head sy in mkSrv sy' (update_loop i o (sv_loops s))
      | _ => s
      end
  | Restart envBlock head =>
      let sy' := restart (blockSaveInterval m) envBlock head sy in
      mkSrv sy' (match loop_next sy' with Some pc => [pc] | None => [] end)
  end.

Definition srv_run (s : Srv) (es : list srv_event) : Srv := fold_left srv_step es s.

End Loops.

(** ** Lemmas on the loops *)

Section LoopProofs.
Context {C M : Type} `{Ledger C} `{Mailer M} `{MemoCodec} `{KeyDerivation}.
Context (JSON_parse : string -> result json) (randomBytes : Z -> nat -> list Byte.byte).
Context (cfg : Config).

(** After a block: the flag as it was, the height the loop fetched, the
    block recorded. *)
Lemma block_done_fields now n txs (s : Sys (C:=C) (M:=M)) :
  isRunning (s_mon (block_done JSON_parse randomBytes cfg now n txs s)) = isRunning (s_mon s) /\
  lastProcessedBlock (s_mon (block_done JSON_parse randomBytes cfg now n txs s)) = n /\
  blockSaveInterval (s_mon (block_done JSON_parse randomBytes cfg now n txs s)) = blockSaveInterval (s_mon s) /\
  s_done (block_done JSON_parse randomBytes cfg now n txs s) = s_done s ++ [n].
Proof.
  unfold block_done, saveLastBlock, write_atomic. repeat case_match; simplify_eq/=; done.
Qed.

(** C16: [stop] does not end a loop suspended in [getBlock], and the
    [POST /monitor/start] route only tests the run flag: after
    [/monitor/stop] then [/monitor/start] while the loop waits for block
    [n], two loops run, both process block [n] (its requests are handled
    twice), and both go on fetching the same heights, against the single
    pump of the spec (section 5). *)
Theorem stop_start_two_loops (s : Srv (C:=C) (M:=M)) now1 now2 txs :
  isRunning (s_mon (sv_sys s)) = true -> lastProcessedBlock (s_mon (sv_sys s)) <> 0%Z ->
  sv_loops s = [LFetching (lastProcessedBlock (s_mon (sv_sys s)) + 1)] ->
  let s' := srv_run JSON_parse randomBytes cfg s
              [HttpStop; HttpStart; Resume 0 now1 (Fetched txs); Resume 1 now2 (Fetched txs)] in
  s_done (sv_sys s') = s_done (sv_sys s) ++ [lastProcessedBlock (s_mon (sv_sys s)) + 1;
                                             lastProcessedBlock (s_mon (sv_sys s)) + 1]%Z /\
  sv_loops s' = [LFetching (lastProcessedBlock (s_mon (sv_sys s)) + 2);
                 LFetching (lastProcessedBlock (s_mon (sv_sys s)) + 2)]%Z.
Proof.
  destruct s as [[m f w d] loops]. intros Hr Hl Hloops. simpl in *. subst loops.
  unfold srv_run. cbn [fold_left]. unfold stop.
  destruct (saveLastBlock_fields true m f) as (Hr1 & Hl1 & _).
  destruct (saveLastBlock true m f) as [m1 f1]. simpl in *. rewrite Hl1.
  destruct (Z.eqb_spec (lastProcessedBlock m) 0); [lia|]. simpl.
  set (s2 := set_mon _ _).
  destruct (block_done_fields now1 (lastProcessedBlock m + 1) txs s2)
    as (R1 & L1 & _ & D1).
  set (b1 := block_done _ _ _ now1 _ txs s2) in *.
  assert (Hn1 : loop_next b1 = Some (LFetching (lastProcessedBlock m + 2))).
  { unfold loop_next. rewrite R1, L1. simpl. f_equal. f_equal. lia. }
  rewrite Hn1. simpl.
  destruct (block_done_fields now2 (lastProcessedBlock m + 1) txs b1)
    as (R2 & L2 & _ & D2).
  set (b2 := block_done _ _ _ now2 _ txs b1) in *.
  assert (Hn2 : loop_next b2 = Some (LFetching (lastProcessedBlock m + 2))).
  { unfold loop_next. rewrite R2, L2, R1. simpl. f_equal. f_equal. lia. }
  rewrite Hn2. simpl. split; [|done]. rewrite D2, D1. simpl. by rewrite <- app_assoc.
Qed.

End LoopProofs.



(** ** Concrete runs *)

#[local] Existing Instance toy_keys.

(** The monitor of [Monitor] waiting for block 101. *)
Definition srv0 : Srv (C:=Chain) (M:=Outbox) := mkSrv sys0 [LFetching 101].

Lemma stop_start_two_loops_witness :
  let s' := srv_run parse0 rng0 cfg0 srv0
              [HttpStop; HttpStart; Resume 0 5 (Fetched []); Resume 1 6 (Fetched [])] in
  s_done (sv_sys s') = s_done (sv_sys srv0) ++ [lastProcessedBlock (s_mon (sv_sys srv0)) + 1;
                                                lastProcessedBlock (s_mon (sv_sys srv0)) + 1]%Z /\
  sv_loops s' = [LFetching (lastProcessedBlock (s_mon (sv_sys srv0)) + 2);
                 LFetching (lastProcessedBlock (s_mon (sv_sys srv0)) + 2)]%Z.
Proof. apply (stop_start_two_loops parse0 rng0 cfg0 srv0); reflexivity || discriminate. Defined.
